(** * Diagram scripts of the ultrasonic water-level sensor paper

    The repository holds six stand-alone Python scripts
    ([research_paper/scripts/generate_*.py]).  Each one builds figures with
    matplotlib and saves them as a [.png] and a [.pdf] file.

    The scripts are embedded as programs of a small monad of state and
    exceptions.  The state is what the Python process keeps between
    statements: how it was started, pyplot's figure counter, the global
    random-number stream of [numpy.random] and the sequence of library calls
    made so far.  A library call is recorded with the object it is invoked
    on, the method name and the evaluated positional and keyword arguments,
    so the recorded sequence is what the libraries get to see.  Every call
    expression of the scripts that enters matplotlib or numpy is such a
    call: a method of pyplot, of a figure, of an axes or of an artist, a
    class that is instantiated ([FancyBboxPatch(...)]) and a function that
    is called by its name ([np.linspace(...)]).  Any of them may raise, and
    an exception ends the statements that follow it.  Python's own
    functions ([len], [range], [dict], ...), the operators and the
    subscripts are evaluated in place.

    Numbers are exact rationals ([Q]); Python's binary floating point is not
    modelled.  String literals are kept in their Python source form, escape
    sequences such as [\n] unexpanded. *)

From Stdlib Require Import List String QArith Qminmax Qabs ZArith Lia Lqa Bool Arith.
Import ListNotations.
Local Open Scope string_scope.
Local Open Scope Q_scope.

Set Implicit Arguments.

(** ** Values passed to the libraries *)

(** An object handed out by the library.  Figures are numbered in the order
    pyplot opens them, axes in the order they are created; any other returned
    object (a bar, a line) is named by its figure, the position of the call
    that returned it and its index in the returned sequence. *)
Inductive handle : Type :=
| Fig (f : nat)
| Axes (f a : nat)
| Artist (f call_index item : nat).

#[warnings="-register-all"] Inductive value : Type :=
| Bool (b : bool)
| Num (q : Q)
| Str (s : string)
| Tup (vs : list value)
| Lst (vs : list value)
| Arr (qs : list Q)
| Dict (kvs : list (string * value))
| Fmt (template : string) (holes : list value)
| Obj (class : string) (args : list value) (kwargs : list (string * value))
| Ref (h : handle).

Definition kwargs := list (string * value).

(** What a call is addressed to: the [pyplot] module (which acts on its
    current figure), an object the library handed out, or a name the script
    imported from a library, for a class that is instantiated and for a
    function that is called by its name. *)
Inductive receiver : Type :=
| Pyplot
| On (h : handle)
| Imported.

Record call : Type := Call {
  target : receiver;
  method : string;
  args : list value;
  kw : kwargs
}.

(** What a script does to the outside: a library call, issued while figure
    [current] is pyplot's current figure, or a line printed to standard
    output. *)
Inductive action : Type :=
| Invoke (current : nat) (c : call)
| Output (line : string).

(** ** The script monad *)

(** What the operating system hands to the process: the command line
    ([sys.argv]) and the environment ([os.environ]). *)
Record invocation : Type := Invocation {
  argv : list string;
  environ : list (string * string)
}.

(** An exception raised by a library call. *)
Inductive exn : Type := Raised (kind message : string).

(** Which library calls raise: the library decides from the position of
    the call in the run and the call itself. *)
Definition failures : Type := nat -> call -> option exn.

Definition no_failures : failures := fun _ _ => None.

(** The state of the Python process.  [started] is how it was invoked;
    [fails] tells which library calls will raise; [figures] counts the
    figures pyplot has opened, the last one being the current figure;
    [axes_made] counts the axes created; [rng] is the stream of
    standard-normal draws that numpy's global generator will still hand out;
    [past] holds everything performed so far, newest first: the library
    calls of every kind and the lines printed. *)
Record state : Type := State {
  started : invocation;
  fails : failures;
  figures : nat;
  axes_made : nat;
  rng : nat -> Q;
  past : list action
}.

(** A statement either completes with a value or raises. *)
Inductive result (A : Type) : Type :=
| Ok (a : A)
| Raise (e : exn).
Arguments Ok {A} a.
Arguments Raise {A} e.

Definition M (A : Type) : Type := state -> result A * state.

Definition ret {A : Type} (a : A) : M A := fun s => (Ok a, s).

(** Sequencing: an exception raised by the first statement skips the
    rest. *)
Definition bind {A B : Type} (m : M A) (k : A -> M B) : M B :=
  fun s =>
    match m s with
    | (Ok a, s') => k a s'
    | (Raise e, s') => (Raise e, s')
    end.

Declare Scope script_scope.
Delimit Scope script_scope with script.
Notation "x <- m ;; k" := (bind m (fun x => k))
  (at level 61, m at next level, k at level 200, right associativity) : script_scope.
Notation "' pat <- m ;; k" := (bind m (fun x => match x with pat => k end))
  (at level 61, pat pattern, m at next level, k at level 200, right associativity)
  : script_scope.
Notation "m ;; k" := (bind m (fun _ => k))
  (at level 61, k at level 200, right associativity) : script_scope.
Local Open Scope script_scope.

Definition current (s : state) : nat := pred (figures s).

Definition set_fails (f : failures) (s : state) : state :=
  State (started s) f (figures s) (axes_made s) (rng s) (past s).
Definition set_figures (n : nat) (s : state) : state :=
  State (started s) (fails s) n (axes_made s) (rng s) (past s).
Definition set_axes_made (n : nat) (s : state) : state :=
  State (started s) (fails s) (figures s) n (rng s) (past s).
Definition set_rng (r : nat -> Q) (s : state) : state :=
  State (started s) (fails s) (figures s) (axes_made s) r (past s).
Definition record (a : action) (s : state) : state :=
  State (started s) (fails s) (figures s) (axes_made s) (rng s) (a :: past s).

(** What the figures and the terminal get to see: the calls on pyplot and
    on the objects the library handed out, and the lines printed.  Making
    an object or computing an array is not among them. *)
Definition visible (a : action) : bool :=
  match a with
  | Invoke _ c => match target c with Imported => false | _ => true end
  | Output _ => true
  end.

(** The actions on figures and terminal performed so far, newest first. *)
Definition issued (s : state) : list action := filter visible (past s).

(** [plt.gcf()]: pyplot's current figure; pyplot opens one when there is
    none. *)
Definition gcf : M nat := fun s =>
  match figures s with
  | O => (Ok O, set_figures 1 s)
  | S f => (Ok f, s)
  end.

(** A library call: it is recorded, and it raises when the library says
    so, which the library decides from the position of the call among
    everything performed; otherwise the answer is the position of the call
    among the actions on figures and terminal. *)
Definition emit (c : call) : M nat := fun s =>
  let n := List.length (issued s) in
  match fails s (List.length (past s)) c with
  | Some e => (Raise e, record (Invoke (current s) c) s)
  | None => (Ok n, record (Invoke (current s) c) s)
  end.

Definition new_figure : M nat := fun s =>
  (Ok (figures s), set_figures (S (figures s)) s).

Definition new_axes (n : nat) : M nat := fun s =>
  (Ok (axes_made s), set_axes_made (n + axes_made s) s).

(** [print(line)] *)
Definition print (line : string) : M unit := fun s =>
  (Ok tt, record (Output line) s).

(** A fresh process. *)
Definition fresh (f : failures) (inv : invocation) (r : nat -> Q) : state :=
  State inv f 0 0 r [].

(** How a run ends. *)
Inductive outcome : Type :=
| Finished
| Aborted (e : exn).

(** A script run in a fresh process that was invoked as [inv], whose random
    generator will deliver the draws [r], with a library that fails as [f]
    says: the actions on figures and terminal performed, and how the run
    ended. *)
Definition run_with (f : failures) (m : M unit) (inv : invocation) (r : nat -> Q)
  : list action * outcome :=
  match m (fresh f inv r) with
  | (Ok _, s) => (rev (issued s), Finished)
  | (Raise e, s) => (rev (issued s), Aborted e)
  end.

(** The sequence of actions when no library call fails. *)
Definition run (m : M unit) (inv : invocation) (r : nat -> Q) : list action :=
  fst (run_with no_failures m inv r).

(** The same run with everything it performs: also the objects made and
    the arrays computed, each at its place. *)
Definition full_run_with (f : failures) (m : M unit) (inv : invocation)
  (r : nat -> Q) : list action * outcome :=
  match m (fresh f inv r) with
  | (Ok _, s) => (rev (past s), Finished)
  | (Raise e, s) => (rev (past s), Aborted e)
  end.

Definition full_run (m : M unit) (inv : invocation) (r : nat -> Q) : list action :=
  fst (full_run_with no_failures m inv r).

(** *** Python control flow *)

Fixpoint for_ {A : Type} (xs : list A) (body : A -> M unit) : M unit :=
  match xs with
  | [] => ret tt
  | x :: rest => body x ;; for_ rest body
  end.

(** [if cond: body] without an [else]. *)
Definition when (cond : bool) (body : M unit) : M unit :=
  if cond then body else ret tt.

(** Truth value of a Python string: non-empty. *)
Definition nonempty (s : string) : bool :=
  match s with EmptyString => false | _ => true end.

(** A Python integer used as a number. *)
Definition Nq (n : nat) : Q := inject_Z (Z.of_nat n).

(** [range(n)], [enumerate(xs)], [len(xs)] *)
Definition range (n : nat) : list nat := seq 0 n.
Definition enumerate {A : Type} (xs : list A) : list (nat * A) :=
  combine (seq 0 (List.length xs)) xs.
Definition len {A : Type} (xs : list A) : nat := List.length xs.

(** [xs[i]] on a tuple or list (every index the scripts use is within
    bounds). *)
Definition getitem (xs : value) (i : nat) : value :=
  match xs with
  | Tup vs | Lst vs => nth i vs (Lst [])
  | _ => Lst []
  end.

(** *** pyplot and axes calls *)

(** [obj.method(args, **kw)] on a figure, an axes or an artist. *)
Definition invoke (h : handle) (meth : string) (a : list value) (k : kwargs)
  : M unit :=
  emit (Call (On h) meth a k) ;; ret tt.

(** [plt.method(args, **kw)] for the pyplot functions that act on the current
    figure ([tight_layout], [savefig]). *)
Definition plt (meth : string) (a : list value) (k : kwargs) : M unit :=
  gcf ;; emit (Call Pyplot meth a k) ;; ret tt.

(** [name(args, **kw)] for a function of a library that computes [result]
    from its arguments, as [np.linspace(0, 1, 5)]. *)
Definition by_name {A : Type} (name : string) (a : list value) (k : kwargs)
  (result : A) : M A :=
  emit (Call Imported name a k) ;; ret result.

(** [Class(args, **kw)]: a new object of a class of the library. *)
Definition construct (class : string) (a : list value) (k : kwargs) : M value :=
  by_name class a k (Obj class a k).

Definition figure_of (h : handle) : nat :=
  match h with Fig f => f | Axes f _ => f | Artist f _ _ => f end.

(** [fig, axes = plt.subplots(nrows, ncols, **kw)]: a new figure, which
    becomes current, with [nrows * ncols] axes, listed row by row. *)
Definition plt_subplots (nrows ncols : nat) (k : kwargs)
  : M (handle * list handle) :=
  f <- new_figure ;;
  a <- new_axes (nrows * ncols) ;;
  emit (Call Pyplot "subplots" [Num (Nq nrows); Num (Nq ncols)] k) ;;
  ret (Fig f, map (fun i => Axes f (a + i)) (seq 0 (nrows * ncols))).

(** [axes[r, c]] of an [nrows] x [ncols] grid; [axes[c]] is [axes[0, c]] and
    the single axes of a 1 x 1 grid is [axes[0, 0]]. *)
Definition axes_at (axes : list handle) (ncols r c : nat) : handle :=
  nth (r * ncols + c) axes (Axes 0 0).

(** [fig = plt.figure(figsize=...)] *)
Definition plt_figure (k : kwargs) : M handle :=
  f <- new_figure ;;
  emit (Call Pyplot "figure" [] k) ;;
  ret (Fig f).

(** [ax = plt.subplot(args, **kw)]: a new axes in the current figure. *)
Definition plt_subplot (a : list value) (k : kwargs) : M handle :=
  f <- gcf ;;
  i <- new_axes 1 ;;
  emit (Call Pyplot "subplot" a k) ;;
  ret (Axes f i).

(** [ax = fig.add_subplot(args, **kw)] and [twin = ax.twinx()]: a new axes
    in the figure of the receiver. *)
Definition make_axes (h : handle) (meth : string) (a : list value) (k : kwargs)
  : M handle :=
  i <- new_axes 1 ;;
  emit (Call (On h) meth a k) ;;
  ret (Axes (figure_of h) i).

(** [artists = ax.method(args, **kw)] for a call whose [count] returned
    artists the script uses afterwards. *)
Definition invoke_artists (h : handle) (meth : string) (a : list value)
  (k : kwargs) (count : nat) : M (list handle) :=
  n <- emit (Call (On h) meth a k) ;;
  ret (map (Artist (figure_of h) n) (seq 0 count)).

(** [artist, = ax.method(args, **kw)]: the one artist such a call returns. *)
Definition invoke_artist (h : handle) (meth : string) (a : list value)
  (k : kwargs) : M handle :=
  n <- emit (Call (On h) meth a k) ;;
  ret (Artist (figure_of h) n 0).

(** *** numpy *)

(** The next [size] draws of the global generator. *)
Definition standard_normal (size : nat) : M (list Q) :=
  fun s => (Ok (map (rng s) (seq 0 size)), set_rng (fun i => rng s (size + i)%nat) s).

(** [np.random.normal(loc, scale, size)]: [size] draws from the global
    generator, scaled and shifted. *)
Definition np_random_normal (loc scale : Q) (size : nat) : M (list Q) :=
  emit (Call Imported "np.random.normal" [Num loc; Num scale; Num (Nq size)] []) ;;
  zs <- standard_normal size ;;
  ret (map (fun z => loc + scale * z) zs).

(** What the functions of numpy compute.  A call of one of them in a script
    is [by_name] with the result given by the function here. *)

(** [np.clip(a, a_min, a_max)] is [minimum(a_max, maximum(a, a_min))]. *)
Definition np_clip (a : list Q) (a_min a_max : Q) : list Q :=
  map (fun x => Qmin a_max (Qmax x a_min)) a.

(** [np.arange(start, stop, 1)] on integers. *)
Definition np_arange (start stop : nat) : list Q :=
  map Nq (seq start (stop - start)).

(** [np.linspace(start, stop, num, endpoint)]: [num] samples [start + i * step];
    with [endpoint] the step divides by [num - 1] and the last sample is set
    to [stop]. *)
Definition np_linspace (start stop : Q) (num : nat) (endpoint : bool) : list Q :=
  let div := if endpoint then (num - 1)%nat else num in
  let step := (stop - start) / Nq div in
  let y := map (fun i => Nq i * step + start) (seq 0 num) in
  if endpoint && (1 <? num)%nat then removelast y ++ [stop] else y.

Definition np_abs (a : list Q) : list Q := map Qabs a.

(** Arithmetic on arrays is element by element: [a + b] and [a - b] on two
    arrays of one length.  With a number on one side the scripts' expression
    is written out as a [map] over the array. *)
Definition np_add (a b : list Q) : list Q :=
  map (fun '(x, y) => x + y) (combine a b).
Definition np_sub (a b : list Q) : list Q :=
  map (fun '(x, y) => x - y) (combine a b).

(** [np.full_like(a, fill_value)] *)
Definition np_full_like (a : list Q) (fill_value : Q) : list Q :=
  map (fun _ => fill_value) a.

(** Python lists of numbers and of strings, as arguments. *)
Definition nums (xs : list Q) : value := Lst (map Num xs).
Definition strs (xs : list string) : value := Lst (map Str xs).

(** [np.array(xs)] on a list of numbers. *)
Definition np_array (xs : list Q) : M (list Q) :=
  by_name "np.array" [nums xs] [] xs.

(** [d[key]] on a dict of values (every key the scripts look up is in the
    literal dict it is looked up in). *)
Fixpoint subscript (d : list (string * value)) (key : string) : value :=
  match d with
  | [] => Str ""
  | (k, v) :: rest => if String.eqb k key then v else subscript rest key
  end.

(** ** [generate_block_diagram.py]: block diagram of the sensor system *)

Module generate_block_diagram.

(** [create_block_diagram] (line 11) *)
Definition create_block_diagram : M unit :=
  '(fig, axes) <- plt_subplots 1 1 [("figsize", Tup [Num 14; Num 10])] ;;
  let ax := axes_at axes 1 0 0 in
  invoke ax "set_xlim" [Num 0; Num 14] [] ;;
  invoke ax "set_ylim" [Num 0; Num 10] [] ;;
  invoke ax "set_aspect" [Str "equal"] [] ;;
  invoke ax "axis" [Str "off"] [] ;;
  let colors :=
      [("sensor", Str "#3498db"); ("driver", Str "#e74c3c"); ("mcu", Str "#2ecc71");
       ("power", Str "#f39c12"); ("interface", Str "#9b59b6"); ("protection", Str "#1abc9c")] in
  invoke ax "text" [Num 7; Num 9.5; Str "Custom Ultrasonic Sensor System Block Diagram"]
      [("fontsize", Num 16); ("fontweight", Str "bold"); ("ha", Str "center");
       ("va", Str "center")] ;;
  tx_box <- construct "FancyBboxPatch" [Tup [Num 0.5; Num 6.5]; Num 2.5; Num 1.5]
      [("boxstyle", Str "round,pad=0.05"); ("facecolor", (subscript colors "sensor"));
       ("edgecolor", Str "black"); ("linewidth", Num 2)] ;;
  invoke ax "add_patch" [tx_box] [] ;;
  invoke ax "text" [Num 1.75; Num 7.25; Str "Ultrasonic\nTransmitter\n(40kHz)"]
      [("fontsize", Num 9); ("ha", Str "center"); ("va", Str "center"); ("color", Str "white");
       ("fontweight", Str "bold")] ;;
  rx_box <- construct "FancyBboxPatch" [Tup [Num 0.5; Num 4.5]; Num 2.5; Num 1.5]
      [("boxstyle", Str "round,pad=0.05"); ("facecolor", (subscript colors "sensor"));
       ("edgecolor", Str "black"); ("linewidth", Num 2)] ;;
  invoke ax "add_patch" [rx_box] [] ;;
  invoke ax "text" [Num 1.75; Num 5.25; Str "Ultrasonic\nReceiver\n(40kHz)"]
      [("fontsize", Num 9); ("ha", Str "center"); ("va", Str "center"); ("color", Str "white");
       ("fontweight", Str "bold")] ;;
  tx_driver <- construct "FancyBboxPatch" [Tup [Num 4; Num 6.5]; Num 2.5; Num 1.5]
      [("boxstyle", Str "round,pad=0.05"); ("facecolor", (subscript colors "driver"));
       ("edgecolor", Str "black"); ("linewidth", Num 2)] ;;
  invoke ax "add_patch" [tx_driver] [] ;;
  invoke ax "text" [Num 5.25; Num 7.25; Str "TX Driver\nCircuit\n(MAX232/TC4427)"]
      [("fontsize", Num 8); ("ha", Str "center"); ("va", Str "center"); ("color", Str "white");
       ("fontweight", Str "bold")] ;;
  rx_amp <- construct "FancyBboxPatch" [Tup [Num 4; Num 4.5]; Num 2.5; Num 1.5]
      [("boxstyle", Str "round,pad=0.05"); ("facecolor", (subscript colors "driver"));
       ("edgecolor", Str "black"); ("linewidth", Num 2)] ;;
  invoke ax "add_patch" [rx_amp] [] ;;
  invoke ax "text" [Num 5.25; Num 5.25; Str "RX Amplifier\n+ Comparator\n(LM324/LM393)"]
      [("fontsize", Num 8); ("ha", Str "center"); ("va", Str "center"); ("color", Str "white");
       ("fontweight", Str "bold")] ;;
  level_shift <- construct "FancyBboxPatch" [Tup [Num 7.5; Num 5.25]; Num 2; Num 1.5]
      [("boxstyle", Str "round,pad=0.05"); ("facecolor", (subscript colors "protection"));
       ("edgecolor", Str "black"); ("linewidth", Num 2)] ;;
  invoke ax "add_patch" [level_shift] [] ;;
  invoke ax "text" [Num 8.5; Num 6; Str "Level Shifter\n3.3V ↔ 5V\n(BSS138)"]
      [("fontsize", Num 8); ("ha", Str "center"); ("va", Str "center"); ("color", Str "white");
       ("fontweight", Str "bold")] ;;
  mcu_box <- construct "FancyBboxPatch" [Tup [Num 10.5; Num 4.5]; Num 3; Num 3]
      [("boxstyle", Str "round,pad=0.05"); ("facecolor", (subscript colors "mcu"));
       ("edgecolor", Str "black"); ("linewidth", Num 2)] ;;
  invoke ax "add_patch" [mcu_box] [] ;;
  invoke ax "text" [Num 12; Num 6; Str "ESP32-S3\nMicrocontroller"]
      [("fontsize", Num 11); ("ha", Str "center"); ("va", Str "center");
       ("color", Str "white"); ("fontweight", Str "bold")] ;;
  invoke ax "text" [Num 12; Num 5.2;
   Str "• GPIO Trigger\n• GPIO Echo\n• Timer/Counter\n• ADC (Temp)"]
      [("fontsize", Num 7); ("ha", Str "center"); ("va", Str "center"); ("color", Str "white")] ;;
  power_box <- construct "FancyBboxPatch" [Tup [Num 4; Num 1]; Num 5.5; Num 2]
      [("boxstyle", Str "round,pad=0.05"); ("facecolor", (subscript colors "power"));
       ("edgecolor", Str "black"); ("linewidth", Num 2)] ;;
  invoke ax "add_patch" [power_box] [] ;;
  invoke ax "text" [Num 6.75; Num 2; Str "Power Management"]
      [("fontsize", Num 10); ("ha", Str "center"); ("va", Str "center");
       ("color", Str "white"); ("fontweight", Str "bold")] ;;
  invoke ax "text" [Num 6.75; Num 1.4;
   Str "5V Regulator (LM7805) → 5V Rail | 3.3V Regulator (AMS1117) → 3.3V Rail"]
      [("fontsize", Num 7); ("ha", Str "center"); ("va", Str "center"); ("color", Str "white")] ;;
  temp_box <- construct "FancyBboxPatch" [Tup [Num 10.5; Num 1]; Num 3; Num 1.5]
      [("boxstyle", Str "round,pad=0.05"); ("facecolor", (subscript colors "interface"));
       ("edgecolor", Str "black"); ("linewidth", Num 2)] ;;
  invoke ax "add_patch" [temp_box] [] ;;
  invoke ax "text" [Num 12; Num 1.75; Str "Temperature Sensor\n(DS18B20/NTC)"]
      [("fontsize", Num 8); ("ha", Str "center"); ("va", Str "center"); ("color", Str "white");
       ("fontweight", Str "bold")] ;;
  water <- construct "mpatches.Rectangle" [Tup [Num 0.5; Num 0.2]; Num 3; Num 0.5]
      [("facecolor", Str "#3498db"); ("alpha", Num 0.5); ("edgecolor", Str "blue");
       ("linewidth", Num 2)] ;;
  invoke ax "add_patch" [water] [] ;;
  invoke ax "text" [Num 2; Num 0.45; Str "Water Surface"]
      [("fontsize", Num 8); ("ha", Str "center"); ("va", Str "center");
       ("fontweight", Str "bold")] ;;
  let arrow_style := "Simple, tail_width=0.5, head_width=4, head_length=4" in
  invoke ax "annotate" [Str ""]
      [("xy", Tup [Num 4; Num 7.25]); ("xytext", Tup [Num 3; Num 7.25]);
       ("arrowprops", Dict [("arrowstyle", Str "->"); ("color", Str "black"); ("lw", Num 2)])] ;;
  invoke ax "annotate" [Str ""]
      [("xy", Tup [Num 0.5; Num 7.25]); ("xytext", Tup [Num 0; Num 7.25]);
       ("arrowprops", Dict [("arrowstyle", Str "->"); ("color", Str "blue"); ("lw", Num 2)])] ;;
  invoke ax "annotate" [Str ""]
      [("xy", Tup [Num 4; Num 5.25]); ("xytext", Tup [Num 3; Num 5.25]);
       ("arrowprops", Dict [("arrowstyle", Str "<-"); ("color", Str "black"); ("lw", Num 2)])] ;;
  invoke ax "annotate" [Str ""]
      [("xy", Tup [Num 1.75; Num 4.5]); ("xytext", Tup [Num 1.75; Num 0.7]);
       ("arrowprops", Dict [("arrowstyle", Str "<->"); ("color", Str "blue"); ("lw", Num 1.5);
       ("linestyle", Str "--")])] ;;
  invoke ax "text" [Num 2.3; Num 2.5; Str "Ultrasonic\nWaves"]
      [("fontsize", Num 7); ("rotation", Num 90); ("va", Str "center")] ;;
  invoke ax "annotate" [Str ""]
      [("xy", Tup [Num 7.5; Num 6.7]); ("xytext", Tup [Num 6.5; Num 7.25]);
       ("arrowprops", Dict [("arrowstyle", Str "->"); ("color", Str "black"); ("lw", Num 2)])] ;;
  invoke ax "annotate" [Str ""]
      [("xy", Tup [Num 7.5; Num 5.5]); ("xytext", Tup [Num 6.5; Num 5.25]);
       ("arrowprops", Dict [("arrowstyle", Str "->"); ("color", Str "black"); ("lw", Num 2)])] ;;
  invoke ax "annotate" [Str ""]
      [("xy", Tup [Num 10.5; Num 6]); ("xytext", Tup [Num 9.5; Num 6]);
       ("arrowprops", Dict [("arrowstyle", Str "<->"); ("color", Str "black"); ("lw", Num 2)])] ;;
  invoke ax "text" [Num 10; Num 6.3; Str "Trigger/Echo"]
      [("fontsize", Num 7); ("ha", Str "center")] ;;
  invoke ax "annotate" [Str ""]
      [("xy", Tup [Num 5.25; Num 4.5]); ("xytext", Tup [Num 5.25; Num 3]);
       ("arrowprops", Dict [("arrowstyle", Str "->"); ("color", Str "orange");
       ("lw", Num 1.5)])] ;;
  invoke ax "annotate" [Str ""]
      [("xy", Tup [Num 8.5; Num 5.25]); ("xytext", Tup [Num 8.5; Num 3]);
       ("arrowprops", Dict [("arrowstyle", Str "->"); ("color", Str "orange");
       ("lw", Num 1.5)])] ;;
  invoke ax "annotate" [Str ""]
      [("xy", Tup [Num 12; Num 4.5]); ("xytext", Tup [Num 12; Num 3]);
       ("arrowprops", Dict [("arrowstyle", Str "->"); ("color", Str "orange");
       ("lw", Num 1.5)])] ;;
  invoke ax "annotate" [Str ""]
      [("xy", Tup [Num 12; Num 2.5]); ("xytext", Tup [Num 12; Num 4.5]);
       ("arrowprops", Dict [("arrowstyle", Str "->"); ("color", Str "purple");
       ("lw", Num 1.5)])] ;;
  invoke ax "text" [Num 3.5; Num 7.5; Str "TRIG"]
      [("fontsize", Num 7); ("ha", Str "center"); ("color", Str "red")] ;;
  invoke ax "text" [Num 3.5; Num 5.5; Str "ECHO"]
      [("fontsize", Num 7); ("ha", Str "center"); ("color", Str "green")] ;;
  invoke ax "text" [Num 10; Num 5.7; Str "3.3V"]
      [("fontsize", Num 7); ("ha", Str "center"); ("color", Str "green")] ;;
  invoke ax "text" [Num 7; Num 6.3; Str "5V"]
      [("fontsize", Num 7); ("ha", Str "center"); ("color", Str "red")] ;;
  invoke ax "text" [Num 4.5; Num 2.5; Str "5V"]
      [("fontsize", Num 8); ("color", Str "red"); ("fontweight", Str "bold")] ;;
  invoke ax "text" [Num 8; Num 4; Str "3.3V"]
      [("fontsize", Num 8); ("color", Str "green"); ("fontweight", Str "bold")] ;;
  legend_sensor <- construct "mpatches.Patch" []
      [("color", (subscript colors "sensor")); ("label", Str "Ultrasonic Transducers")] ;;
  legend_driver <- construct "mpatches.Patch" []
      [("color", (subscript colors "driver")); ("label", Str "Driver/Amplifier Circuits")] ;;
  legend_protection <- construct "mpatches.Patch" []
      [("color", (subscript colors "protection")); ("label", Str "Level Shifting")] ;;
  legend_mcu <- construct "mpatches.Patch" []
      [("color", (subscript colors "mcu")); ("label", Str "Microcontroller")] ;;
  legend_power <- construct "mpatches.Patch" []
      [("color", (subscript colors "power")); ("label", Str "Power Management")] ;;
  legend_interface <- construct "mpatches.Patch" []
      [("color", (subscript colors "interface")); ("label", Str "Temperature Compensation")] ;;
  let legend_elements := Lst
      [legend_sensor; legend_driver; legend_protection; legend_mcu; legend_power;
       legend_interface] in
  invoke ax "legend" []
      [("handles", legend_elements); ("loc", Str "upper left"); ("fontsize", Num 8)] ;;
  plt "tight_layout" [] [] ;;
  plt "savefig" [Str "/workspaces/ultraman/research_paper/images/block_diagram.png"]
      [("dpi", Num 300); ("bbox_inches", Str "tight"); ("facecolor", Str "white");
       ("edgecolor", Str "none")] ;;
  plt "savefig" [Str "/workspaces/ultraman/research_paper/images/block_diagram.pdf"]
      [("bbox_inches", Str "tight"); ("facecolor", Str "white"); ("edgecolor", Str "none")] ;;
  print "Block diagram saved!".

(** [if __name__ == "__main__":] *)
Definition main : M unit :=
  create_block_diagram.

End generate_block_diagram.

(** ** [generate_flowcharts.py]: flowcharts of the measurement algorithms *)

Module generate_flowcharts.

(** [draw_start_end] (line 11)
    Draw start/end terminal (rounded rectangle)
    Defaults: width=2, height=0.6. *)
Definition draw_start_end (ax : handle) (x y : Q) (text : string) (width height : Q) : M unit :=
  ellipse <- construct "Ellipse" [Tup [Num x; Num y]; Num width; Num height]
      [("facecolor", Str "#90EE90"); ("edgecolor", Str "black"); ("linewidth", Num 2)] ;;
  invoke ax "add_patch" [ellipse] [] ;;
  invoke ax "text" [Num x; Num y; Str text]
      [("ha", Str "center"); ("va", Str "center"); ("fontsize", Num 9);
       ("fontweight", Str "bold")].

(** [draw_process] (line 17)
    Draw process box (rectangle)
    Defaults: width=2.5, height=0.8. *)
Definition draw_process (ax : handle) (x y : Q) (text : string) (width height : Q) : M unit :=
  rect <- construct "FancyBboxPatch" [Tup [Num (x - (width / 2)); Num (y - (height / 2))];
   Num width; Num height]
      [("boxstyle", Str "round,pad=0.03"); ("facecolor", Str "#ADD8E6");
       ("edgecolor", Str "black"); ("linewidth", Num 2)] ;;
  invoke ax "add_patch" [rect] [] ;;
  invoke ax "text" [Num x; Num y; Str text]
      [("ha", Str "center"); ("va", Str "center"); ("fontsize", Num 8); ("wrap", Bool true)].

(** [draw_decision] (line 25)
    Draw decision diamond
    Defaults: size=0.8. *)
Definition draw_decision (ax : handle) (x y : Q) (text : string) (size : Q) : M unit :=
  diamond <- construct "Polygon" [Lst [Tup [Num x; Num (y + size)]; Tup [Num (x + (size * 1.2));
   Num y]; Tup [Num x; Num (y - size)]; Tup [Num (x - (size * 1.2)); Num y]]]
      [("facecolor", Str "#FFD700"); ("edgecolor", Str "black"); ("linewidth", Num 2)] ;;
  invoke ax "add_patch" [diamond] [] ;;
  invoke ax "text" [Num x; Num y; Str text]
      [("ha", Str "center"); ("va", Str "center"); ("fontsize", Num 7); ("wrap", Bool true)].

(** [draw_io] (line 32)
    Draw I/O parallelogram
    Defaults: width=2.2, height=0.7. *)
Definition draw_io (ax : handle) (x y : Q) (text : string) (width height : Q) : M unit :=
  let skew := 0.3 in
  parallelogram <- construct "Polygon" [Lst [Tup [Num ((x - (width / 2)) + skew);
   Num (y + (height / 2))]; Tup [Num ((x + (width / 2)) + skew); Num (y + (height / 2))];
   Tup [Num ((x + (width / 2)) - skew); Num (y - (height / 2))];
   Tup [Num ((x - (width / 2)) - skew); Num (y - (height / 2))]]]
      [("facecolor", Str "#DDA0DD"); ("edgecolor", Str "black"); ("linewidth", Num 2)] ;;
  invoke ax "add_patch" [parallelogram] [] ;;
  invoke ax "text" [Num x; Num y; Str text]
      [("ha", Str "center"); ("va", Str "center"); ("fontsize", Num 8)].

(** [draw_arrow] (line 43)
    Draw arrow between shapes
    Defaults: label="". *)
Definition draw_arrow (ax : handle) (x1 y1 x2 y2 : Q) (label : string) : M unit :=
  invoke ax "annotate" [Str ""]
      [("xy", Tup [Num x2; Num y2]); ("xytext", Tup [Num x1; Num y1]);
       ("arrowprops", Dict [("arrowstyle", Str "->"); ("color", Str "black"); ("lw", Num 1.5)])] ;;
  when (nonempty label) (
    let mid_x := (x1 + x2) / 2 in
    let mid_y := (y1 + y2) / 2 in
    invoke ax "text" [Num (mid_x + 0.15); Num mid_y; Str label]
        [("fontsize", Num 7); ("color", Str "red")]).

(** [create_main_flowchart] (line 52)
    Main measurement flowchart *)
Definition create_main_flowchart : M unit :=
  '(fig, axes) <- plt_subplots 1 1 [("figsize", Tup [Num 10; Num 14])] ;;
  let ax := axes_at axes 1 0 0 in
  invoke ax "set_xlim" [Num (-2); Num 8] [] ;;
  invoke ax "set_ylim" [Num (-1); Num 15] [] ;;
  invoke ax "set_aspect" [Str "equal"] [] ;;
  invoke ax "axis" [Str "off"] [] ;;
  invoke ax "text" [Num 3; Num 14.5; Str "Main Measurement Algorithm Flowchart"]
      [("fontsize", Num 14); ("fontweight", Str "bold"); ("ha", Str "center")] ;;
  draw_start_end ax 3 13.5 "START" 2 0.6 ;;
  draw_process ax 3 12.3 "Initialize ESP32\nConfigure GPIO pins\nSet timer/counter" 2.5 0.8 ;;
  draw_arrow ax 3 13.2 3 12.7 "" ;;
  draw_io ax 3 11.2 "Read Temperature\nfrom DS18B20" 2.2 0.7 ;;
  draw_arrow ax 3 11.9 3 11.55 "" ;;
  draw_process ax 3 10.1 "Calculate Speed of Sound\nv = 331.4 + 0.6×T (m/s)" 2.5 0.8 ;;
  draw_arrow ax 3 10.85 3 10.5 "" ;;
  draw_process ax 3 9 "Initialize sample array\nSet sample_count = 0\nSet N = 15 samples" 2.5 0.8 ;;
  draw_arrow ax 3 9.7 3 9.4 "" ;;
  draw_decision ax 3 7.8 "sample_count\n< N?" 0.8 ;;
  draw_arrow ax 3 8.6 3 8.6 "" ;;
  draw_process ax 3 6.5 "Send TRIGGER pulse\n(10µs HIGH)" 2.5 0.8 ;;
  draw_arrow ax 3 7 3 6.9 "YES" ;;
  draw_io ax 3 5.4 "Wait for ECHO pin\nto go HIGH" 2.2 0.7 ;;
  draw_arrow ax 3 6.1 3 5.75 "" ;;
  draw_process ax 3 4.3 "Start Timer\nRecord start_time" 2.5 0.8 ;;
  draw_arrow ax 3 5.05 3 4.7 "" ;;
  draw_io ax 3 3.2 "Wait for ECHO pin\nto go LOW" 2.2 0.7 ;;
  draw_arrow ax 3 3.9 3 3.55 "" ;;
  draw_process ax 3 2.1 "Stop Timer\nRecord end_time\nCalculate duration" 2.5 0.8 ;;
  draw_arrow ax 3 2.85 3 2.5 "" ;;
  draw_process ax 3 1 "distance = (duration × v) / 2\nStore in sample array\nsample_count++" 2.5 0.8 ;;
  draw_arrow ax 3 1.7 3 1.4 "" ;;
  invoke ax "plot" [Lst [Num 3; Num 5.5; Num 5.5; Num 3.8]; Lst [Num 0.6; Num 0.6; Num 7.8;
   Num 7.8]; Str "k-"]
      [("linewidth", Num 1.5)] ;;
  invoke ax "annotate" [Str ""]
      [("xy", Tup [Num 3.96; Num 7.8]); ("xytext", Tup [Num 5.5; Num 7.8]);
       ("arrowprops", Dict [("arrowstyle", Str "->"); ("color", Str "black"); ("lw", Num 1.5)])] ;;
  draw_process ax (-0.5) 6.5 "Sort sample array\nRemove outliers\n(outside 2σ)" 2.5 0.8 ;;
  draw_arrow ax 1.8 7.8 0.5 7.8 "NO" ;;
  invoke ax "plot" [Lst [Num 0.5; Num (-0.5); Num (-0.5)]; Lst [Num 7.8; Num 7.8; Num 6.9];
   Str "k-"]
      [("linewidth", Num 1.5)] ;;
  draw_process ax (-0.5) 5.3 "Calculate median\nof valid samples" 2.5 0.8 ;;
  draw_arrow ax (-0.5) 6.1 (-0.5) 5.7 "" ;;
  draw_process ax (-0.5) 4.1 "water_level = \nsensor_height - distance" 2.5 0.8 ;;
  draw_arrow ax (-0.5) 4.9 (-0.5) 4.5 "" ;;
  draw_io ax (-0.5) 3 "Store water_level\nSend via LoRa\n(when scheduled)" 2.2 0.7 ;;
  draw_arrow ax (-0.5) 3.7 (-0.5) 3.35 "" ;;
  draw_decision ax (-0.5) 1.8 "Critical\nlevel?" 0.8 ;;
  draw_arrow ax (-0.5) 2.65 (-0.5) 2.6 "" ;;
  draw_process ax 1.5 1.8 "Set short\ninterval (30s)" 2.5 0.8 ;;
  draw_arrow ax 0.7 1.8 0.7 1.8 "YES" ;;
  draw_process ax (-2.5) 1.8 "Set normal\ninterval (5min)" 2.5 0.8 ;;
  draw_arrow ax (-1.7) 1.8 (-1.7) 1.8 "NO" ;;
  draw_process ax (-0.5) 0.5 "Wait for\nnext interval" 2.5 0.8 ;;
  invoke ax "plot" [Lst [Num 1.5; Num 1.5; Num (-0.5)]; Lst [Num 1.4; Num 0.5; Num 0.5];
   Str "k-"]
      [("linewidth", Num 1.5)] ;;
  invoke ax "plot" [Lst [Num (-2.5); Num (-2.5); Num (-0.5)]; Lst [Num 1.4; Num 0.5; Num 0.5];
   Str "k-"]
      [("linewidth", Num 1.5)] ;;
  invoke ax "annotate" [Str ""]
      [("xy", Tup [Num (-0.5); Num 0.9]); ("xytext", Tup [Num (-0.5); Num 0.5]);
       ("arrowprops", Dict [("arrowstyle", Str "->"); ("color", Str "black"); ("lw", Num 1.5)])] ;;
  invoke ax "plot" [Lst [Num (-0.5); Num (-1.8); Num (-1.8); Num 3]; Lst [Num 0.1; Num 0.1;
   Num 11.2; Num 11.2]; Str "k-"]
      [("linewidth", Num 1.5)] ;;
  invoke ax "annotate" [Str ""]
      [("xy", Tup [Num 1.8; Num 11.2]); ("xytext", Tup [Num (-1.8); Num 11.2]);
       ("arrowprops", Dict [("arrowstyle", Str "->"); ("color", Str "black"); ("lw", Num 1.5)])] ;;
  plt "tight_layout" [] [] ;;
  plt "savefig" [Str "/workspaces/ultraman/research_paper/images/flowchart_main.png"]
      [("dpi", Num 300); ("bbox_inches", Str "tight"); ("facecolor", Str "white")] ;;
  plt "savefig" [Str "/workspaces/ultraman/research_paper/images/flowchart_main.pdf"]
      [("bbox_inches", Str "tight"); ("facecolor", Str "white")] ;;
  print "Main flowchart saved!".

(** [create_adaptive_flowchart] (line 162)
    Adaptive sampling flowchart *)
Definition create_adaptive_flowchart : M unit :=
  '(fig, axes) <- plt_subplots 1 1 [("figsize", Tup [Num 10; Num 12])] ;;
  let ax := axes_at axes 1 0 0 in
  invoke ax "set_xlim" [Num (-2); Num 8] [] ;;
  invoke ax "set_ylim" [Num (-1); Num 13] [] ;;
  invoke ax "set_aspect" [Str "equal"] [] ;;
  invoke ax "axis" [Str "off"] [] ;;
  invoke ax "text" [Num 3; Num 12.5; Str "Adaptive Sampling Rate Algorithm"]
      [("fontsize", Num 14); ("fontweight", Str "bold"); ("ha", Str "center")] ;;
  draw_start_end ax 3 11.5 "START" 2 0.6 ;;
  draw_io ax 3 10.3 "Get current\nwater_level" 2.2 0.7 ;;
  draw_arrow ax 3 11.2 3 10.65 "" ;;
  draw_io ax 3 9.2 "Get previous\nwater_level" 2.2 0.7 ;;
  draw_arrow ax 3 9.95 3 9.55 "" ;;
  draw_process ax 3 8.1 "rate_of_change = \n(current - previous) / time" 2.5 0.8 ;;
  draw_arrow ax 3 8.85 3 8.5 "" ;;
  draw_decision ax 3 6.8 "water_level >\nCRITICAL?" 0.8 ;;
  draw_arrow ax 3 7.7 3 7.6 "" ;;
  draw_process ax 6 6.8 "interval = 10s\nPRIORITY = HIGH\nTrigger Alert" 2.5 0.8 ;;
  draw_arrow ax 4.2 6.8 4.8 6.8 "YES" ;;
  draw_decision ax 3 5.3 "water_level >\nWARNING?" 0.8 ;;
  draw_arrow ax 3 6 3 6.1 "NO" ;;
  draw_process ax 6 5.3 "interval = 30s\nPRIORITY = MEDIUM" 2.5 0.8 ;;
  draw_arrow ax 4.2 5.3 4.8 5.3 "YES" ;;
  draw_decision ax 3 3.8 "rate_of_change\n> FAST?" 0.8 ;;
  draw_arrow ax 3 4.5 3 4.6 "NO" ;;
  draw_process ax 6 3.8 "interval = 60s\nPRIORITY = MEDIUM" 2.5 0.8 ;;
  draw_arrow ax 4.2 3.8 4.8 3.8 "YES" ;;
  draw_process ax 3 2.5 "interval = 300s (5 min)\nPRIORITY = LOW" 2.5 0.8 ;;
  draw_arrow ax 3 3 3 2.9 "NO" ;;
  invoke ax "plot" [Lst [Num 6; Num 6; Num 3]; Lst [Num 7.6; Num 1.8; Num 1.8]; Str "k-"]
      [("linewidth", Num 1.5)] ;;
  invoke ax "plot" [Lst [Num 6; Num 6]; Lst [Num 6.0; Num 5.7]; Str "k-"]
      [("linewidth", Num 1.5)] ;;
  invoke ax "plot" [Lst [Num 6; Num 6]; Lst [Num 4.9; Num 4.2]; Str "k-"]
      [("linewidth", Num 1.5)] ;;
  draw_process ax 3 1.3 "Configure timer\nfor next reading" 2.5 0.8 ;;
  draw_arrow ax 3 2.1 3 1.7 "" ;;
  draw_start_end ax 3 0.3 "RETURN interval" 2 0.6 ;;
  draw_arrow ax 3 0.9 3 0.6 "" ;;
  legend_box <- construct "FancyBboxPatch" [Tup [Num (-1.5); Num 0]; Num 2.2; Num 2.5]
      [("boxstyle", Str "round,pad=0.05"); ("facecolor", Str "lightyellow");
       ("edgecolor", Str "black"); ("linewidth", Num 1)] ;;
  invoke ax "add_patch" [legend_box] [] ;;
  invoke ax "text" [Num (-0.4); Num 2.3; Str "Threshold Values:"]
      [("fontsize", Num 8); ("fontweight", Str "bold")] ;;
  invoke ax "text" [Num (-0.4); Num 2.0; Str "CRITICAL: 80% capacity"] [("fontsize", Num 7)] ;;
  invoke ax "text" [Num (-0.4); Num 1.7; Str "WARNING: 50% capacity"] [("fontsize", Num 7)] ;;
  invoke ax "text" [Num (-0.4); Num 1.4; Str "FAST: >5cm/min rise"] [("fontsize", Num 7)] ;;
  invoke ax "text" [Num (-0.4); Num 1.1; Str "Sensor Height: 3-4m"] [("fontsize", Num 7)] ;;
  invoke ax "text" [Num (-0.4); Num 0.8; Str "Max Range: 5m"] [("fontsize", Num 7)] ;;
  invoke ax "text" [Num (-0.4); Num 0.5; Str "Resolution: ±1cm"] [("fontsize", Num 7)] ;;
  invoke ax "text" [Num (-0.4); Num 0.2; Str "Accuracy: ±1cm"] [("fontsize", Num 7)] ;;
  plt "tight_layout" [] [] ;;
  plt "savefig" [Str "/workspaces/ultraman/research_paper/images/flowchart_adaptive.png"]
      [("dpi", Num 300); ("bbox_inches", Str "tight"); ("facecolor", Str "white")] ;;
  plt "savefig" [Str "/workspaces/ultraman/research_paper/images/flowchart_adaptive.pdf"]
      [("bbox_inches", Str "tight"); ("facecolor", Str "white")] ;;
  print "Adaptive sampling flowchart saved!".

(** [create_outlier_flowchart] (line 249)
    Outlier rejection flowchart *)
Definition create_outlier_flowchart : M unit :=
  '(fig, axes) <- plt_subplots 1 1 [("figsize", Tup [Num 8; Num 10])] ;;
  let ax := axes_at axes 1 0 0 in
  invoke ax "set_xlim" [Num (-1); Num 7] [] ;;
  invoke ax "set_ylim" [Num (-1); Num 11] [] ;;
  invoke ax "set_aspect" [Str "equal"] [] ;;
  invoke ax "axis" [Str "off"] [] ;;
  invoke ax "text" [Num 3; Num 10.5; Str "Outlier Rejection Algorithm"]
      [("fontsize", Num 14); ("fontweight", Str "bold"); ("ha", Str "center")] ;;
  draw_start_end ax 3 9.5 "START" 2 0.6 ;;
  draw_io ax 3 8.4 "Input: samples[N]" 2.2 0.7 ;;
  draw_arrow ax 3 9.2 3 8.75 "" ;;
  draw_process ax 3 7.3 "Calculate mean (μ)\nof all samples" 2.5 0.8 ;;
  draw_arrow ax 3 8.05 3 7.7 "" ;;
  draw_process ax 3 6.2 "Calculate standard\ndeviation (σ)" 2.5 0.8 ;;
  draw_arrow ax 3 6.9 3 6.6 "" ;;
  draw_process ax 3 5.1 "valid_samples = []\ni = 0" 2.5 0.8 ;;
  draw_arrow ax 3 5.8 3 5.5 "" ;;
  draw_decision ax 3 3.9 "i < N?" 0.8 ;;
  draw_arrow ax 3 4.7 3 4.7 "" ;;
  draw_decision ax 3 2.5 "|samples[i] - μ|\n< 2σ?" 0.8 ;;
  draw_arrow ax 3 3.1 3 3.3 "YES" ;;
  draw_process ax 5.5 2.5 "Add to\nvalid_samples" 2.5 0.8 ;;
  draw_arrow ax 4.2 2.5 4.5 2.5 "YES" ;;
  draw_process ax 3 1.2 "i = i + 1" 2.5 0.8 ;;
  draw_arrow ax 3 1.7 3 1.6 "NO" ;;
  invoke ax "plot" [Lst [Num 5.5; Num 5.5; Num 3]; Lst [Num 2.1; Num 1.2; Num 1.2]; Str "k-"]
      [("linewidth", Num 1.5)] ;;
  invoke ax "plot" [Lst [Num 3; Num 5.8; Num 5.8; Num 4.2]; Lst [Num 0.8; Num 0.8; Num 3.9;
   Num 3.9]; Str "k-"]
      [("linewidth", Num 1.5)] ;;
  draw_process ax 0.5 2.5 "Calculate median\nof valid_samples" 2.5 0.8 ;;
  draw_arrow ax 1.8 3.9 0.7 3.9 "NO" ;;
  invoke ax "plot" [Lst [Num 0.5; Num 0.5]; Lst [Num 3.9; Num 2.9]; Str "k-"]
      [("linewidth", Num 1.5)] ;;
  draw_start_end ax 0.5 1.5 "RETURN median" 2 0.6 ;;
  draw_arrow ax 0.5 2.1 0.5 1.8 "" ;;
  plt "tight_layout" [] [] ;;
  plt "savefig" [Str "/workspaces/ultraman/research_paper/images/flowchart_outlier.png"]
      [("dpi", Num 300); ("bbox_inches", Str "tight"); ("facecolor", Str "white")] ;;
  plt "savefig" [Str "/workspaces/ultraman/research_paper/images/flowchart_outlier.pdf"]
      [("bbox_inches", Str "tight"); ("facecolor", Str "white")] ;;
  print "Outlier rejection flowchart saved!".

(** [if __name__ == "__main__":] *)
Definition main : M unit :=
  create_main_flowchart ;;
  create_adaptive_flowchart ;;
  create_outlier_flowchart.

End generate_flowcharts.

(** ** [generate_pcb.py]: PCB layout, top and bottom layer *)

Module generate_pcb.

(** [create_pcb_layout] (line 11) *)
Definition create_pcb_layout : M unit :=
  '(fig, axes) <- plt_subplots 1 2 [("figsize", Tup [Num 16; Num 10])] ;;
  let ax1 := axes_at axes 2 0 0 in
  invoke ax1 "set_xlim" [Num (-1); Num 11] [] ;;
  invoke ax1 "set_ylim" [Num (-1); Num 11] [] ;;
  invoke ax1 "set_aspect" [Str "equal"] [] ;;
  invoke ax1 "set_facecolor" [Str "#1a472a"] [] ;;
  invoke ax1 "set_title" [Str "PCB Top Layer - Component Placement"]
      [("fontsize", Num 12); ("fontweight", Str "bold"); ("pad", Num 10)] ;;
  pcb_outline <- construct "Rectangle" [Tup [Num 0; Num 0]; Num 10; Num 10]
      [("fill", Bool false); ("edgecolor", Str "white"); ("linewidth", Num 3)] ;;
  invoke ax1 "add_patch" [pcb_outline] [] ;;
  for_ [(0.5, 0.5); (9.5, 0.5); (0.5, 9.5); (9.5, 9.5)] (fun '(mx, my) =>
    hole <- construct "Circle" [Tup [Num mx; Num my]; Num 0.2]
        [("fill", Bool true); ("facecolor", Str "#1a472a"); ("edgecolor", Str "gold");
         ("linewidth", Num 2)] ;;
    invoke ax1 "add_patch" [hole] [] ;;
    pad <- construct "Circle" [Tup [Num mx; Num my]; Num 0.35]
        [("fill", Bool false); ("edgecolor", Str "gold"); ("linewidth", Num 2)] ;;
    invoke ax1 "add_patch" [pad] []) ;;
  tx <- construct "Circle" [Tup [Num 2; Num 8]; Num 0.8]
      [("fill", Bool true); ("facecolor", Str "silver"); ("edgecolor", Str "black");
       ("linewidth", Num 2)] ;;
  invoke ax1 "add_patch" [tx] [] ;;
  tx_inner <- construct "Circle" [Tup [Num 2; Num 8]; Num 0.5]
      [("fill", Bool true); ("facecolor", Str "gray"); ("edgecolor", Str "black");
       ("linewidth", Num 1)] ;;
  invoke ax1 "add_patch" [tx_inner] [] ;;
  invoke ax1 "text" [Num 2; Num 8; Str "TX"]
      [("fontsize", Num 8); ("ha", Str "center"); ("va", Str "center");
       ("fontweight", Str "bold"); ("color", Str "white")] ;;
  invoke ax1 "text" [Num 2; Num 7; Str "40kHz"] [("fontsize", Num 6); ("ha", Str "center")] ;;
  rx <- construct "Circle" [Tup [Num 4; Num 8]; Num 0.8]
      [("fill", Bool true); ("facecolor", Str "silver"); ("edgecolor", Str "black");
       ("linewidth", Num 2)] ;;
  invoke ax1 "add_patch" [rx] [] ;;
  rx_inner <- construct "Circle" [Tup [Num 4; Num 8]; Num 0.5]
      [("fill", Bool true); ("facecolor", Str "gray"); ("edgecolor", Str "black");
       ("linewidth", Num 1)] ;;
  invoke ax1 "add_patch" [rx_inner] [] ;;
  invoke ax1 "text" [Num 4; Num 8; Str "RX"]
      [("fontsize", Num 8); ("ha", Str "center"); ("va", Str "center");
       ("fontweight", Str "bold"); ("color", Str "white")] ;;
  invoke ax1 "text" [Num 4; Num 7; Str "40kHz"] [("fontsize", Num 6); ("ha", Str "center")] ;;
  ic1 <- construct "FancyBboxPatch" [Tup [Num 1.2; Num 5.5]; Num 1.6; Num 0.8]
      [("boxstyle", Str "round,pad=0.02"); ("facecolor", Str "black");
       ("edgecolor", Str "white"); ("linewidth", Num 1)] ;;
  invoke ax1 "add_patch" [ic1] [] ;;
  invoke ax1 "text" [Num 2; Num 5.9; Str "TC4427"]
      [("fontsize", Num 7); ("ha", Str "center"); ("va", Str "center"); ("color", Str "white");
       ("fontweight", Str "bold")] ;;
  for_ (range 4) (fun i =>
    pin_l <- construct "Rectangle" [Tup [Num 1.0; Num (5.55 + (Nq i * 0.18))]; Num 0.2; Num 0.12]
        [("facecolor", Str "silver"); ("edgecolor", Str "gray")] ;;
    pin_r <- construct "Rectangle" [Tup [Num 2.8; Num (5.55 + (Nq i * 0.18))]; Num 0.2; Num 0.12]
        [("facecolor", Str "silver"); ("edgecolor", Str "gray")] ;;
    invoke ax1 "add_patch" [pin_l] [] ;;
    invoke ax1 "add_patch" [pin_r] []) ;;
  invoke ax1 "text" [Num 2; Num 5.2; Str "U1"]
      [("fontsize", Num 6); ("ha", Str "center"); ("color", Str "yellow")] ;;
  ic2 <- construct "FancyBboxPatch" [Tup [Num 3.5; Num 5.3]; Num 2; Num 1.2]
      [("boxstyle", Str "round,pad=0.02"); ("facecolor", Str "black");
       ("edgecolor", Str "white"); ("linewidth", Num 1)] ;;
  invoke ax1 "add_patch" [ic2] [] ;;
  invoke ax1 "text" [Num 4.5; Num 5.9; Str "LM324"]
      [("fontsize", Num 7); ("ha", Str "center"); ("va", Str "center"); ("color", Str "white");
       ("fontweight", Str "bold")] ;;
  for_ (range 7) (fun i =>
    pin_l <- construct "Rectangle" [Tup [Num 3.3; Num (5.35 + (Nq i * 0.15))]; Num 0.2; Num 0.1]
        [("facecolor", Str "silver"); ("edgecolor", Str "gray")] ;;
    pin_r <- construct "Rectangle" [Tup [Num 5.5; Num (5.35 + (Nq i * 0.15))]; Num 0.2; Num 0.1]
        [("facecolor", Str "silver"); ("edgecolor", Str "gray")] ;;
    invoke ax1 "add_patch" [pin_l] [] ;;
    invoke ax1 "add_patch" [pin_r] []) ;;
  invoke ax1 "text" [Num 4.5; Num 5; Str "U2"]
      [("fontsize", Num 6); ("ha", Str "center"); ("color", Str "yellow")] ;;
  q1 <- construct "FancyBboxPatch" [Tup [Num 6.5; Num 6.5]; Num 0.6; Num 0.6]
      [("boxstyle", Str "round,pad=0.02"); ("facecolor", Str "black");
       ("edgecolor", Str "white"); ("linewidth", Num 1)] ;;
  invoke ax1 "add_patch" [q1] [] ;;
  invoke ax1 "text" [Num 6.8; Num 6.8; Str "Q1"]
      [("fontsize", Num 6); ("ha", Str "center"); ("va", Str "center"); ("color", Str "white")] ;;
  for_ (range 3) (fun i =>
    pin <- construct "Rectangle" [Tup [Num (6.55 + (Nq i * 0.18)); Num 6.35]; Num 0.1; Num 0.15]
        [("facecolor", Str "silver")] ;;
    invoke ax1 "add_patch" [pin] []) ;;
  invoke ax1 "text" [Num 6.8; Num 6.2; Str "BSS138"]
      [("fontsize", Num 5); ("ha", Str "center"); ("color", Str "yellow")] ;;
  q2 <- construct "FancyBboxPatch" [Tup [Num 6.5; Num 5.2]; Num 0.6; Num 0.6]
      [("boxstyle", Str "round,pad=0.02"); ("facecolor", Str "black");
       ("edgecolor", Str "white"); ("linewidth", Num 1)] ;;
  invoke ax1 "add_patch" [q2] [] ;;
  invoke ax1 "text" [Num 6.8; Num 5.5; Str "Q2"]
      [("fontsize", Num 6); ("ha", Str "center"); ("va", Str "center"); ("color", Str "white")] ;;
  for_ (range 3) (fun i =>
    pin <- construct "Rectangle" [Tup [Num (6.55 + (Nq i * 0.18)); Num 5.05]; Num 0.1; Num 0.15]
        [("facecolor", Str "silver")] ;;
    invoke ax1 "add_patch" [pin] []) ;;
  invoke ax1 "text" [Num 6.8; Num 4.9; Str "BSS138"]
      [("fontsize", Num 5); ("ha", Str "center"); ("color", Str "yellow")] ;;
  vreg1 <- construct "FancyBboxPatch" [Tup [Num 1.5; Num 2.5]; Num 1.2; Num 0.8]
      [("boxstyle", Str "round,pad=0.02"); ("facecolor", Str "black");
       ("edgecolor", Str "white"); ("linewidth", Num 1)] ;;
  invoke ax1 "add_patch" [vreg1] [] ;;
  invoke ax1 "text" [Num 2.1; Num 2.9; Str "LM7805"]
      [("fontsize", Num 6); ("ha", Str "center"); ("va", Str "center"); ("color", Str "white");
       ("fontweight", Str "bold")] ;;
  for_ (range 3) (fun i =>
    pin <- construct "Rectangle" [Tup [Num (1.65 + (Nq i * 0.3)); Num 2.3]; Num 0.15; Num 0.2]
        [("facecolor", Str "silver")] ;;
    invoke ax1 "add_patch" [pin] []) ;;
  invoke ax1 "text" [Num 2.1; Num 2.1; Str "U3"]
      [("fontsize", Num 6); ("ha", Str "center"); ("color", Str "yellow")] ;;
  vreg2 <- construct "FancyBboxPatch" [Tup [Num 3.5; Num 2.5]; Num 1; Num 0.7]
      [("boxstyle", Str "round,pad=0.02"); ("facecolor", Str "black");
       ("edgecolor", Str "white"); ("linewidth", Num 1)] ;;
  invoke ax1 "add_patch" [vreg2] [] ;;
  invoke ax1 "text" [Num 4; Num 2.85; Str "AMS1117"]
      [("fontsize", Num 5); ("ha", Str "center"); ("va", Str "center"); ("color", Str "white")] ;;
  invoke ax1 "text" [Num 4; Num 2.65; Str "3.3V"]
      [("fontsize", Num 5); ("ha", Str "center"); ("va", Str "center"); ("color", Str "white")] ;;
  for_ (range 3) (fun i =>
    pin <- construct "Rectangle" [Tup [Num (3.6 + (Nq i * 0.3)); Num 2.35]; Num 0.12; Num 0.15]
        [("facecolor", Str "silver")] ;;
    invoke ax1 "add_patch" [pin] []) ;;
  invoke ax1 "text" [Num 4; Num 2.1; Str "U4"]
      [("fontsize", Num 6); ("ha", Str "center"); ("color", Str "yellow")] ;;
  let caps :=
      [(0.8, 3.2, "C1\n100µF"); (2.8, 3.2, "C2\n100µF"); (4.8, 3.2, "C3\n10µF");
       (1.5, 4.3, "C4\n100nF"); (4, 4.3, "C5\n100nF")] in
  for_ caps (fun '(cx, cy, label) =>
    cap <- construct "Circle" [Tup [Num cx; Num cy]; Num 0.25]
        [("fill", Bool true); ("facecolor", Str "brown"); ("edgecolor", Str "black");
         ("linewidth", Num 1)] ;;
    invoke ax1 "add_patch" [cap] [] ;;
    invoke ax1 "text" [Num cx; Num (cy + 0.4); Str label]
        [("fontsize", Num 5); ("ha", Str "center")]) ;;
  let resistors :=
      [(5.5, 7.2, "R1\n10k"); (5.5, 6.7, "R2\n100k"); (7.5, 7.5, "R3\n10k");
       (7.5, 7, "R4\n10k"); (7.5, 6.2, "R5\n10k"); (7.5, 5.7, "R6\n10k"); (6, 4, "R7\n4.7k")] in
  for_ resistors (fun '(rx, ry, label) =>
    res <- construct "Rectangle" [Tup [Num (rx - 0.2); Num (ry - 0.08)]; Num 0.4; Num 0.16]
        [("facecolor", Str "beige"); ("edgecolor", Str "black"); ("linewidth", Num 1)] ;;
    invoke ax1 "add_patch" [res] [] ;;
    invoke ax1 "text" [Num (rx + 0.35); Num ry; Str label]
        [("fontsize", Num 4); ("va", Str "center")]) ;;
  temp <- construct "FancyBboxPatch" [Tup [Num 5.5; Num 3.5]; Num 0.8; Num 0.6]
      [("boxstyle", Str "round,pad=0.02"); ("facecolor", Str "black");
       ("edgecolor", Str "white"); ("linewidth", Num 1)] ;;
  invoke ax1 "add_patch" [temp] [] ;;
  invoke ax1 "text" [Num 5.9; Num 3.8; Str "DS18B20"]
      [("fontsize", Num 5); ("ha", Str "center"); ("va", Str "center"); ("color", Str "white")] ;;
  for_ (range 3) (fun i =>
    pin <- construct "Rectangle" [Tup [Num (5.6 + (Nq i * 0.2)); Num 3.35]; Num 0.1; Num 0.15]
        [("facecolor", Str "silver")] ;;
    invoke ax1 "add_patch" [pin] []) ;;
  invoke ax1 "text" [Num 5.9; Num 3.2; Str "U5"]
      [("fontsize", Num 5); ("ha", Str "center"); ("color", Str "yellow")] ;;
  header <- construct "FancyBboxPatch" [Tup [Num 8; Num 5]; Num 1.5; Num 2]
      [("boxstyle", Str "round,pad=0.02"); ("facecolor", Str "black");
       ("edgecolor", Str "white"); ("linewidth", Num 2)] ;;
  invoke ax1 "add_patch" [header] [] ;;
  invoke ax1 "text" [Num 8.75; Num 6.8; Str "ESP32"]
      [("fontsize", Num 6); ("ha", Str "center"); ("color", Str "white");
       ("fontweight", Str "bold")] ;;
  invoke ax1 "text" [Num 8.75; Num 6.5; Str "Header"]
      [("fontsize", Num 6); ("ha", Str "center"); ("color", Str "white")] ;;
  let pins_labels := ["3.3V"; "GND"; "TRIG"; "ECHO"; "TEMP"] in
  for_ (enumerate pins_labels) (fun '(i, label) =>
    pin_hole <- construct "Circle" [Tup [Num 8.4; Num (6.1 - (Nq i * 0.3))]; Num 0.08]
        [("fill", Bool true); ("facecolor", Str "gold"); ("edgecolor", Str "black")] ;;
    invoke ax1 "add_patch" [pin_hole] [] ;;
    invoke ax1 "text" [Num 8.55; Num (6.1 - (Nq i * 0.3)); Str label]
        [("fontsize", Num 5); ("va", Str "center"); ("color", Str "white")]) ;;
  pwr <- construct "FancyBboxPatch" [Tup [Num 8.2; Num 2.5]; Num 1.2; Num 0.8]
      [("boxstyle", Str "round,pad=0.02"); ("facecolor", Str "green");
       ("edgecolor", Str "white"); ("linewidth", Num 2)] ;;
  invoke ax1 "add_patch" [pwr] [] ;;
  invoke ax1 "text" [Num 8.8; Num 2.9; Str "PWR IN"]
      [("fontsize", Num 6); ("ha", Str "center"); ("va", Str "center"); ("color", Str "white");
       ("fontweight", Str "bold")] ;;
  invoke ax1 "text" [Num 8.8; Num 2.6; Str "7-12V"]
      [("fontsize", Num 5); ("ha", Str "center"); ("color", Str "white")] ;;
  invoke ax1 "text" [Num 5; Num 9.5; Str "CUSTOM ULTRASONIC SENSOR v1.0"]
      [("fontsize", Num 8); ("ha", Str "center"); ("color", Str "white");
       ("fontweight", Str "bold")] ;;
  invoke ax1 "text" [Num 5; Num 0.3; Str "Bulacan State University - 2025"]
      [("fontsize", Num 6); ("ha", Str "center"); ("color", Str "white")] ;;
  invoke ax1 "text" [Num 0.7; Num 3.5; Str "+"]
      [("fontsize", Num 10); ("ha", Str "center"); ("color", Str "red");
       ("fontweight", Str "bold")] ;;
  invoke ax1 "text" [Num 2.7; Num 3.5; Str "+"]
      [("fontsize", Num 10); ("ha", Str "center"); ("color", Str "red");
       ("fontweight", Str "bold")] ;;
  let ax2 := axes_at axes 2 0 1 in
  invoke ax2 "set_xlim" [Num (-1); Num 11] [] ;;
  invoke ax2 "set_ylim" [Num (-1); Num 11] [] ;;
  invoke ax2 "set_aspect" [Str "equal"] [] ;;
  invoke ax2 "set_facecolor" [Str "#1a472a"] [] ;;
  invoke ax2 "set_title" [Str "PCB Bottom Layer - Copper Traces"]
      [("fontsize", Num 12); ("fontweight", Str "bold"); ("pad", Num 10)] ;;
  pcb_outline2 <- construct "Rectangle" [Tup [Num 0; Num 0]; Num 10; Num 10]
      [("fill", Bool false); ("edgecolor", Str "white"); ("linewidth", Num 3)] ;;
  invoke ax2 "add_patch" [pcb_outline2] [] ;;
  for_ [(0.5, 0.5); (9.5, 0.5); (0.5, 9.5); (9.5, 9.5)] (fun '(mx, my) =>
    hole <- construct "Circle" [Tup [Num mx; Num my]; Num 0.2]
        [("fill", Bool true); ("facecolor", Str "#1a472a"); ("edgecolor", Str "gold");
         ("linewidth", Num 2)] ;;
    invoke ax2 "add_patch" [hole] []) ;;
  ground_plane <- construct "Rectangle" [Tup [Num 0.3; Num 0.3]; Num 9.4; Num 1.5]
      [("fill", Bool true); ("facecolor", Str "#8B4513"); ("edgecolor", Str "#B87333");
       ("linewidth", Num 0); ("alpha", Num 0.5)] ;;
  invoke ax2 "add_patch" [ground_plane] [] ;;
  invoke ax2 "text" [Num 5; Num 1; Str "GROUND PLANE"]
      [("fontsize", Num 8); ("ha", Str "center"); ("color", Str "white");
       ("fontweight", Str "bold")] ;;
  invoke ax2 "plot" [Lst [Num 1.5; Num 1.5; Num 7.5]; Lst [Num 2.5; Num 4; Num 4]]
      [("color", Str "red"); ("linewidth", Num 4); ("solid_capstyle", Str "round")] ;;
  invoke ax2 "plot" [Lst [Num 1.5; Num 1.5]; Lst [Num 4; Num 6]]
      [("color", Str "red"); ("linewidth", Num 4); ("solid_capstyle", Str "round")] ;;
  invoke ax2 "text" [Num 0.8; Num 5; Str "5V"]
      [("fontsize", Num 7); ("color", Str "red"); ("fontweight", Str "bold")] ;;
  invoke ax2 "plot" [Lst [Num 4; Num 4; Num 8.5]; Lst [Num 2.5; Num 3.5; Num 3.5]]
      [("color", Str "orange"); ("linewidth", Num 3); ("solid_capstyle", Str "round")] ;;
  invoke ax2 "plot" [Lst [Num 8.5; Num 8.5]; Lst [Num 3.5; Num 5.5]]
      [("color", Str "orange"); ("linewidth", Num 3); ("solid_capstyle", Str "round")] ;;
  invoke ax2 "text" [Num 4.3; Num 3.2; Str "3.3V"]
      [("fontsize", Num 6); ("color", Str "orange"); ("fontweight", Str "bold")] ;;
  invoke ax2 "plot" [Lst [Num 8.4; Num 7.5; Num 7.5; Num 6.8]; Lst [Num 5.8; Num 5.8; Num 6.8;
   Num 6.8]]
      [("color", Str "blue"); ("linewidth", Num 2)] ;;
  invoke ax2 "plot" [Lst [Num 6.5; Num 5; Num 3; Num 2]; Lst [Num 6.8; Num 6.8; Num 6.8;
   Num 6.3]]
      [("color", Str "blue"); ("linewidth", Num 2)] ;;
  invoke ax2 "text" [Num 5; Num 7.1; Str "TRIG"] [("fontsize", Num 5); ("color", Str "cyan")] ;;
  invoke ax2 "plot" [Lst [Num 4; Num 5.5; Num 6.5]; Lst [Num 6; Num 6; Num 5.5]]
      [("color", Str "green"); ("linewidth", Num 2)] ;;
  invoke ax2 "plot" [Lst [Num 7.1; Num 8.4]; Lst [Num 5.5; Num 5.5]]
      [("color", Str "green"); ("linewidth", Num 2)] ;;
  invoke ax2 "text" [Num 5.5; Num 6.3; Str "ECHO"] [("fontsize", Num 5); ("color", Str "lime")] ;;
  invoke ax2 "plot" [Lst [Num 2; Num 2]; Lst [Num 7.2; Num 6.3]]
      [("color", Str "blue"); ("linewidth", Num 2)] ;;
  invoke ax2 "plot" [Lst [Num 4; Num 4]; Lst [Num 7.2; Num 6.5]]
      [("color", Str "green"); ("linewidth", Num 2)] ;;
  invoke ax2 "plot" [Lst [Num 5.9; Num 5.9; Num 8.4]; Lst [Num 4.1; Num 4.8; Num 4.8]]
      [("color", Str "purple"); ("linewidth", Num 2)] ;;
  invoke ax2 "text" [Num 7; Num 5; Str "TEMP"] [("fontsize", Num 5); ("color", Str "violet")] ;;
  let vias := [(2, 6.5); (4, 6.5); (1.5, 4); (4, 3.5); (6.8, 6.8); (6.8, 5.5); (5.9, 4.1)] in
  for_ vias (fun '(vx, vy) =>
    via <- construct "Circle" [Tup [Num vx; Num vy]; Num 0.1]
        [("fill", Bool true); ("facecolor", Str "gold"); ("edgecolor", Str "black");
         ("linewidth", Num 1)] ;;
    invoke ax2 "add_patch" [via] []) ;;
  for_ [2; 4] (fun tx_x =>
    outline <- construct "Circle" [Tup [Num tx_x; Num 8]; Num 0.8]
        [("fill", Bool false); ("edgecolor", Str "white"); ("linewidth", Num 1);
         ("linestyle", Str "--")] ;;
    invoke ax2 "add_patch" [outline] []) ;;
  for_ [Tup [Num 1.2; Num 5.5; Num 1.6; Num 0.8]; Tup [Num 3.5; Num 5.3; Num 2; Num 1.2];
   Tup [Num 1.5; Num 2.5; Num 1.2; Num 0.8]; Tup [Num 3.5; Num 2.5; Num 1;
   Num 0.7]] (fun ic_outline =>
    rect <- construct "Rectangle" [Tup [getitem ic_outline 0; getitem ic_outline 1];
     getitem ic_outline 2; getitem ic_outline 3]
        [("fill", Bool false); ("edgecolor", Str "white"); ("linewidth", Num 1);
         ("linestyle", Str "--")] ;;
    invoke ax2 "add_patch" [rect] []) ;;
  invoke ax2 "text" [Num 9.5; Num 9; Str "Legend:"]
      [("fontsize", Num 7); ("color", Str "white"); ("fontweight", Str "bold")] ;;
  invoke ax2 "plot" [Lst [Num 8.5; Num 9]; Lst [Num 8.5; Num 8.5]]
      [("color", Str "red"); ("linewidth", Num 3)] ;;
  invoke ax2 "text" [Num 9.1; Num 8.5; Str "5V"]
      [("fontsize", Num 6); ("color", Str "white"); ("va", Str "center")] ;;
  invoke ax2 "plot" [Lst [Num 8.5; Num 9]; Lst [Num 8.1; Num 8.1]]
      [("color", Str "orange"); ("linewidth", Num 3)] ;;
  invoke ax2 "text" [Num 9.1; Num 8.1; Str "3.3V"]
      [("fontsize", Num 6); ("color", Str "white"); ("va", Str "center")] ;;
  invoke ax2 "plot" [Lst [Num 8.5; Num 9]; Lst [Num 7.7; Num 7.7]]
      [("color", Str "blue"); ("linewidth", Num 2)] ;;
  invoke ax2 "text" [Num 9.1; Num 7.7; Str "Signal"]
      [("fontsize", Num 6); ("color", Str "white"); ("va", Str "center")] ;;
  via_legend <- construct "Circle" [Tup [Num 8.75; Num 7.3]; Num 0.1]
      [("fill", Bool true); ("facecolor", Str "gold")] ;;
  invoke ax2 "add_patch" [via_legend] [] ;;
  invoke ax2 "text" [Num 9.1; Num 7.3; Str "Via"]
      [("fontsize", Num 6); ("color", Str "white"); ("va", Str "center")] ;;
  invoke ax2 "annotate" [Str ""]
      [("xy", Tup [Num 10.3; Num 0]); ("xytext", Tup [Num 10.3; Num 10]);
       ("arrowprops", Dict [("arrowstyle", Str "<->"); ("color", Str "white"); ("lw", Num 1)])] ;;
  invoke ax2 "text" [Num 10.5; Num 5; Str "50mm"]
      [("fontsize", Num 7); ("color", Str "white"); ("rotation", Num 90); ("va", Str "center")] ;;
  invoke ax2 "annotate" [Str ""]
      [("xy", Tup [Num 0; Num (-0.5)]); ("xytext", Tup [Num 10; Num (-0.5)]);
       ("arrowprops", Dict [("arrowstyle", Str "<->"); ("color", Str "white"); ("lw", Num 1)])] ;;
  invoke ax2 "text" [Num 5; Num (-0.8); Str "50mm"]
      [("fontsize", Num 7); ("color", Str "white"); ("ha", Str "center")] ;;
  plt "tight_layout" [] [] ;;
  plt "savefig" [Str "/workspaces/ultraman/research_paper/images/pcb_layout.png"]
      [("dpi", Num 300); ("bbox_inches", Str "tight"); ("facecolor", Str "#2d2d2d")] ;;
  plt "savefig" [Str "/workspaces/ultraman/research_paper/images/pcb_layout.pdf"]
      [("bbox_inches", Str "tight"); ("facecolor", Str "#2d2d2d")] ;;
  print "PCB layout saved!".

(** [if __name__ == "__main__":] *)
Definition main : M unit :=
  create_pcb_layout.

End generate_pcb.

(** ** [generate_schematic.py]: circuit schematic *)

Module generate_schematic.

(** [draw_resistor] (line 13)
    Draw a resistor symbol.  The loop that appends [[px, py]] to [points] is
    the [map] over [range(num_zigs + 1)]; [points[:, 0]] and [points[:, 1]]
    are the two columns of the array.
    Defaults: width=0.8, height=0.2, label="", value="", vertical=false. *)
Definition draw_resistor (ax : handle) (x y width height : Q) (label value : string)
  (vertical : bool) : M unit :=
  if vertical then (
    let num_zigs := 6%nat in
    let points := map (fun i =>
      let px := x + (if (i mod 2 =? 1)%nat then 0.15
                     else if ((i mod 2 =? 0) && (0 <? i))%nat then (-0.15) else 0) in
      let py := y + ((Nq i / Nq num_zigs) * height) in
      (px, py)) (range (num_zigs + 1)) in
    points <- by_name "np.array"
        [Lst (map (fun '(px, py) => Lst [Num px; Num py]) points)] [] points ;;
    invoke ax "plot" [Arr (map fst points); Arr (map snd points); Str "k-"]
        [("linewidth", Num 1.5)] ;;
    when (nonempty label) (
      invoke ax "text" [Num (x + 0.25); Num (y + (height / 2));
       Fmt "{label}\n{value}" [Str label; Str value]]
          [("fontsize", Num 6); ("va", Str "center")]))
  else (
    let num_zigs := 6%nat in
    let points := map (fun i =>
      let px := x + ((Nq i / Nq num_zigs) * width) in
      let py := y + (if (i mod 2 =? 1)%nat then 0.1
                     else if ((i mod 2 =? 0) && (0 <? i))%nat then (-0.1) else 0) in
      (px, py)) (range (num_zigs + 1)) in
    points <- by_name "np.array"
        [Lst (map (fun '(px, py) => Lst [Num px; Num py]) points)] [] points ;;
    invoke ax "plot" [Arr (map fst points); Arr (map snd points); Str "k-"]
        [("linewidth", Num 1.5)] ;;
    when (nonempty label) (
      invoke ax "text" [Num (x + (width / 2)); Num (y + 0.25);
       Fmt "{label}\n{value}" [Str label; Str value]]
          [("fontsize", Num 6); ("ha", Str "center")])).

(** [draw_capacitor] (line 40)
    Draw a capacitor symbol
    Defaults: label="", value="", vertical=false. *)
Definition draw_capacitor (ax : handle) (x y : Q) (label value : string) (vertical : bool)
  : M unit :=
  if vertical then (
    invoke ax "plot" [Lst [Num (x - 0.15); Num (x + 0.15)]; Lst [Num y; Num y]; Str "k-"]
        [("linewidth", Num 2)] ;;
    invoke ax "plot" [Lst [Num (x - 0.15); Num (x + 0.15)]; Lst [Num (y + 0.1); Num (y + 0.1)];
     Str "k-"]
        [("linewidth", Num 2)] ;;
    when (nonempty label) (
      invoke ax "text" [Num (x + 0.25); Num (y + 0.05); Fmt "{label}\n{value}" [Str label;
       Str value]]
          [("fontsize", Num 6); ("va", Str "center")]))
  else (
    invoke ax "plot" [Lst [Num x; Num x]; Lst [Num (y - 0.15); Num (y + 0.15)]; Str "k-"]
        [("linewidth", Num 2)] ;;
    invoke ax "plot" [Lst [Num (x + 0.1); Num (x + 0.1)]; Lst [Num (y - 0.15); Num (y + 0.15)];
     Str "k-"]
        [("linewidth", Num 2)] ;;
    when (nonempty label) (
      invoke ax "text" [Num (x + 0.05); Num (y + 0.3); Fmt "{label}\n{value}" [Str label;
       Str value]]
          [("fontsize", Num 6); ("ha", Str "center")])).

(** [draw_transistor_nmos] (line 53)
    Draw N-channel MOSFET
    Defaults: label="". *)
Definition draw_transistor_nmos (ax : handle) (x y : Q) (label : string) : M unit :=
  invoke ax "plot" [Lst [Num (x - 0.3); Num x]; Lst [Num y; Num y]; Str "k-"]
      [("linewidth", Num 1.5)] ;;
  invoke ax "plot" [Lst [Num x; Num x]; Lst [Num (y - 0.2); Num (y + 0.2)]; Str "k-"]
      [("linewidth", Num 2)] ;;
  invoke ax "plot" [Lst [Num (x + 0.1); Num (x + 0.1)]; Lst [Num (y - 0.25); Num (y + 0.25)];
   Str "k-"]
      [("linewidth", Num 1.5)] ;;
  invoke ax "plot" [Lst [Num (x + 0.1); Num (x + 0.3)]; Lst [Num (y - 0.2); Num (y - 0.2)];
   Str "k-"]
      [("linewidth", Num 1.5)] ;;
  invoke ax "plot" [Lst [Num (x + 0.1); Num (x + 0.3)]; Lst [Num (y + 0.2); Num (y + 0.2)];
   Str "k-"]
      [("linewidth", Num 1.5)] ;;
  invoke ax "plot" [Lst [Num (x + 0.3); Num (x + 0.3)]; Lst [Num (y - 0.2); Num (y - 0.35)];
   Str "k-"]
      [("linewidth", Num 1.5)] ;;
  invoke ax "plot" [Lst [Num (x + 0.3); Num (x + 0.3)]; Lst [Num (y + 0.2); Num (y + 0.35)];
   Str "k-"]
      [("linewidth", Num 1.5)] ;;
  invoke ax "annotate" [Str ""]
      [("xy", Tup [Num (x + 0.2); Num y]); ("xytext", Tup [Num (x + 0.1); Num y]);
       ("arrowprops", Dict [("arrowstyle", Str "->"); ("color", Str "black"); ("lw", Num 1)])] ;;
  when (nonempty label) (
    invoke ax "text" [Num (x + 0.4); Num y; Str label]
        [("fontsize", Num 6); ("va", Str "center")]).

(** [draw_opamp] (line 71)
    Draw op-amp triangle
    Defaults: label="". *)
Definition draw_opamp (ax : handle) (x y : Q) (label : string) : M unit :=
  triangle <- construct "Polygon" [Lst [Tup [Num x; Num (y - 0.4)]; Tup [Num x; Num (y + 0.4)];
   Tup [Num (x + 0.6); Num y]]]
      [("fill", Bool false); ("edgecolor", Str "black"); ("linewidth", Num 1.5)] ;;
  invoke ax "add_patch" [triangle] [] ;;
  invoke ax "text" [Num (x + 0.1); Num (y + 0.15); Str "+"] [("fontsize", Num 8)] ;;
  invoke ax "text" [Num (x + 0.1); Num (y - 0.15); Str "-"] [("fontsize", Num 8)] ;;
  when (nonempty label) (
    invoke ax "text" [Num (x + 0.3); Num (y - 0.5); Str label]
        [("fontsize", Num 6); ("ha", Str "center")]).

(** [draw_transducer] (line 81)
    Draw ultrasonic transducer symbol
    Defaults: label="TX". *)
Definition draw_transducer (ax : handle) (x y : Q) (label : string) : M unit :=
  circle <- construct "Circle" [Tup [Num x; Num y]; Num 0.35]
      [("fill", Bool false); ("edgecolor", Str "black"); ("linewidth", Num 2)] ;;
  invoke ax "add_patch" [circle] [] ;;
  inner <- construct "Circle" [Tup [Num x; Num y]; Num 0.2]
      [("fill", Bool true); ("facecolor", Str "lightgray"); ("edgecolor", Str "black");
       ("linewidth", Num 1)] ;;
  invoke ax "add_patch" [inner] [] ;;
  for_ (range 3) (fun i =>
    arc <- construct "Arc" [Tup [Num ((x + 0.5) + (Nq i * 0.15)); Num y]; Num 0.2; Num 0.4]
        [("angle", Num 0); ("theta1", Num 60); ("theta2", Num 300); ("linewidth", Num 1);
         ("color", Str "blue")] ;;
    invoke ax "add_patch" [arc] []) ;;
  invoke ax "text" [Num x; Num y; Str label]
      [("fontsize", Num 8); ("ha", Str "center"); ("va", Str "center");
       ("fontweight", Str "bold")].

(** [draw_ic_package] (line 96)
    Draw IC package with pins *)
Definition draw_ic_package (ax : handle) (x y width height : Q) (label : string)
  (pins_left pins_right : list string) : M unit :=
  rect <- construct "FancyBboxPatch" [Tup [Num x; Num y]; Num width; Num height]
      [("boxstyle", Str "round,pad=0.02"); ("facecolor", Str "lightgray");
       ("edgecolor", Str "black"); ("linewidth", Num 1.5)] ;;
  invoke ax "add_patch" [rect] [] ;;
  invoke ax "text" [Num (x + (width / 2)); Num (y + (height / 2)); Str label]
      [("fontsize", Num 8); ("ha", Str "center"); ("va", Str "center");
       ("fontweight", Str "bold")] ;;
  let pin_spacing := height / (Nq (len pins_left) + 1) in
  for_ (enumerate pins_left) (fun '(i, pin) =>
    let py := (y + height) - ((Nq i + 1) * pin_spacing) in
    invoke ax "plot" [Lst [Num (x - 0.2); Num x]; Lst [Num py; Num py]; Str "k-"]
        [("linewidth", Num 1.5)] ;;
    invoke ax "text" [Num (x - 0.25); Num py; Str pin]
        [("fontsize", Num 5); ("ha", Str "right"); ("va", Str "center")]) ;;
  let pin_spacing := height / (Nq (len pins_right) + 1) in
  for_ (enumerate pins_right) (fun '(i, pin) =>
    let py := (y + height) - ((Nq i + 1) * pin_spacing) in
    invoke ax "plot" [Lst [Num (x + width); Num ((x + width) + 0.2)]; Lst [Num py; Num py];
     Str "k-"]
        [("linewidth", Num 1.5)] ;;
    invoke ax "text" [Num ((x + width) + 0.25); Num py; Str pin]
        [("fontsize", Num 5); ("ha", Str "left"); ("va", Str "center")]).

(** [create_schematic] (line 117) *)
Definition create_schematic : M unit :=
  '(fig, axes) <- plt_subplots 1 1 [("figsize", Tup [Num 16; Num 12])] ;;
  let ax := axes_at axes 1 0 0 in
  invoke ax "set_xlim" [Num (-1); Num 16] [] ;;
  invoke ax "set_ylim" [Num (-1); Num 12] [] ;;
  invoke ax "set_aspect" [Str "equal"] [] ;;
  invoke ax "axis" [Str "off"] [] ;;
  invoke ax "text" [Num 7.5; Num 11.5;
   Str "Custom Ultrasonic Sensor - Complete Circuit Schematic"]
      [("fontsize", Num 14); ("fontweight", Str "bold"); ("ha", Str "center")] ;;
  invoke ax "text" [Num 7.5; Num 11;
   Str "Designed for ESP32-S3 (3.3V Logic) with 5V Sensor Operation"]
      [("fontsize", Num 10); ("ha", Str "center"); ("style", Str "italic")] ;;
  invoke ax "text" [Num 1; Num 10; Str "ULTRASONIC TRANSDUCERS"]
      [("fontsize", Num 9); ("fontweight", Str "bold");
       ("bbox", Dict [("boxstyle", Str "round"); ("facecolor", Str "lightblue")])] ;;
  draw_transducer ax 1 8.5 "TX" ;;
  invoke ax "text" [Num 1; Num 7.9; Str "40kHz"] [("fontsize", Num 6); ("ha", Str "center")] ;;
  draw_transducer ax 1 6 "RX" ;;
  invoke ax "text" [Num 1; Num 5.4; Str "40kHz"] [("fontsize", Num 6); ("ha", Str "center")] ;;
  invoke ax "text" [Num 3.5; Num 10; Str "TX DRIVER (TC4427)"]
      [("fontsize", Num 9); ("fontweight", Str "bold");
       ("bbox", Dict [("boxstyle", Str "round"); ("facecolor", Str "lightyellow")])] ;;
  draw_ic_package ax 3.5 7.8 1.5 1.4 "TC4427" ["IN_A"; "GND"; "IN_B"; "VDD"]
      ["OUT_A"; "NC"; "OUT_B"; "NC"] ;;
  invoke ax "plot" [Lst [Num 1.35; Num 2.5; Num 2.5; Num 3.3]; Lst [Num 8.5; Num 8.5; Num 9.0;
   Num 9.0]; Str "b-"]
      [("linewidth", Num 1.5)] ;;
  invoke ax "plot" [Lst [Num 3.3; Num 3.5]; Lst [Num 9.0; Num 9.0]; Str "b-"]
      [("linewidth", Num 1.5)] ;;
  invoke ax "plot" [Lst [Num 5; Num 5.5; Num 5.5]; Lst [Num 9.0; Num 9.0; Num 8.5]; Str "b-"]
      [("linewidth", Num 1.5)] ;;
  invoke ax "plot" [Lst [Num 5; Num 5.5; Num 5.5]; Lst [Num 8.4; Num 8.4; Num 8.5]; Str "b-"]
      [("linewidth", Num 1.5)] ;;
  draw_capacitor ax 2.5 8.2 "C1" "100nF" false ;;
  invoke ax "text" [Num 3.5; Num 6.8; Str "RX AMPLIFIER (LM324)"]
      [("fontsize", Num 9); ("fontweight", Str "bold");
       ("bbox", Dict [("boxstyle", Str "round"); ("facecolor", Str "lightgreen")])] ;;
  draw_opamp ax 3.5 5.5 "U2A" ;;
  invoke ax "plot" [Lst [Num 3.5; Num 3.5; Num 4.5; Num 4.5]; Lst [Num 5.9; Num 6.3; Num 6.3;
   Num 5.5]; Str "k-"]
      [("linewidth", Num 1)] ;;
  draw_resistor ax 3.7 6.3 0.6 0.15 "R2" "100kΩ" false ;;
  invoke ax "plot" [Lst [Num 1.35; Num 2.5; Num 2.5; Num 3.5]; Lst [Num 6; Num 6; Num 5.65;
   Num 5.65]; Str "g-"]
      [("linewidth", Num 1.5)] ;;
  draw_capacitor ax 2.5 5.65 "C2" "100nF" false ;;
  draw_resistor ax 2.8 5.2 0.5 0.15 "R1" "10kΩ" false ;;
  invoke ax "plot" [Lst [Num 2.8; Num 2.8]; Lst [Num 5.2; Num 5.35]; Str "k-"]
      [("linewidth", Num 1)] ;;
  invoke ax "plot" [Lst [Num 2.8; Num 2.8]; Lst [Num 5.05; Num 4.9]; Str "k-"]
      [("linewidth", Num 1)] ;;
  draw_opamp ax 5 5.5 "U2B" ;;
  invoke ax "plot" [Lst [Num 4.1; Num 4.5; Num 4.5; Num 5]; Lst [Num 5.5; Num 5.5; Num 5.65;
   Num 5.65]; Str "k-"]
      [("linewidth", Num 1.5)] ;;
  draw_resistor ax 4.5 4.8 0.5 0.15 "R3" "10kΩ" false ;;
  draw_resistor ax 4.5 4.4 0.5 0.15 "R4" "10kΩ" false ;;
  invoke ax "plot" [Lst [Num 5; Num 4.75; Num 4.75]; Lst [Num 5.35; Num 5.35; Num 4.95];
   Str "k-"]
      [("linewidth", Num 1)] ;;
  invoke ax "text" [Num 7; Num 10; Str "LEVEL SHIFTER (5V↔3.3V)"]
      [("fontsize", Num 9); ("fontweight", Str "bold");
       ("bbox", Dict [("boxstyle", Str "round"); ("facecolor", Str "lightcoral")])] ;;
  invoke ax "text" [Num 7; Num 9.2; Str "TRIGGER (3.3V→5V)"]
      [("fontsize", Num 7); ("style", Str "italic")] ;;
  draw_transistor_nmos ax 7.5 8.5 "Q1\nBSS138" ;;
  draw_resistor ax 7.2 9 0.15 0.4 "R5" "10kΩ" true ;;
  draw_resistor ax 8 9 0.15 0.4 "R6" "10kΩ" true ;;
  invoke ax "text" [Num 7; Num 7.2; Str "ECHO (5V→3.3V)"]
      [("fontsize", Num 7); ("style", Str "italic")] ;;
  draw_transistor_nmos ax 7.5 6.5 "Q2\nBSS138" ;;
  draw_resistor ax 7.2 7 0.15 0.4 "R7" "10kΩ" true ;;
  draw_resistor ax 8 7 0.15 0.4 "R8" "10kΩ" true ;;
  invoke ax "text" [Num 1; Num 4; Str "POWER SUPPLY"]
      [("fontsize", Num 9); ("fontweight", Str "bold");
       ("bbox", Dict [("boxstyle", Str "round"); ("facecolor", Str "orange")])] ;;
  invoke ax "text" [Num 0.5; Num 3.3; Str "VIN\n7-12V"]
      [("fontsize", Num 7); ("ha", Str "center"); ("bbox", Dict [("boxstyle", Str "round");
       ("facecolor", Str "yellow")])] ;;
  draw_ic_package ax 2 2.5 1.2 1 "LM7805" ["VIN"; "GND"] ["VOUT"] ;;
  draw_capacitor ax 1.3 2.8 "C3" "100µF" true ;;
  draw_capacitor ax 3.8 2.8 "C4" "100µF" true ;;
  draw_ic_package ax 5 2.5 1.2 1 "AMS1117\n3.3V" ["VIN"; "GND"] ["VOUT"] ;;
  draw_capacitor ax 6.8 2.8 "C5" "10µF" true ;;
  invoke ax "plot" [Lst [Num 0.8; Num 2]; Lst [Num 3; Num 3]; Str "r-"] [("linewidth", Num 2)] ;;
  invoke ax "plot" [Lst [Num 3.2; Num 5]; Lst [Num 3; Num 3]; Str "r-"] [("linewidth", Num 2)] ;;
  invoke ax "plot" [Lst [Num 6.2; Num 7]; Lst [Num 3; Num 3]; Str "orange"]
      [("linewidth", Num 2)] ;;
  invoke ax "text" [Num 3.5; Num 3.3; Str "5V Rail"]
      [("fontsize", Num 7); ("ha", Str "center"); ("color", Str "red");
       ("fontweight", Str "bold")] ;;
  invoke ax "text" [Num 6.5; Num 3.3; Str "3.3V Rail"]
      [("fontsize", Num 7); ("ha", Str "center"); ("color", Str "orange");
       ("fontweight", Str "bold")] ;;
  for_ [1.3; 2.6; 3.8; 5.6; 6.8] (fun gx =>
    invoke ax "plot" [Lst [Num gx; Num gx]; Lst [Num 2.3; Num 2.1]; Str "k-"]
        [("linewidth", Num 2)] ;;
    invoke ax "plot" [Lst [Num (gx - 0.1); Num (gx + 0.1)]; Lst [Num 2.1; Num 2.1]; Str "k-"]
        [("linewidth", Num 2)] ;;
    invoke ax "plot" [Lst [Num (gx - 0.07); Num (gx + 0.07)]; Lst [Num 2.0; Num 2.0]; Str "k-"]
        [("linewidth", Num 1.5)] ;;
    invoke ax "plot" [Lst [Num (gx - 0.04); Num (gx + 0.04)]; Lst [Num 1.9; Num 1.9]; Str "k-"]
        [("linewidth", Num 1)]) ;;
  invoke ax "text" [Num 10; Num 10; Str "ESP32-S3 INTERFACE"]
      [("fontsize", Num 9); ("fontweight", Str "bold");
       ("bbox", Dict [("boxstyle", Str "round"); ("facecolor", Str "lightgray")])] ;;
  header <- construct "FancyBboxPatch" [Tup [Num 10; Num 6]; Num 2.5; Num 3.5]
      [("boxstyle", Str "round,pad=0.05"); ("facecolor", Str "white");
       ("edgecolor", Str "black"); ("linewidth", Num 2)] ;;
  invoke ax "add_patch" [header] [] ;;
  invoke ax "text" [Num 11.25; Num 9.3; Str "ESP32-S3"]
      [("fontsize", Num 10); ("ha", Str "center"); ("fontweight", Str "bold")] ;;
  let pins := ["3.3V (Power)"; "GND"; "GPIO4 (TRIG)"; "GPIO5 (ECHO)"; "GPIO6 (TEMP)"] in
  for_ (enumerate pins) (fun '(i, pin) =>
    let py := 8.8 - (Nq i * 0.5) in
    invoke ax "plot" [Lst [Num 9.5; Num 10]; Lst [Num py; Num py]; Str "k-"]
        [("linewidth", Num 1.5)] ;;
    circle <- construct "Circle" [Tup [Num 9.4; Num py]; Num 0.08]
        [("fill", Bool true); ("facecolor", Str "gold"); ("edgecolor", Str "black")] ;;
    invoke ax "add_patch" [circle] [] ;;
    invoke ax "text" [Num 10.2; Num py; Str pin] [("fontsize", Num 7); ("va", Str "center")]) ;;
  invoke ax "text" [Num 10; Num 5.5; Str "TEMP SENSOR"]
      [("fontsize", Num 9); ("fontweight", Str "bold");
       ("bbox", Dict [("boxstyle", Str "round"); ("facecolor", Str "cyan")])] ;;
  draw_ic_package ax 10.5 4 1 0.8 "DS18B20" ["GND"; "DQ"] ["VDD"] ;;
  draw_resistor ax 11 5 0.15 0.4 "R9" "4.7kΩ" true ;;
  invoke ax "plot" [Lst [Num 8.3; Num 9.5]; Lst [Num 8.5; Num 7.8]; Str "b-"]
      [("linewidth", Num 1.5)] ;;
  invoke ax "plot" [Lst [Num 8.3; Num 9.5]; Lst [Num 6.5; Num 7.3]; Str "g-"]
      [("linewidth", Num 1.5)] ;;
  invoke ax "plot" [Lst [Num 5.6; Num 6.5; Num 6.5; Num 7.2]; Lst [Num 5.5; Num 5.5; Num 6.5;
   Num 6.5]; Str "g-"]
      [("linewidth", Num 1.5)] ;;
  invoke ax "plot" [Lst [Num 7.2; Num 6.5; Num 6.5; Num 5.5; Num 5.5; Num 5]; Lst [Num 8.5;
   Num 8.5; Num 8.5; Num 8.5; Num 8.5; Num 8.7]; Str "b-"]
      [("linewidth", Num 1.5)] ;;
  invoke ax "plot" [Lst [Num 7; Num 7; Num 7.2]; Lst [Num 3; Num 7.4; Num 7.4]; Str "orange"]
      [("linewidth", Num 1.5); ("linestyle", Str "--")] ;;
  invoke ax "plot" [Lst [Num 3.5; Num 3.5; Num 3.5]; Lst [Num 3.3; Num 4.5; Num 7.8]; Str "r-"]
      [("linewidth", Num 1.5); ("linestyle", Str "--")] ;;
  let notes_text :=
      "Design Notes:\n"
      ++ "• Operating voltage: 5V (sensor), 3.3V (ESP32)\n"
      ++ "• BSS138 MOSFETs for bidirectional level shifting\n"
      ++ "• TC4427 provides high-current drive for TX transducer\n"
      ++ "• LM324 quad op-amp: 2 stages for RX amplification\n"
      ++ "• DS18B20 for temperature compensation\n"
      ++ "• All power rails filtered with bypass capacitors" in
  invoke ax "text" [Num 11; Num 2.5; Str notes_text]
      [("fontsize", Num 7); ("va", Str "top"); ("bbox", Dict [("boxstyle", Str "round");
       ("facecolor", Str "lightyellow"); ("alpha", Num 0.8)])] ;;
  invoke ax "text" [Num 14.5; Num 0.5; Str "Rev: 1.0\nDate: 2025"]
      [("fontsize", Num 6); ("ha", Str "center")] ;;
  plt "tight_layout" [] [] ;;
  plt "savefig" [Str "/workspaces/ultraman/research_paper/images/circuit_schematic.png"]
      [("dpi", Num 300); ("bbox_inches", Str "tight"); ("facecolor", Str "white")] ;;
  plt "savefig" [Str "/workspaces/ultraman/research_paper/images/circuit_schematic.pdf"]
      [("bbox_inches", Str "tight"); ("facecolor", Str "white")] ;;
  print "Circuit schematic saved!".

(** [if __name__ == "__main__":] *)
Definition main : M unit :=
  create_schematic.

End generate_schematic.

(** ** [generate_enclosure.py]: enclosure drawings and mounting diagram *)

Module generate_enclosure.

Section numpy.

(** [np.pi], [np.cos] and [np.sin] on one element: numpy's constants and
    elementary functions are taken as given. *)
Variable np_pi : Q.
Variables np_cos np_sin : Q -> Q.

(** [create_enclosure_2d] (line 13)
    Create 2D cross-section and top view of enclosure *)
Definition create_enclosure_2d : M unit :=
  '(fig, axes) <- plt_subplots 1 2 [("figsize", Tup [Num 14; Num 8])] ;;
  let ax1 := axes_at axes 2 0 0 in
  invoke ax1 "set_xlim" [Num (-3); Num 3] [] ;;
  invoke ax1 "set_ylim" [Num (-4); Num 2] [] ;;
  invoke ax1 "set_aspect" [Str "equal"] [] ;;
  invoke ax1 "set_title" [Str "Enclosure Cross-Section (Side View)"]
      [("fontsize", Num 12); ("fontweight", Str "bold")] ;;
  invoke ax1 "set_xlabel" [Str "Width (cm)"] [("fontsize", Num 10)] ;;
  invoke ax1 "set_ylabel" [Str "Height (cm)"] [("fontsize", Num 10)] ;;
  invoke ax1 "grid" [Bool true] [("alpha", Num 0.3)] ;;
  invoke ax1 "axhline" [] [("y", Num 0); ("color", Str "k"); ("linewidth", Num 0.5)] ;;
  invoke ax1 "axvline" [] [("x", Num 0); ("color", Str "k"); ("linewidth", Num 0.5)] ;;
  body <- construct "Rectangle" [Tup [Num (-2); Num 0]; Num 4; Num 1.5]
      [("facecolor", Str "#4a4a4a"); ("edgecolor", Str "black"); ("linewidth", Num 2)] ;;
  invoke ax1 "add_patch" [body] [] ;;
  cone <- construct "Polygon" [Lst [Tup [Num (-2); Num 0]; Tup [Num 2; Num 0]; Tup [Num 0.8;
   Num (-2.5)]; Tup [Num (-0.8); Num (-2.5)]]]
      [("facecolor", Str "#4a4a4a"); ("edgecolor", Str "black"); ("linewidth", Num 2)] ;;
  invoke ax1 "add_patch" [cone] [] ;;
  opening <- construct "Rectangle" [Tup [Num (-0.6); Num (-2.5)]; Num 1.2; Num 0.15]
      [("facecolor", Str "black"); ("edgecolor", Str "white"); ("linewidth", Num 1)] ;;
  invoke ax1 "add_patch" [opening] [] ;;
  pcb <- construct "Rectangle" [Tup [Num (-1.5); Num 0.3]; Num 3; Num 0.15]
      [("facecolor", Str "green"); ("edgecolor", Str "darkgreen"); ("linewidth", Num 1)] ;;
  invoke ax1 "add_patch" [pcb] [] ;;
  invoke ax1 "text" [Num 0; Num 0.37; Str "PCB"]
      [("fontsize", Num 7); ("ha", Str "center"); ("va", Str "center"); ("color", Str "white")] ;;
  tx <- construct "Circle" [Tup [Num (-0.5); Num (-0.3)]; Num 0.3]
      [("facecolor", Str "silver"); ("edgecolor", Str "black"); ("linewidth", Num 1)] ;;
  invoke ax1 "add_patch" [tx] [] ;;
  invoke ax1 "text" [Num (-0.5); Num (-0.3); Str "TX"]
      [("fontsize", Num 6); ("ha", Str "center"); ("va", Str "center")] ;;
  rx <- construct "Circle" [Tup [Num 0.5; Num (-0.3)]; Num 0.3]
      [("facecolor", Str "silver"); ("edgecolor", Str "black"); ("linewidth", Num 1)] ;;
  invoke ax1 "add_patch" [rx] [] ;;
  invoke ax1 "text" [Num 0.5; Num (-0.3); Str "RX"]
      [("fontsize", Num 6); ("ha", Str "center"); ("va", Str "center")] ;;
  for_ (range 4) (fun i =>
    arc <- construct "Arc" [Tup [Num 0; Num (-2.5)]; Num (1 + (Nq i * 0.5));
     Num (0.8 + (Nq i * 0.3))]
        [("angle", Num 0); ("theta1", Num 30); ("theta2", Num 150); ("linewidth", Num 1);
         ("color", Str "blue"); ("linestyle", Str "--"); ("alpha", Num 0.5)] ;;
    invoke ax1 "add_patch" [arc] []) ;;
  invoke ax1 "text" [Num 0; Num (-3.5); Str "Ultrasonic Waves"]
      [("fontsize", Num 8); ("ha", Str "center"); ("color", Str "blue");
       ("style", Str "italic")] ;;
  oring <- construct "Rectangle" [Tup [Num (-2.1); Num (-0.05)]; Num 0.15; Num 0.1]
      [("facecolor", Str "red"); ("edgecolor", Str "darkred")] ;;
  invoke ax1 "add_patch" [oring] [] ;;
  oring2 <- construct "Rectangle" [Tup [Num 1.95; Num (-0.05)]; Num 0.15; Num 0.1]
      [("facecolor", Str "red"); ("edgecolor", Str "darkred")] ;;
  invoke ax1 "add_patch" [oring2] [] ;;
  gland <- construct "FancyBboxPatch" [Tup [Num 1.8; Num 0.8]; Num 0.6; Num 0.5]
      [("boxstyle", Str "round,pad=0.02"); ("facecolor", Str "gray");
       ("edgecolor", Str "black"); ("linewidth", Num 1)] ;;
  invoke ax1 "add_patch" [gland] [] ;;
  invoke ax1 "text" [Num 2.5; Num 1.05; Str "Cable\nGland"]
      [("fontsize", Num 6); ("va", Str "center")] ;;
  bracket <- construct "Polygon" [Lst [Tup [Num (-2.3); Num 1.5]; Tup [Num (-2.3); Num 1.8];
   Tup [Num (-1.5); Num 1.8]; Tup [Num (-1.5); Num 1.5]]]
      [("facecolor", Str "gray"); ("edgecolor", Str "black"); ("linewidth", Num 1)] ;;
  invoke ax1 "add_patch" [bracket] [] ;;
  bracket2 <- construct "Polygon" [Lst [Tup [Num 2.3; Num 1.5]; Tup [Num 2.3; Num 1.8];
   Tup [Num 1.5; Num 1.8]; Tup [Num 1.5; Num 1.5]]]
      [("facecolor", Str "gray"); ("edgecolor", Str "black"); ("linewidth", Num 1)] ;;
  invoke ax1 "add_patch" [bracket2] [] ;;
  hole1 <- construct "Circle" [Tup [Num (-1.9); Num 1.65]; Num 0.1]
      [("facecolor", Str "white"); ("edgecolor", Str "black")] ;;
  invoke ax1 "add_patch" [hole1] [] ;;
  hole2 <- construct "Circle" [Tup [Num 1.9; Num 1.65]; Num 0.1]
      [("facecolor", Str "white"); ("edgecolor", Str "black")] ;;
  invoke ax1 "add_patch" [hole2] [] ;;
  invoke ax1 "annotate" [Str ""]
      [("xy", Tup [Num (-2); Num 1.95]); ("xytext", Tup [Num 2; Num 1.95]);
       ("arrowprops", Dict [("arrowstyle", Str "<->"); ("color", Str "red"); ("lw", Num 1)])] ;;
  invoke ax1 "text" [Num 0; Num 2.1; Str "8 cm"]
      [("fontsize", Num 8); ("ha", Str "center"); ("color", Str "red")] ;;
  invoke ax1 "annotate" [Str ""]
      [("xy", Tup [Num 2.4; Num 1.5]); ("xytext", Tup [Num 2.4; Num (-2.5)]);
       ("arrowprops", Dict [("arrowstyle", Str "<->"); ("color", Str "red"); ("lw", Num 1)])] ;;
  invoke ax1 "text" [Num 2.7; Num (-0.5); Str "8 cm"]
      [("fontsize", Num 8); ("ha", Str "center"); ("color", Str "red"); ("rotation", Num 90)] ;;
  invoke ax1 "text" [Num (-2.8); Num (-3.5);
   Str "Materials:\n• Body: ABS/PVC (IP68)\n• Seal: Silicone O-ring\n• Gland: PG7 Cable Gland"]
      [("fontsize", Num 7); ("va", Str "top"); ("bbox", Dict [("boxstyle", Str "round");
       ("facecolor", Str "lightyellow")])] ;;
  let ax2 := axes_at axes 2 0 1 in
  invoke ax2 "set_xlim" [Num (-3); Num 3] [] ;;
  invoke ax2 "set_ylim" [Num (-3); Num 3] [] ;;
  invoke ax2 "set_aspect" [Str "equal"] [] ;;
  invoke ax2 "set_title" [Str "Enclosure Top View"]
      [("fontsize", Num 12); ("fontweight", Str "bold")] ;;
  invoke ax2 "set_xlabel" [Str "Width (cm)"] [("fontsize", Num 10)] ;;
  invoke ax2 "set_ylabel" [Str "Depth (cm)"] [("fontsize", Num 10)] ;;
  invoke ax2 "grid" [Bool true] [("alpha", Num 0.3)] ;;
  outer <- construct "Rectangle" [Tup [Num (-2); Num (-2)]; Num 4; Num 4]
      [("facecolor", Str "#4a4a4a"); ("edgecolor", Str "black"); ("linewidth", Num 2)] ;;
  invoke ax2 "add_patch" [outer] [] ;;
  tab1 <- construct "Rectangle" [Tup [Num (-2.3); Num 1.5]; Num 0.8; Num 0.3]
      [("facecolor", Str "gray"); ("edgecolor", Str "black"); ("linewidth", Num 1)] ;;
  invoke ax2 "add_patch" [tab1] [] ;;
  tab2 <- construct "Rectangle" [Tup [Num 1.5; Num 1.5]; Num 0.8; Num 0.3]
      [("facecolor", Str "gray"); ("edgecolor", Str "black"); ("linewidth", Num 1)] ;;
  invoke ax2 "add_patch" [tab2] [] ;;
  tab3 <- construct "Rectangle" [Tup [Num (-2.3); Num (-1.8)]; Num 0.8; Num 0.3]
      [("facecolor", Str "gray"); ("edgecolor", Str "black"); ("linewidth", Num 1)] ;;
  invoke ax2 "add_patch" [tab3] [] ;;
  tab4 <- construct "Rectangle" [Tup [Num 1.5; Num (-1.8)]; Num 0.8; Num 0.3]
      [("facecolor", Str "gray"); ("edgecolor", Str "black"); ("linewidth", Num 1)] ;;
  invoke ax2 "add_patch" [tab4] [] ;;
  for_ [((-1.9), 1.65); (1.9, 1.65); ((-1.9), (-1.65)); (1.9, (-1.65))] (fun '(hx, hy) =>
    hole <- construct "Circle" [Tup [Num hx; Num hy]; Num 0.12]
        [("facecolor", Str "white"); ("edgecolor", Str "black"); ("linewidth", Num 1)] ;;
    invoke ax2 "add_patch" [hole] []) ;;
  inner <- construct "Rectangle" [Tup [Num (-1.5); Num (-1.5)]; Num 3; Num 3]
      [("facecolor", Str "#606060"); ("edgecolor", Str "gray"); ("linewidth", Num 1);
       ("linestyle", Str "--")] ;;
  invoke ax2 "add_patch" [inner] [] ;;
  invoke ax2 "text" [Num 0; Num 0; Str "Internal\nCavity"]
      [("fontsize", Num 8); ("ha", Str "center"); ("va", Str "center"); ("color", Str "white")] ;;
  gland_pos <- construct "Circle" [Tup [Num 1.8; Num 0]; Num 0.25]
      [("facecolor", Str "gray"); ("edgecolor", Str "black"); ("linewidth", Num 2)] ;;
  invoke ax2 "add_patch" [gland_pos] [] ;;
  invoke ax2 "text" [Num 2.5; Num 0; Str "Cable\nGland"]
      [("fontsize", Num 6); ("va", Str "center")] ;;
  for_ [((-1.3), 1.3); (1.3, 1.3); ((-1.3), (-1.3)); (1.3, (-1.3))] (fun '(sx, sy) =>
    screw <- construct "Circle" [Tup [Num sx; Num sy]; Num 0.1]
        [("facecolor", Str "silver"); ("edgecolor", Str "black"); ("linewidth", Num 1)] ;;
    invoke ax2 "add_patch" [screw] []) ;;
  invoke ax2 "annotate" [Str ""]
      [("xy", Tup [Num (-2); Num 2.3]); ("xytext", Tup [Num 2; Num 2.3]);
       ("arrowprops", Dict [("arrowstyle", Str "<->"); ("color", Str "red"); ("lw", Num 1)])] ;;
  invoke ax2 "text" [Num 0; Num 2.5; Str "8 cm"]
      [("fontsize", Num 8); ("ha", Str "center"); ("color", Str "red")] ;;
  invoke ax2 "annotate" [Str ""]
      [("xy", Tup [Num 2.5; Num (-2)]); ("xytext", Tup [Num 2.5; Num 2]);
       ("arrowprops", Dict [("arrowstyle", Str "<->"); ("color", Str "red"); ("lw", Num 1)])] ;;
  invoke ax2 "text" [Num 2.7; Num 0; Str "8 cm"]
      [("fontsize", Num 8); ("ha", Str "center"); ("color", Str "red"); ("rotation", Num 90)] ;;
  plt "tight_layout" [] [] ;;
  plt "savefig" [Str "/workspaces/ultraman/research_paper/images/enclosure_2d.png"]
      [("dpi", Num 300); ("bbox_inches", Str "tight"); ("facecolor", Str "white")] ;;
  plt "savefig" [Str "/workspaces/ultraman/research_paper/images/enclosure_2d.pdf"]
      [("bbox_inches", Str "tight"); ("facecolor", Str "white")] ;;
  print "2D enclosure design saved!".

(** [create_enclosure_3d] (line 168)
    Create 3D isometric view of enclosure.  [np.cos(theta)] applies the
    cosine to every element, and numpy's arithmetic on arrays is element by
    element: [r * np.cos(theta)] multiplies every cosine by [r]. *)
Definition create_enclosure_3d : M unit :=
  fig <- plt_figure [("figsize", Tup [Num 12; Num 10])] ;;
  ax <- make_axes fig "add_subplot" [Num 111] [("projection", Str "3d")] ;;
  let width := 4 in
  let depth := 4 in
  let height_top := 1.5 in
  let height_cone := 2.5 in
  let cone_bottom := 1.5 in
  let box_vertices := Lst
      [Lst [Num ((- width) / 2); Num ((- depth) / 2); Num 0]; Lst [Num (width / 2);
       Num ((- depth) / 2); Num 0]; Lst [Num (width / 2); Num (depth / 2); Num 0];
       Lst [Num ((- width) / 2); Num (depth / 2); Num 0]; Lst [Num ((- width) / 2);
       Num ((- depth) / 2); Num height_top]; Lst [Num (width / 2); Num ((- depth) / 2);
       Num height_top]; Lst [Num (width / 2); Num (depth / 2); Num height_top];
       Lst [Num ((- width) / 2); Num (depth / 2); Num height_top]] in
  let box_faces := Lst
      [Lst [getitem box_vertices 0; getitem box_vertices 1; getitem box_vertices 5;
       getitem box_vertices 4]; Lst [getitem box_vertices 1; getitem box_vertices 2;
       getitem box_vertices 6; getitem box_vertices 5]; Lst [getitem box_vertices 2;
       getitem box_vertices 3; getitem box_vertices 7; getitem box_vertices 6];
       Lst [getitem box_vertices 3; getitem box_vertices 0; getitem box_vertices 4;
       getitem box_vertices 7]; Lst [getitem box_vertices 4; getitem box_vertices 5;
       getitem box_vertices 6; getitem box_vertices 7]] in
  let cone_vertices_top := Lst
      [Lst [Num ((- width) / 2); Num ((- depth) / 2); Num 0]; Lst [Num (width / 2);
       Num ((- depth) / 2); Num 0]; Lst [Num (width / 2); Num (depth / 2); Num 0];
       Lst [Num ((- width) / 2); Num (depth / 2); Num 0]] in
  let cone_vertices_bottom := Lst
      [Lst [Num ((- cone_bottom) / 2); Num ((- cone_bottom) / 2); Num (- height_cone)];
       Lst [Num (cone_bottom / 2); Num ((- cone_bottom) / 2); Num (- height_cone)];
       Lst [Num (cone_bottom / 2); Num (cone_bottom / 2); Num (- height_cone)];
       Lst [Num ((- cone_bottom) / 2); Num (cone_bottom / 2); Num (- height_cone)]] in
  let cone_faces := Lst
      [Lst [getitem cone_vertices_top 0; getitem cone_vertices_top 1;
       getitem cone_vertices_bottom 1; getitem cone_vertices_bottom 0];
       Lst [getitem cone_vertices_top 1; getitem cone_vertices_top 2;
       getitem cone_vertices_bottom 2; getitem cone_vertices_bottom 1];
       Lst [getitem cone_vertices_top 2; getitem cone_vertices_top 3;
       getitem cone_vertices_bottom 3; getitem cone_vertices_bottom 2];
       Lst [getitem cone_vertices_top 3; getitem cone_vertices_top 0;
       getitem cone_vertices_bottom 0; getitem cone_vertices_bottom 3];
       Lst [getitem cone_vertices_bottom 0; getitem cone_vertices_bottom 1;
       getitem cone_vertices_bottom 2; getitem cone_vertices_bottom 3]] in
  box_collection <- construct "Poly3DCollection" [box_faces]
      [("alpha", Num 0.8); ("facecolor", Str "#4a4a4a"); ("edgecolor", Str "black");
       ("linewidth", Num 1)] ;;
  invoke ax "add_collection3d" [box_collection] [] ;;
  cone_collection <- construct "Poly3DCollection" [cone_faces]
      [("alpha", Num 0.8); ("facecolor", Str "#5a5a5a"); ("edgecolor", Str "black");
       ("linewidth", Num 1)] ;;
  invoke ax "add_collection3d" [cone_collection] [] ;;
  let bracket_size := 0.3 in
  for_ [(((- width) / 2) - 0.3, (depth / 2) - 0.5); (width / 2, (depth / 2) - 0.5);
   (((- width) / 2) - 0.3, ((- depth) / 2) + 0.2);
   (width / 2, ((- depth) / 2) + 0.2)] (fun '(bx, by_) =>
    let bracket_verts := Lst
        [Lst [Num bx; Num by_; Num height_top]; Lst [Num (bx + bracket_size); Num by_;
         Num height_top]; Lst [Num (bx + bracket_size); Num (by_ + bracket_size);
         Num height_top]; Lst [Num bx; Num (by_ + bracket_size); Num height_top]; Lst [Num bx;
         Num by_; Num (height_top + 0.3)]; Lst [Num (bx + bracket_size); Num by_;
         Num (height_top + 0.3)]; Lst [Num (bx + bracket_size); Num (by_ + bracket_size);
         Num (height_top + 0.3)]; Lst [Num bx; Num (by_ + bracket_size);
         Num (height_top + 0.3)]] in
    ret tt) ;;
  let opening_size := 0.8 in
  let opening_verts := Lst
      [Lst [Num ((- opening_size) / 2); Num ((- opening_size) / 2); Num (- height_cone)];
       Lst [Num (opening_size / 2); Num ((- opening_size) / 2); Num (- height_cone)];
       Lst [Num (opening_size / 2); Num (opening_size / 2); Num (- height_cone)];
       Lst [Num ((- opening_size) / 2); Num (opening_size / 2); Num (- height_cone)]] in
  opening_face <- construct "Poly3DCollection" [Lst [Lst [getitem opening_verts 0;
   getitem opening_verts 1; getitem opening_verts 2; getitem opening_verts 3]]]
      [("alpha", Num 1); ("facecolor", Str "black"); ("edgecolor", Str "white");
       ("linewidth", Num 2)] ;;
  invoke ax "add_collection3d" [opening_face] [] ;;
  theta <- by_name "np.linspace" [Num 0; Num (2 * np_pi); Num 50] []
      (np_linspace 0 (2 * np_pi) 50 true) ;;
  for_ [0.8; 1.2; 1.6; 2.0] (fun r =>
    cos_theta <- by_name "np.cos" [Arr theta] [] (map np_cos theta) ;;
    let x_wave := map (fun c => r * c) cos_theta in
    sin_theta <- by_name "np.sin" [Arr theta] [] (map np_sin theta) ;;
    let y_wave := map (fun s => r * s) sin_theta in
    z_wave <- by_name "np.full_like" [Arr x_wave; Num (((- height_cone) - 0.5) - (r * 0.3))] []
        (np_full_like x_wave (((- height_cone) - 0.5) - (r * 0.3))) ;;
    invoke ax "plot" [Arr x_wave; Arr y_wave; Arr z_wave; Str "b--"]
        [("alpha", Num 0.4); ("linewidth", Num 1)]) ;;
  cable_theta <- by_name "np.linspace" [Num 0; Num (2 * np_pi); Num 20] []
      (np_linspace 0 (2 * np_pi) 20 true) ;;
  cos_theta <- by_name "np.cos" [Arr cable_theta] [] (map np_cos cable_theta) ;;
  let cable_x := map (fun c => ((0.2 * c) + (width / 2)) + 0.15) cos_theta in
  sin_theta <- by_name "np.sin" [Arr cable_theta] [] (map np_sin cable_theta) ;;
  let cable_y := map (fun s => 0.2 * s) sin_theta in
  cable_z <- by_name "np.full_like" [Arr cable_x; Num (height_top / 2)] []
      (np_full_like cable_x (height_top / 2)) ;;
  invoke ax "plot" [Arr cable_x; Arr cable_y; Arr cable_z; Str "gray"] [("linewidth", Num 3)] ;;
  invoke ax "text" [Num 0; Num 0; Num (height_top + 0.5); Str "Enclosure Body\n(ABS/PVC IP68)"]
      [("fontsize", Num 9); ("ha", Str "center"); ("va", Str "bottom")] ;;
  invoke ax "text" [Num 0; Num 0; Num ((- height_cone) - 0.3); Str "Sensor Opening"]
      [("fontsize", Num 8); ("ha", Str "center"); ("color", Str "blue")] ;;
  invoke ax "text" [Num ((width / 2) + 0.5); Num 0; Num (height_top / 2); Str "Cable\nGland"]
      [("fontsize", Num 7)] ;;
  invoke ax "set_xlabel" [Str "Width (cm)"] [] ;;
  invoke ax "set_ylabel" [Str "Depth (cm)"] [] ;;
  invoke ax "set_zlabel" [Str "Height (cm)"] [] ;;
  invoke ax "set_title" [Str "3D Isometric View - Waterproof Sensor Enclosure"]
      [("fontsize", Num 12); ("fontweight", Str "bold")] ;;
  invoke ax "view_init" [] [("elev", Num 25); ("azim", Num 45)] ;;
  invoke ax "set_xlim" [Num (-4); Num 4] [] ;;
  invoke ax "set_ylim" [Num (-4); Num 4] [] ;;
  invoke ax "set_zlim" [Num (-4); Num 3] [] ;;
  plt "tight_layout" [] [] ;;
  plt "savefig" [Str "/workspaces/ultraman/research_paper/images/enclosure_3d.png"]
      [("dpi", Num 300); ("bbox_inches", Str "tight"); ("facecolor", Str "white")] ;;
  plt "savefig" [Str "/workspaces/ultraman/research_paper/images/enclosure_3d.pdf"]
      [("bbox_inches", Str "tight"); ("facecolor", Str "white")] ;;
  print "3D enclosure design saved!".

(** [create_mounting_diagram] (line 306)
    Create pole mounting installation diagram *)
Definition create_mounting_diagram : M unit :=
  '(fig, axes) <- plt_subplots 1 1 [("figsize", Tup [Num 10; Num 12])] ;;
  let ax := axes_at axes 1 0 0 in
  invoke ax "set_xlim" [Num (-3); Num 7] [] ;;
  invoke ax "set_ylim" [Num (-2); Num 12] [] ;;
  invoke ax "set_aspect" [Str "equal"] [] ;;
  invoke ax "axis" [Str "off"] [] ;;
  invoke ax "set_title" [Str "Installation Diagram - Pole Mounting"]
      [("fontsize", Num 14); ("fontweight", Str "bold")] ;;
  ground <- construct "Rectangle" [Tup [Num (-3); Num 0]; Num 10; Num 0.3]
      [("facecolor", Str "#8B4513"); ("edgecolor", Str "black"); ("linewidth", Num 2)] ;;
  invoke ax "add_patch" [ground] [] ;;
  invoke ax "text" [Num 2; Num (-0.3); Str "Ground Level"]
      [("fontsize", Num 9); ("ha", Str "center")] ;;
  water <- construct "Rectangle" [Tup [Num (-3); Num 0.3]; Num 10; Num 2]
      [("facecolor", Str "#87CEEB"); ("edgecolor", Str "blue"); ("linewidth", Num 1);
       ("alpha", Num 0.6)] ;;
  invoke ax "add_patch" [water] [] ;;
  invoke ax "text" [Num 2; Num 1.3; Str "Flood Water Level"]
      [("fontsize", Num 9); ("ha", Str "center"); ("color", Str "darkblue")] ;;
  pole <- construct "Rectangle" [Tup [Num 0; Num 0.3]; Num 0.4; Num 10]
      [("facecolor", Str "gray"); ("edgecolor", Str "black"); ("linewidth", Num 2)] ;;
  invoke ax "add_patch" [pole] [] ;;
  invoke ax "text" [Num 0.7; Num 5; Str "Steel/Concrete\nPole (3-4m)"]
      [("fontsize", Num 8); ("va", Str "center")] ;;
  enclosure_body <- construct "Rectangle" [Tup [Num (-0.8); Num 8]; Num 2; Num 1.2]
      [("facecolor", Str "#4a4a4a"); ("edgecolor", Str "black"); ("linewidth", Num 2)] ;;
  invoke ax "add_patch" [enclosure_body] [] ;;
  cone <- construct "Polygon" [Lst [Tup [Num (-0.8); Num 8]; Tup [Num 1.2; Num 8]; Tup [Num 0.6;
   Num 6.5]; Tup [Num (-0.2); Num 6.5]]]
      [("facecolor", Str "#4a4a4a"); ("edgecolor", Str "black"); ("linewidth", Num 2)] ;;
  invoke ax "add_patch" [cone] [] ;;
  invoke ax "text" [Num 0.2; Num 8.6; Str "Sensor"]
      [("fontsize", Num 8); ("ha", Str "center"); ("va", Str "center"); ("color", Str "white")] ;;
  bracket <- construct "Rectangle" [Tup [Num (-0.2); Num 9.2]; Num 0.6; Num 0.3]
      [("facecolor", Str "silver"); ("edgecolor", Str "black"); ("linewidth", Num 1)] ;;
  invoke ax "add_patch" [bracket] [] ;;
  invoke ax "plot" [Lst [Num 1.2; Num 1.5; Num 1.5; Num 0.6; Num 0.6]; Lst [Num 8.5; Num 8.5;
   Num 10.5; Num 10.5; Num 11]; Str "k-"]
      [("linewidth", Num 2)] ;;
  invoke ax "text" [Num 1.8; Num 9.5; Str "Power/Data\nCable"] [("fontsize", Num 7)] ;;
  solar <- construct "Polygon" [Lst [Tup [Num 0; Num 10.5]; Tup [Num (-1); Num 11.5];
   Tup [Num 1.5; Num 11.5]; Tup [Num 0.5; Num 10.5]]]
      [("facecolor", Str "darkblue"); ("edgecolor", Str "black"); ("linewidth", Num 2)] ;;
  invoke ax "add_patch" [solar] [] ;;
  invoke ax "text" [Num 0.25; Num 11.7; Str "Solar Panel"]
      [("fontsize", Num 8); ("ha", Str "center")] ;;
  for_ (range 5) (fun i =>
    arc <- construct "Arc" [Tup [Num 0.2; Num 6.5]; Num (1 + (Nq i * 0.6));
     Num (0.6 + (Nq i * 0.3))]
        [("angle", Num 0); ("theta1", Num 20); ("theta2", Num 160); ("linewidth", Num 1);
         ("color", Str "blue"); ("linestyle", Str "--"); ("alpha", Num 0.5)] ;;
    invoke ax "add_patch" [arc] []) ;;
  invoke ax "annotate" [Str ""]
      [("xy", Tup [Num 3; Num 0.3]); ("xytext", Tup [Num 3; Num 10.3]);
       ("arrowprops", Dict [("arrowstyle", Str "<->"); ("color", Str "red"); ("lw", Num 1.5)])] ;;
  invoke ax "text" [Num 3.3; Num 5; Str "3-4 m\n(Pole Height)"]
      [("fontsize", Num 9); ("va", Str "center"); ("color", Str "red")] ;;
  invoke ax "annotate" [Str ""]
      [("xy", Tup [Num 4.5; Num 2.3]); ("xytext", Tup [Num 4.5; Num 6.5]);
       ("arrowprops", Dict [("arrowstyle", Str "<->"); ("color", Str "green");
       ("lw", Num 1.5)])] ;;
  invoke ax "text" [Num 4.8; Num 4.5; Str "Detection\nRange\n(0.2-5m)"]
      [("fontsize", Num 8); ("va", Str "center"); ("color", Str "green")] ;;
  invoke ax "annotate" [Str ""]
      [("xy", Tup [Num (-2); Num 2.3]); ("xytext", Tup [Num (-2); Num 6.5]);
       ("arrowprops", Dict [("arrowstyle", Str "<->"); ("color", Str "blue"); ("lw", Num 1.5)])] ;;
  invoke ax "text" [Num (-2.8); Num 4.5; Str "Measured\nDistance"]
      [("fontsize", Num 8); ("va", Str "center"); ("color", Str "blue")] ;;
  invoke ax "text" [Num 5; Num 8; Str "Installation Notes:"]
      [("fontsize", Num 10); ("fontweight", Str "bold")] ;;
  let notes :=
      "• Mount sensor facing downward\n"
      ++ "• Ensure unobstructed view of water\n"
      ++ "• Minimum height: 0.5m above max flood\n"
      ++ "• Secure cable with cable ties\n"
      ++ "• Use stainless steel brackets\n"
      ++ "• Apply waterproof sealant at joints" in
  invoke ax "text" [Num 5; Num 7.5; Str notes]
      [("fontsize", Num 8); ("va", Str "top"); ("bbox", Dict [("boxstyle", Str "round");
       ("facecolor", Str "lightyellow"); ("alpha", Num 0.8)])] ;;
  plt "tight_layout" [] [] ;;
  plt "savefig" [Str "/workspaces/ultraman/research_paper/images/mounting_diagram.png"]
      [("dpi", Num 300); ("bbox_inches", Str "tight"); ("facecolor", Str "white")] ;;
  plt "savefig" [Str "/workspaces/ultraman/research_paper/images/mounting_diagram.pdf"]
      [("bbox_inches", Str "tight"); ("facecolor", Str "white")] ;;
  print "Mounting diagram saved!".

(** [if __name__ == "__main__":] *)
Definition main : M unit :=
  create_enclosure_2d ;;
  create_enclosure_3d ;;
  create_mounting_diagram.

End numpy.

End generate_enclosure.

(** ** [generate_charts.py]: charts of the test results *)

Module generate_charts.

Section library.

(** [np.pi], and the number a getter ([get_x], [get_width], [get_height]) of
    an artist made by the library answers: both are taken as given. *)
Variable np_pi : Q.
Variable reading : handle -> string -> Q.

(** [artist.method()] for a getter that answers a number. *)
Definition getter (h : handle) (meth : string) : M Q :=
  emit (Call (On h) meth [] []) ;; ret (reading h meth).

(** [create_accuracy_chart] (line 10)
    Create accuracy test results chart.  The array sum with the random noise
    is computed and then overwritten by the literal array of line 22. *)
Definition create_accuracy_chart : M unit :=
  '(fig, axes) <- plt_subplots 2 2 [("figsize", Tup [Num 14; Num 10])] ;;
  let ax1 := axes_at axes 2 0 0 in
  actual_distances <- np_array [0.5; 1.0; 1.5; 2.0; 2.5; 3.0; 3.5; 4.0; 4.5; 5.0] ;;
  noise <- np_random_normal 0 0.005 (len actual_distances) ;;
  let measured_distances := np_add actual_distances noise in
  measured_distances <- np_array
      [0.502; 0.998; 1.506; 2.003; 2.495; 3.008; 3.502; 3.997; 4.509; 5.004] ;;
  invoke ax1 "plot" [Arr actual_distances; Arr actual_distances; Str "b--"]
      [("linewidth", Num 2); ("label", Str "Ideal (Perfect Accuracy)")] ;;
  invoke ax1 "scatter" [Arr actual_distances; Arr measured_distances]
      [("c", Str "red"); ("s", Num 100); ("zorder", Num 5); ("label", Str "Measured Values")] ;;
  invoke ax1 "plot" [Arr actual_distances; Arr measured_distances; Str "r-"]
      [("linewidth", Num 1); ("alpha", Num 0.5)] ;;
  invoke ax1 "set_xlabel" [Str "Actual Distance (m)"] [("fontsize", Num 10)] ;;
  invoke ax1 "set_ylabel" [Str "Measured Distance (m)"] [("fontsize", Num 10)] ;;
  invoke ax1 "set_title" [Str "Distance Accuracy Test Results"]
      [("fontsize", Num 12); ("fontweight", Str "bold")] ;;
  invoke ax1 "legend" [] [("loc", Str "upper left")] ;;
  invoke ax1 "grid" [Bool true] [("alpha", Num 0.3)] ;;
  invoke ax1 "set_xlim" [Num 0; Num 5.5] [] ;;
  invoke ax1 "set_ylim" [Num 0; Num 5.5] [] ;;
  let ax2 := axes_at axes 2 0 1 in
  let errors := map (fun d => d * 100) (np_sub measured_distances actual_distances) in
  invoke ax2 "bar" [nums (map Nq (range (len actual_distances))); Arr errors]
      [("color", Str "steelblue"); ("edgecolor", Str "black")] ;;
  invoke ax2 "axhline" [] [("y", Num 0); ("color", Str "black"); ("linewidth", Num 1)] ;;
  invoke ax2 "axhline" []
      [("y", Num 1); ("color", Str "red"); ("linestyle", Str "--"); ("linewidth", Num 1);
       ("label", Str "±1cm Threshold")] ;;
  invoke ax2 "axhline" []
      [("y", Num (-1)); ("color", Str "red"); ("linestyle", Str "--"); ("linewidth", Num 1)] ;;
  invoke ax2 "set_xlabel" [Str "Test Point"] [("fontsize", Num 10)] ;;
  invoke ax2 "set_ylabel" [Str "Error (cm)"] [("fontsize", Num 10)] ;;
  invoke ax2 "set_title" [Str "Measurement Error Distribution"]
      [("fontsize", Num 12); ("fontweight", Str "bold")] ;;
  invoke ax2 "set_xticks" [nums (map Nq (range (len actual_distances)))] [] ;;
  invoke ax2 "set_xticklabels" [Lst (map (fun d => Fmt "{d}m" [Num d]) actual_distances)]
      [("rotation", Num 45)] ;;
  invoke ax2 "legend" [] [] ;;
  invoke ax2 "grid" [Bool true] [("alpha", Num 0.3); ("axis", Str "y")] ;;
  invoke ax2 "set_ylim" [Num (-2); Num 2] [] ;;
  let ax3 := axes_at axes 2 1 0 in
  temperatures <- np_array [20; 25; 30; 35; 40; 45] ;;
  error_without_comp <- np_array [0.8; 0.4; 0.1; (-0.3); (-0.7); (-1.2)] ;;
  error_with_comp <- np_array [0.1; 0.05; 0.02; (-0.03); (-0.08); (-0.15)] ;;
  x <- by_name "np.arange" [Num (Nq (len temperatures))] []
      (np_arange 0 (len temperatures)) ;;
  let width := 0.35 in
  abs_without_comp <- by_name "np.abs" [Arr error_without_comp] []
      (np_abs error_without_comp) ;;
  bars1 <- invoke_artists ax3 "bar"
      [Arr (map (fun xi => xi - (width / 2)) x); Arr abs_without_comp; Num width]
      [("label", Str "Without Compensation"); ("color", Str "coral")] (len x) ;;
  abs_with_comp <- by_name "np.abs" [Arr error_with_comp] [] (np_abs error_with_comp) ;;
  bars2 <- invoke_artists ax3 "bar"
      [Arr (map (fun xi => xi + (width / 2)) x); Arr abs_with_comp; Num width]
      [("label", Str "With Compensation"); ("color", Str "lightgreen")] (len x) ;;
  invoke ax3 "set_xlabel" [Str "Temperature (°C)"] [("fontsize", Num 10)] ;;
  invoke ax3 "set_ylabel" [Str "Absolute Error (cm)"] [("fontsize", Num 10)] ;;
  invoke ax3 "set_title" [Str "Temperature Compensation Effectiveness"]
      [("fontsize", Num 12); ("fontweight", Str "bold")] ;;
  invoke ax3 "set_xticks" [Arr x] [] ;;
  invoke ax3 "set_xticklabels" [Arr temperatures] [] ;;
  invoke ax3 "legend" [] [] ;;
  invoke ax3 "grid" [Bool true] [("alpha", Num 0.3); ("axis", Str "y")] ;;
  let ax4 := axes_at axes 2 1 1 in
  let num_samples := [1; 3; 5; 10; 15; 20] in
  let std_deviation := [1.5; 0.9; 0.6; 0.35; 0.25; 0.2] in
  invoke ax4 "plot" [nums num_samples; nums std_deviation; Str "bo-"]
      [("linewidth", Num 2); ("markersize", Num 8)] ;;
  invoke ax4 "fill_between" [nums num_samples; nums std_deviation] [("alpha", Num 0.3)] ;;
  invoke ax4 "axhline" []
      [("y", Num 0.5); ("color", Str "red"); ("linestyle", Str "--"); ("linewidth", Num 1);
       ("label", Str "Target: 0.5cm")] ;;
  invoke ax4 "set_xlabel" [Str "Number of Samples Averaged"] [("fontsize", Num 10)] ;;
  invoke ax4 "set_ylabel" [Str "Standard Deviation (cm)"] [("fontsize", Num 10)] ;;
  invoke ax4 "set_title" [Str "Effect of Multi-shot Averaging on Accuracy"]
      [("fontsize", Num 12); ("fontweight", Str "bold")] ;;
  invoke ax4 "legend" [] [] ;;
  invoke ax4 "grid" [Bool true] [("alpha", Num 0.3)] ;;
  invoke ax4 "set_xlim" [Num 0; Num 22] [] ;;
  invoke ax4 "set_ylim" [Num 0; Num 2] [] ;;
  plt "tight_layout" [] [] ;;
  plt "savefig" [Str "/workspaces/ultraman/research_paper/images/accuracy_results.png"]
      [("dpi", Num 300); ("bbox_inches", Str "tight"); ("facecolor", Str "white")] ;;
  plt "savefig" [Str "/workspaces/ultraman/research_paper/images/accuracy_results.pdf"]
      [("bbox_inches", Str "tight"); ("facecolor", Str "white")] ;;
  print "Accuracy results chart saved!".

(** [create_environmental_tests] (line 107)
    Create environmental test results *)
Definition create_environmental_tests : M unit :=
  '(fig, axes) <- plt_subplots 2 2 [("figsize", Tup [Num 14; Num 10])] ;;
  let ax1 := axes_at axes 2 0 0 in
  let conditions :=
      ["Clear"; "Light Rain\n(2mm/hr)"; "Moderate Rain\n(10mm/hr)"; "Heavy Rain\n(25mm/hr)";
       "Typhoon\n(50mm/hr)"] in
  let accuracy := [99.5; 98.8; 97.2; 94.5; 89.0] in
  let colors := ["green"; "lightgreen"; "yellow"; "orange"; "red"] in
  bars <- invoke_artists ax1 "bar" [strs conditions; nums accuracy]
      [("color", strs colors); ("edgecolor", Str "black"); ("linewidth", Num 1.5)]
      (len accuracy) ;;
  invoke ax1 "axhline" []
      [("y", Num 90); ("color", Str "red"); ("linestyle", Str "--"); ("linewidth", Num 2);
       ("label", Str "Minimum Acceptable (90%)")] ;;
  invoke ax1 "set_ylabel" [Str "Accuracy (%)"] [("fontsize", Num 10)] ;;
  invoke ax1 "set_title" [Str "Accuracy Under Different Rain Conditions"]
      [("fontsize", Num 12); ("fontweight", Str "bold")] ;;
  invoke ax1 "set_ylim" [Num 0; Num 105] [] ;;
  invoke ax1 "legend" [] [] ;;
  invoke ax1 "grid" [Bool true] [("alpha", Num 0.3); ("axis", Str "y")] ;;
  for_ (combine bars accuracy) (fun '(bar, acc) =>
    bar_x <- getter bar "get_x" ;;
    bar_width <- getter bar "get_width" ;;
    bar_height <- getter bar "get_height" ;;
    invoke ax1 "text" [Num (bar_x + (bar_width / 2)); Num (bar_height + 1);
     Fmt "{acc}%" [Num acc]]
        [("ha", Str "center"); ("fontsize", Num 9)]) ;;
  let ax2 := axes_at axes 2 0 1 in
  let surface_types :=
      ["Still Water"; "Slow Flow\n(<0.5m/s)"; "Moderate Flow\n(0.5-1m/s)";
       "Fast Flow\n(>1m/s)"; "Turbulent"] in
  let success_rate := [99.8; 99.2; 97.5; 93.0; 88.5] in
  invoke ax2 "barh" [strs surface_types; nums success_rate]
      [("color", Str "steelblue"); ("edgecolor", Str "black"); ("linewidth", Num 1.5)] ;;
  invoke ax2 "axvline" []
      [("x", Num 90); ("color", Str "red"); ("linestyle", Str "--"); ("linewidth", Num 2);
       ("label", Str "Minimum Acceptable")] ;;
  invoke ax2 "set_xlabel" [Str "Detection Success Rate (%)"] [("fontsize", Num 10)] ;;
  invoke ax2 "set_title" [Str "Performance on Different Water Surfaces"]
      [("fontsize", Num 12); ("fontweight", Str "bold")] ;;
  invoke ax2 "set_xlim" [Num 0; Num 105] [] ;;
  invoke ax2 "legend" [] [] ;;
  invoke ax2 "grid" [Bool true] [("alpha", Num 0.3); ("axis", Str "x")] ;;
  let ax3 := axes_at axes 2 1 0 in
  hours <- by_name "np.arange" [Num 0; Num 25; Num 1] [] (np_arange 0 25) ;;
  let actual_level := 1.5 in
  noise <- np_random_normal 0 0.008 (len hours) ;;
  let measured_levels := map (fun n => actual_level + n) noise in
  measured_levels <- by_name "np.clip"
      [Arr measured_levels; Num (actual_level - 0.02); Num (actual_level + 0.02)] []
      (np_clip measured_levels (actual_level - 0.02) (actual_level + 0.02)) ;;
  invoke ax3 "plot" [Arr hours; Arr measured_levels; Str "b-"]
      [("linewidth", Num 1.5); ("label", Str "Measured Level")] ;;
  invoke ax3 "axhline" []
      [("y", Num actual_level); ("color", Str "green"); ("linestyle", Str "--");
       ("linewidth", Num 2); ("label", Str "Actual Level (1.5m)")] ;;
  invoke ax3 "fill_between" [Arr hours; Num (actual_level - 0.01); Num (actual_level + 0.01)]
      [("alpha", Num 0.3); ("color", Str "green"); ("label", Str "±1cm Band")] ;;
  invoke ax3 "set_xlabel" [Str "Time (hours)"] [("fontsize", Num 10)] ;;
  invoke ax3 "set_ylabel" [Str "Measured Water Level (m)"] [("fontsize", Num 10)] ;;
  invoke ax3 "set_title" [Str "24-Hour Stability Test (Static Water)"]
      [("fontsize", Num 12); ("fontweight", Str "bold")] ;;
  invoke ax3 "legend" [] [("loc", Str "upper right")] ;;
  invoke ax3 "grid" [Bool true] [("alpha", Num 0.3)] ;;
  invoke ax3 "set_xlim" [Num 0; Num 24] [] ;;
  invoke ax3 "set_ylim" [Num 1.45; Num 1.55] [] ;;
  let ax4 := axes_at axes 2 1 1 in
  let sampling_interval := [10; 30; 60; 120; 300; 600] in
  let power_consumption := [45; 28; 18; 12; 8; 5] in
  let battery_life := [48; 78; 120; 180; 270; 430] in
  ax4_twin <- make_axes ax4 "twinx" [] [] ;;
  line1 <- invoke_artist ax4 "plot" [nums sampling_interval; nums power_consumption; Str "b-o"]
      [("linewidth", Num 2); ("markersize", Num 8); ("label", Str "Power Consumption")] ;;
  line2 <- invoke_artist ax4_twin "plot" [nums sampling_interval; nums battery_life; Str "g-s"]
      [("linewidth", Num 2); ("markersize", Num 8); ("label", Str "Battery Life")] ;;
  invoke ax4 "set_xlabel" [Str "Sampling Interval (seconds)"] [("fontsize", Num 10)] ;;
  invoke ax4 "set_ylabel" [Str "Avg Power Consumption (mW)"]
      [("fontsize", Num 10); ("color", Str "blue")] ;;
  invoke ax4_twin "set_ylabel" [Str "Battery Life (hours) - 10000mAh"]
      [("fontsize", Num 10); ("color", Str "green")] ;;
  invoke ax4 "set_title" [Str "Power Consumption vs Sampling Rate"]
      [("fontsize", Num 12); ("fontweight", Str "bold")] ;;
  invoke ax4 "tick_params" [] [("axis", Str "y"); ("labelcolor", Str "blue")] ;;
  invoke ax4_twin "tick_params" [] [("axis", Str "y"); ("labelcolor", Str "green")] ;;
  invoke ax4 "legend" [Lst [Ref line1; Ref line2];
   Lst [Str "Power Consumption"; Str "Battery Life"]]
      [("loc", Str "center right")] ;;
  invoke ax4 "grid" [Bool true] [("alpha", Num 0.3)] ;;
  plt "tight_layout" [] [] ;;
  plt "savefig" [Str "/workspaces/ultraman/research_paper/images/environmental_results.png"]
      [("dpi", Num 300); ("bbox_inches", Str "tight"); ("facecolor", Str "white")] ;;
  plt "savefig" [Str "/workspaces/ultraman/research_paper/images/environmental_results.pdf"]
      [("bbox_inches", Str "tight"); ("facecolor", Str "white")] ;;
  print "Environmental test results saved!".

(** [create_comparison_chart] (line 205)
    Create comparison with commercial sensors.  [xs += xs[:1]] appends the
    first element; [angles[:-1]] drops the last one. *)
Definition create_comparison_chart : M unit :=
  '(fig, axes) <- plt_subplots 1 2 [("figsize", Tup [Num 14; Num 6])] ;;
  let ax1 := axes_at axes 2 0 0 in
  let categories :=
      ["Accuracy"; "Range"; "Cost\n(Inverse)"; "Power\nEfficiency"; "Waterproof\nRating";
       "Local\nAvailability"] in
  let N := len categories in
  let custom_sensor := [9; 8; 9; 8; 9; 10] in
  let maxbotix := [9; 8; 4; 7; 9; 3] in
  let generic := [6; 7; 10; 6; 5; 8] in
  angles <- by_name "np.linspace" [Num 0; Num (2 * np_pi); Num (Nq N)]
      [("endpoint", Bool false)] (np_linspace 0 (2 * np_pi) N false) ;;
  angles <- by_name "tolist" [Arr angles] [] angles ;;
  let custom_sensor := (custom_sensor ++ firstn 1 custom_sensor)%list in
  let maxbotix := (maxbotix ++ firstn 1 maxbotix)%list in
  let generic := (generic ++ firstn 1 generic)%list in
  let angles := (angles ++ firstn 1 angles)%list in
  ax1 <- plt_subplot [Num 121] [("polar", Bool true)] ;;
  invoke ax1 "set_theta_offset" [Num (np_pi / 2)] [] ;;
  invoke ax1 "set_theta_direction" [Num (-1)] [] ;;
  invoke ax1 "plot" [nums angles; nums custom_sensor; Str "b-"]
      [("linewidth", Num 2); ("label", Str "Custom Sensor (This Study)")] ;;
  invoke ax1 "fill" [nums angles; nums custom_sensor; Str "b"] [("alpha", Num 0.25)] ;;
  invoke ax1 "plot" [nums angles; nums maxbotix; Str "r-"]
      [("linewidth", Num 2); ("label", Str "MaxBotix MB7389")] ;;
  invoke ax1 "fill" [nums angles; nums maxbotix; Str "r"] [("alpha", Num 0.1)] ;;
  invoke ax1 "plot" [nums angles; nums generic; Str "g-"]
      [("linewidth", Num 2); ("label", Str "Generic JSN-SR04T")] ;;
  invoke ax1 "fill" [nums angles; nums generic; Str "g"] [("alpha", Num 0.1)] ;;
  invoke ax1 "set_xticks" [nums (removelast angles)] [] ;;
  invoke ax1 "set_xticklabels" [strs categories] [("fontsize", Num 8)] ;;
  invoke ax1 "set_ylim" [Num 0; Num 10] [] ;;
  invoke ax1 "set_title" [Str "Feature Comparison (Higher is Better)"]
      [("fontsize", Num 12); ("fontweight", Str "bold"); ("pad", Num 20)] ;;
  invoke ax1 "legend" []
      [("loc", Str "upper right"); ("bbox_to_anchor", Tup [Num 1.3; Num 1.0])] ;;
  ax2 <- plt_subplot [Num 122] [] ;;
  let sensors :=
      ["Custom Sensor\n(This Study)"; "MaxBotix\nMB7389"; "Senix\nToughSonic";
       "Generic\nJSN-SR04T"; "Generic\nA02YYUW"] in
  let costs := [850; 4500; 12000; 180; 350] in
  let colors := ["steelblue"; "coral"; "salmon"; "lightgreen"; "lightgreen"] in
  bars <- invoke_artists ax2 "bar" [strs sensors; nums costs]
      [("color", strs colors); ("edgecolor", Str "black"); ("linewidth", Num 1.5)]
      (len costs) ;;
  invoke ax2 "set_ylabel" [Str "Cost (Philippine Peso ₱)"] [("fontsize", Num 10)] ;;
  invoke ax2 "set_title" [Str "Cost Comparison"]
      [("fontsize", Num 12); ("fontweight", Str "bold")] ;;
  invoke ax2 "grid" [Bool true] [("alpha", Num 0.3); ("axis", Str "y")] ;;
  for_ (combine bars costs) (fun '(bar, cost) =>
    bar_x <- getter bar "get_x" ;;
    bar_width <- getter bar "get_width" ;;
    bar_height <- getter bar "get_height" ;;
    invoke ax2 "text" [Num (bar_x + (bar_width / 2)); Num (bar_height + 200);
     Fmt "₱{cost:,}" [Num cost]]
        [("ha", Str "center"); ("fontsize", Num 9); ("fontweight", Str "bold")]) ;;
  invoke ax2 "annotate" [Str "81% cheaper\nthan MaxBotix"]
      [("xy", Tup [Num 0; Num 850]); ("xytext", Tup [Num 1.5; Num 2500]);
       ("arrowprops", Dict [("arrowstyle", Str "->"); ("color", Str "green"); ("lw", Num 2)]);
       ("fontsize", Num 9); ("color", Str "green"); ("fontweight", Str "bold")] ;;
  plt "tight_layout" [] [] ;;
  plt "savefig" [Str "/workspaces/ultraman/research_paper/images/comparison_chart.png"]
      [("dpi", Num 300); ("bbox_inches", Str "tight"); ("facecolor", Str "white")] ;;
  plt "savefig" [Str "/workspaces/ultraman/research_paper/images/comparison_chart.pdf"]
      [("bbox_inches", Str "tight"); ("facecolor", Str "white")] ;;
  print "Comparison chart saved!".

(** [if __name__ == "__main__":] *)
Definition main : M unit :=
  create_accuracy_chart ;;
  create_environmental_tests ;;
  create_comparison_chart.

End library.

End generate_charts.

(** * The repository as a whole *)

(** What the scripts take from numpy and matplotlib as given: [np.pi],
    [np.cos], [np.sin] and the numbers the getters of library-made artists
    answer. *)
Record library : Type := Library {
  np_pi : Q;
  np_cos : Q -> Q;
  np_sin : Q -> Q;
  reading : handle -> string -> Q
}.

(** The six scripts, and the twelve procedures that produce a figure. *)
Inductive script : Type :=
| GenerateBlockDiagram
| GenerateCharts
| GenerateEnclosure
| GenerateFlowcharts
| GeneratePcb
| GenerateSchematic.

Inductive procedure : Type :=
| CreateBlockDiagram
| CreateAccuracyChart
| CreateEnvironmentalTests
| CreateComparisonChart
| CreateEnclosure2d
| CreateEnclosure3d
| CreateMountingDiagram
| CreateMainFlowchart
| CreateAdaptiveFlowchart
| CreateOutlierFlowchart
| CreatePcbLayout
| CreateSchematic.

Definition body (L : library) (p : procedure) : M unit :=
  match p with
  | CreateBlockDiagram => generate_block_diagram.create_block_diagram
  | CreateAccuracyChart => generate_charts.create_accuracy_chart
  | CreateEnvironmentalTests =>
      generate_charts.create_environmental_tests (reading L)
  | CreateComparisonChart =>
      generate_charts.create_comparison_chart (np_pi L) (reading L)
  | CreateEnclosure2d => generate_enclosure.create_enclosure_2d
  | CreateEnclosure3d =>
      generate_enclosure.create_enclosure_3d (np_pi L) (np_cos L) (np_sin L)
  | CreateMountingDiagram => generate_enclosure.create_mounting_diagram
  | CreateMainFlowchart => generate_flowcharts.create_main_flowchart
  | CreateAdaptiveFlowchart => generate_flowcharts.create_adaptive_flowchart
  | CreateOutlierFlowchart => generate_flowcharts.create_outlier_flowchart
  | CreatePcbLayout => generate_pcb.create_pcb_layout
  | CreateSchematic => generate_schematic.create_schematic
  end.

(** The block under [if __name__ == "__main__":] of each script. *)
Definition main (L : library) (s : script) : M unit :=
  match s with
  | GenerateBlockDiagram => generate_block_diagram.main
  | GenerateCharts => generate_charts.main (np_pi L) (reading L)
  | GenerateEnclosure => generate_enclosure.main (np_pi L) (np_cos L) (np_sin L)
  | GenerateFlowcharts => generate_flowcharts.main
  | GeneratePcb => generate_pcb.main
  | GenerateSchematic => generate_schematic.main
  end.

(** The procedures a script defines, in the order its main block calls
    them. *)
Definition procedures (s : script) : list procedure :=
  match s with
  | GenerateBlockDiagram => [CreateBlockDiagram]
  | GenerateCharts =>
      [CreateAccuracyChart; CreateEnvironmentalTests; CreateComparisonChart]
  | GenerateEnclosure =>
      [CreateEnclosure2d; CreateEnclosure3d; CreateMountingDiagram]
  | GenerateFlowcharts =>
      [CreateMainFlowchart; CreateAdaptiveFlowchart; CreateOutlierFlowchart]
  | GeneratePcb => [CreatePcbLayout]
  | GenerateSchematic => [CreateSchematic]
  end.

(** The module text of a script, executed with [__name__] bound to [name]:
    the imports and the [def]s have no effect of their own, and the main
    block is guarded by [if __name__ == "__main__":]. *)
Definition module_body (L : library) (s : script) (name : string) : M unit :=
  if String.eqb name "__main__" then main L s else ret tt.

(** [python3 generate_x.py]: the interpreter runs the module as
    ["__main__"]. *)
Definition execute (L : library) (s : script) : M unit :=
  module_body L s "__main__".

(** ** Observations on a sequence of actions *)

Fixpoint kwarg (key : string) (k : kwargs) : option value :=
  match k with
  | [] => None
  | (k0, v) :: rest => if String.eqb k0 key then Some v else kwarg key rest
  end.

Definition mem (x : string) (xs : list string) : bool :=
  existsb (String.eqb x) xs.

(** [plt.subplots] and [plt.figure] open a figure. *)
Definition is_open (c : call) : bool :=
  match target c with
  | Pyplot => mem (method c) ["subplots"; "figure"]
  | On _ | Imported => false
  end.

(** [plt.savefig] and [fig.savefig] export a figure. *)
Definition is_save (c : call) : bool := String.eqb (method c) "savefig".

(** The figure a call acts on: the figure of the object it is invoked on, or
    for a pyplot call the figure that is current.  (A call by name acts on
    no figure; it is not among the actions of a run.) *)
Definition acted_figure (cur : nat) (c : call) : nat :=
  match target c with
  | Pyplot | Imported => cur
  | On h => figure_of h
  end.

Definition acts_on (a : action) : option nat :=
  match a with
  | Invoke cur c => Some (acted_figure cur c)
  | Output _ => None
  end.

Definition is_export (a : action) : bool :=
  match a with
  | Invoke _ c => is_save c
  | Output _ => false
  end.

(** What an action does outside the process.  Of the entry points of
    matplotlib and numpy, [writers] write and [readers] read the file named
    by their first argument; every other call works on objects in memory. *)
Inductive effect : Type :=
| InMemory
| WritesFile (path : string)
| ReadsFile (path : string)
| WritesStdout (line : string).

Definition writers : list string := ["savefig"; "imsave"; "save"; "savetxt"; "savez"].
Definition readers : list string :=
  ["imread"; "load"; "loadtxt"; "genfromtxt"; "fromfile"; "open"].

Definition effect_of (a : action) : effect :=
  match a with
  | Output line => WritesStdout line
  | Invoke _ c =>
      match args c with
      | Str path :: _ =>
          if mem (method c) writers then WritesFile path
          else if mem (method c) readers then ReadsFile path
          else InMemory
      | _ => InMemory
      end
  end.

Definition is_external (e : effect) : bool :=
  match e with InMemory => false | _ => true end.

(** The effects outside the process, in order. *)
Definition externals (tr : list action) : list effect :=
  filter is_external (map effect_of tr).



(** The save operations: path and [dpi] keyword of every [savefig] call. *)
Definition saves (tr : list action) : list (string * option value) :=
  flat_map (fun a =>
    match a with
    | Invoke _ c =>
        if is_save c then
          match args c with
          | Str path :: _ => [(path, kwarg "dpi" (kw c))]
          | _ => []
          end
        else []
    | Output _ => []
    end) tr.

(** The output directory, and per procedure the base name of its two image
    files and the line it prints. *)
Definition images_dir : string := "/workspaces/ultraman/research_paper/images/".

Definition basename (p : procedure) : string :=
  match p with
  | CreateBlockDiagram => "block_diagram"
  | CreateAccuracyChart => "accuracy_results"
  | CreateEnvironmentalTests => "environmental_results"
  | CreateComparisonChart => "comparison_chart"
  | CreateEnclosure2d => "enclosure_2d"
  | CreateEnclosure3d => "enclosure_3d"
  | CreateMountingDiagram => "mounting_diagram"
  | CreateMainFlowchart => "flowchart_main"
  | CreateAdaptiveFlowchart => "flowchart_adaptive"
  | CreateOutlierFlowchart => "flowchart_outlier"
  | CreatePcbLayout => "pcb_layout"
  | CreateSchematic => "circuit_schematic"
  end.

Definition message (p : procedure) : string :=
  match p with
  | CreateBlockDiagram => "Block diagram saved!"
  | CreateAccuracyChart => "Accuracy results chart saved!"
  | CreateEnvironmentalTests => "Environmental test results saved!"
  | CreateComparisonChart => "Comparison chart saved!"
  | CreateEnclosure2d => "2D enclosure design saved!"
  | CreateEnclosure3d => "3D enclosure design saved!"
  | CreateMountingDiagram => "Mounting diagram saved!"
  | CreateMainFlowchart => "Main flowchart saved!"
  | CreateAdaptiveFlowchart => "Adaptive sampling flowchart saved!"
  | CreateOutlierFlowchart => "Outlier rejection flowchart saved!"
  | CreatePcbLayout => "PCB layout saved!"
  | CreateSchematic => "Circuit schematic saved!"
  end.

Definition png (p : procedure) : string := images_dir ++ basename p ++ ".png".
Definition pdf (p : procedure) : string := images_dir ++ basename p ++ ".pdf".

(** The calls of a sequence, with the method [meth], on the axes numbered
    [a]. *)
Definition calls_on (a : nat) (meth : string) (tr : list action) : list call :=
  flat_map (fun x =>
    match x with
    | Invoke _ c =>
        match target c with
        | On (Axes _ a') =>
            if (a' =? a)%nat && String.eqb (method c) meth then [c] else []
        | _ => []
        end
    | Output _ => []
    end) tr.

(** The numbers of an array or of a list of numbers. *)
Definition numbers (v : value) : list Q :=
  match v with
  | Arr qs => qs
  | Lst vs => flat_map (fun x => match x with Num q => [q] | _ => [] end) vs
  | _ => []
  end.

(** The first two arguments of a call as sequences of numbers: the x and y
    data of [plot], [scatter], [bar]. *)
Definition xy_data (c : call) : list Q * list Q :=
  (numbers (nth 0 (args c) (Lst [])), numbers (nth 1 (args c) (Lst []))).

(** ** Library failures *)

(** The first call that raises, if any: its position and the exception. *)
Fixpoint first_failure (fails : failures) (n : nat) (todo : list action)
  : option (nat * exn) :=
  match todo with
  | [] => None
  | Output _ :: rest => first_failure fails (S n) rest
  | Invoke _ c :: rest =>
      match fails n c with
      | Some e => Some (n, e)
      | None => first_failure fails (S n) rest
      end
  end.

(** What a run performs when the library fails as [f] says, told from what
    it performs when nothing fails: everything up to the first call that
    raises, that call included, and then the exception. *)
Definition cut (f : failures) (tr : list action) : list action * outcome :=
  match first_failure f 0 tr with
  | Some (n, e) => (firstn (S n) tr, Aborted e)
  | None => (tr, Finished)
  end.

(** A program is oblivious when, started with a library that never fails,
    it completes, and started with a library that fails as [f] says it does
    the same up to the first call that raises, and raises that call's
    exception. *)
Definition oblivious {A : Type} (m : M A) : Prop :=
  forall s, fails s = no_failures ->
    exists a t new,
      m s = (Ok a, t) /\ fails t = no_failures /\
      past t = (rev new ++ past s)%list /\
      forall f,
        match first_failure f (List.length (past s)) new with
        | None => m (set_fails f s) = (Ok a, set_fails f t)
        | Some (n, e) =>
            exists t', m (set_fails f s) = (Raise e, t') /\
              past t' = (rev (firstn (S (n - List.length (past s))) new) ++ past s)%list
        end.

(** ** The life of a figure *)

(** A monitor of the call sequence: the figures opened and the figures
    exported so far. *)
Record figures_seen : Type := Seen {
  opened : list nat;
  exported : list nat
}.

Definition has (f : nat) (fs : list nat) : bool := existsb (Nat.eqb f) fs.

(** One step of the monitor.  Opening needs a figure not seen before, any
    other call a figure that is open; after its export a figure takes
    nothing but further exports. *)
Definition observe (m : figures_seen) (a : action) : option figures_seen :=
  match a with
  | Output _ => Some m
  | Invoke cur c =>
      let f := acted_figure cur c in
      if is_save c then
        if has f (opened m) then Some (Seen (opened m) (f :: exported m)) else None
      else if is_open c then
        if has f (opened m) || has f (exported m) then None
        else Some (Seen (f :: opened m) (exported m))
      else
        if has f (opened m) && negb (has f (exported m)) then Some m else None
  end.

Fixpoint accepts (m : figures_seen) (tr : list action) : bool :=
  match tr with
  | [] => true
  | a :: rest =>
      match observe m a with
      | Some m' => accepts m' rest
      | None => false
      end
  end.

(** No call other than an export acts on a figure after its export. *)
Definition never_draws_after_export (tr : list action) : Prop :=
  forall l1 a l2 b l3 f,
    tr = (l1 ++ a :: l2 ++ b :: l3)%list ->
    is_export a = true -> acts_on a = Some f ->
    acts_on b = Some f ->
    is_export b = true.

(** A call of the drawing phase of figure [f]: it acts on [f] and neither
    opens nor exports. *)
Definition drawing (f : nat) (a : action) : Prop :=
  exists cur c,
    a = Invoke cur c /\ acted_figure cur c = f /\
    is_open c = false /\ is_save c = false.

Definition drawing_b (f : nat) (a : action) : bool :=
  match a with
  | Invoke cur c =>
      (acted_figure cur c =? f)%nat && negb (is_open c) && negb (is_save c)
  | Output _ => false
  end.

(** One pass: open a figure, draw on it, export it twice, report. *)
Definition single_pass (tr : list action) : Prop :=
  exists f o draws first second line,
    tr = (Invoke f o :: draws ++ [Invoke f first; Invoke f second; Output line])%list /\
    is_open o = true /\
    Forall (drawing f) draws /\
    is_save first = true /\ is_save second = true /\
    acted_figure f first = f /\ acted_figure f second = f.

Definition single_pass_b (tr : list action) : bool :=
  match tr with
  | Invoke f o :: rest =>
      match rev rest with
      | Output _ :: Invoke f2 second :: Invoke f1 first :: rdraws =>
          is_open o && (f1 =? f)%nat && (f2 =? f)%nat &&
          is_save first && is_save second &&
          (acted_figure f first =? f)%nat && (acted_figure f second =? f)%nat &&
          forallb (drawing_b f) rdraws
      | _ => false
      end
  | _ => false
  end.

(** ** Streams of random draws *)

(** The stream that delivers the numbers of [xs] and then zeros. *)
Definition stream_of (xs : list Q) : nat -> Q := fun i => nth i xs 0.

(** The first [n] draws of a stream. *)
Definition draws (r : nat -> Q) (n : nat) : list Q := map r (seq 0 n).

(** ** Sample inputs *)

(** A stand-in for the libraries, to run the scripts on concrete inputs:
    [np.pi] to sixteen digits, [np.cos] and [np.sin] by Taylor polynomials,
    getters that answer 0. *)
Definition stand_in : library :=
  Library 3.141592653589793
          (fun x => 1 - x * x / 2 + x * x * x * x / 24)
          (fun x => x - x * x * x / 6 + x * x * x * x * x / 120)
          (fun _ _ => 0).

Definition plain : invocation := Invocation ["generate.py"] [].
Definition verbose : invocation :=
  Invocation ["generate.py"; "--dpi"; "72"] [("MPLBACKEND", "Agg")].

(** Streams of draws: all 0, all 1, and 0 for the first 25 draws only. *)
Definition steady : nat -> Q := fun _ => 0.
Definition shifted : nat -> Q := fun _ => 1.
Definition late : nat -> Q := fun i => if (i <? 25)%nat then 0 else 1.

(** A library whose [savefig] raises, as for an output directory that does
    not exist. *)
Definition unwritable : failures :=
  fun _ c =>
    if is_save c then Some (Raised "FileNotFoundError" "No such file or directory")
    else None.

(** A library in which the calls of the class, function or method [name]
    raise [e]. *)
Definition raising (name : string) (e : exn) : failures :=
  fun _ c => if String.eqb (method c) name then Some e else None.


(** ** Observations on the calls of a run *)

(** The library calls of a sequence of actions. *)
Definition calls (tr : list action) : list call :=
  flat_map (fun a => match a with Invoke _ c => [c] | Output _ => [] end) tr.

(** The calls with the method [meth]. *)
Definition named (meth : string) (cs : list call) : list call :=
  filter (fun c => String.eqb (method c) meth) cs.

(** The string a [text] or [annotate] call shows, when it is handed over as
    a plain string: the third argument of [ax.text(x, y, s)]. *)
Definition shown (c : call) : list string :=
  match nth 2 (args c) (Lst []) with
  | Str s => [s]
  | _ => []
  end.

(** A statement that completes, issues the calls [cs] in this order on
    pyplot and on objects of the library, prints nothing, and leaves
    everything else of the process as it is: the figures, the axes and the
    random stream.  Besides, it may make objects and compute arrays. *)
Definition performs (m : M unit) (cs : list call) : Prop :=
  forall s, fails s = no_failures ->
    exists new,
      m s = (Ok tt,
             State (started s) (fails s) (figures s) (axes_made s) (rng s)
                   (rev new ++ past s)%list) /\
      filter visible new = map (Invoke (current s)) cs.

(** The state a process is left in by a script that ran to its end with
    libraries that do not fail. *)
Definition final_state (m : M unit) (inv : invocation) (r : nat -> Q) : state :=
  snd (m (fresh no_failures inv r)).

(** The figure every export of a sequence of actions acts on. *)
Definition exported_figures (tr : list action) : list nat :=
  flat_map (fun a =>
    match a with
    | Invoke cur c => if is_save c then [acted_figure cur c] else []
    | Output _ => []
    end) tr.

(** *** Geometry of patches *)

(** A point [(a, b)] or [[a, b]]. *)
Definition point (v : value) : list (Q * Q) :=
  match v with
  | Tup [Num a; Num b] | Lst [Num a; Num b] => [(a, b)]
  | _ => []
  end.

Definition mean (qs : list Q) : Q :=
  fold_right Qplus 0 qs / Nq (List.length qs).

(** The centre of a patch, from the arguments of its constructor: an
    [Ellipse] or a [Circle] is given by its centre, a [Rectangle] or a
    [FancyBboxPatch] by its lower left corner, its width and its height, a
    [Polygon] by its vertices (the centre is their mean). *)
Definition centre (patch : value) : option (Q * Q) :=
  match patch with
  | Obj class (Tup [Num a; Num b] :: rest) _ =>
      if mem class ["Ellipse"; "Circle"] then Some (a, b)
      else if mem class ["Rectangle"; "mpatches.Rectangle"; "FancyBboxPatch"] then
        match rest with
        | Num w :: Num h :: _ => Some (a + w / 2, b + h / 2)
        | _ => None
        end
      else None
  | Obj class [Lst pts] _ =>
      if String.eqb class "Polygon" then
        let ps := flat_map point pts in
        Some (mean (map fst ps), mean (map snd ps))
      else None
  | _ => None
  end.

(** The extent of a patch, from the arguments of its constructor: position
    and size of a [Rectangle] or [FancyBboxPatch], centre and radius of a
    [Circle]. *)
Definition extent (patch : value) : list value :=
  match patch with
  | Obj _ a _ => a
  | _ => []
  end.

(** The patches handed to [add_patch] on the axes numbered [a]. *)
Definition patches_on (a : nat) (tr : list action) : list value :=
  flat_map (fun c => firstn 1 (args c)) (calls_on a "add_patch" tr).

Definition dashed (patch : value) : bool :=
  match patch with
  | Obj _ _ k =>
      match kwarg "linestyle" k with
      | Some (Str s) => String.eqb s "--"
      | _ => false
      end
  | _ => false
  end.

(** A library in which every [savefig] raises [e] and nothing else
    raises. *)
Definition saving_fails (e : exn) (f : failures) : Prop :=
  forall n c, f n c = if is_save c then Some e else None.

(** A statement that draws on the axes [ax] and does nothing else: it
    completes, every call it issues on pyplot or on an object is a method
    call on [ax] (the shapes it adds it makes itself), and it leaves the
    figures, the axes and the random stream as they are. *)
Definition draws_on (ax : handle) (m : M unit) : Prop :=
  exists cs, performs m cs /\ Forall (fun c => target c = On ax) cs.

(** The first three arguments of a call as sequences of numbers: the x, y
    and z data of a [plot] on 3D axes. *)
Definition xyz_data (c : call) : list Q * list Q * list Q :=
  (numbers (nth 0 (args c) (Lst [])), numbers (nth 1 (args c) (Lst [])),
   numbers (nth 2 (args c) (Lst []))).

(** The faces of a [Poly3DCollection], each one the list of its vertices,
    each vertex the list of its coordinates. *)
Definition faces (collection : value) : list (list (list Q)) :=
  match collection with
  | Obj _ [Lst fs] _ =>
      map (fun f => match f with Lst vs => map numbers vs | _ => [] end) fs
  | _ => []
  end.

(** The polygon collections handed to [add_collection3d]. *)
Definition collections (tr : list action) : list value :=
  flat_map (fun c => firstn 1 (args c)) (named "add_collection3d" (calls tr)).

(** Everything found in a value, at any depth: the value itself, the
    items of a tuple, of a list and of a dictionary, the holes of a format
    string, the arguments an object was made with. *)
Fixpoint parts (v : value) : list value :=
  v :: match v with
       | Tup vs | Lst vs => flat_map parts vs
       | Dict kvs => flat_map (fun '(_, x) => parts x) kvs
       | Fmt _ holes => flat_map parts holes
       | Obj _ a k => flat_map parts a ++ flat_map (fun '(_, x) => parts x) k
       | Bool _ | Num _ | Str _ | Arr _ | Ref _ => []
       end.

(** A point in space: a list or tuple of three numbers. *)
Definition vertex (v : value) : list (Q * Q * Q) :=
  match v with
  | Lst [Num x; Num y; Num z] | Tup [Num x; Num y; Num z] => [(x, y, z)]
  | _ => []
  end.

(** The points in space a call is handed, anywhere in its arguments and
    keywords. *)
Definition vertices_handed (c : call) : list (Q * Q * Q) :=
  flat_map vertex
    (flat_map parts (args c) ++ flat_map (fun '(_, x) => parts x) (kw c)).

Definition same_vertex (p q : Q * Q * Q) : bool :=
  let '(x1, y1, z1) := p in
  let '(x2, y2, z2) := q in
  Qeq_bool x1 x2 && Qeq_bool y1 y2 && Qeq_bool z1 z2.

(** The corners of the four mounting brackets, as the loop of lines 238 to
    249 of [generate_enclosure.py] computes them, one list [bracket_verts]
    per turn. *)
Definition bracket_corners : list (Q * Q * Q) :=
  let width := 4 in
  let depth := 4 in
  let height_top := 1.5 in
  let bracket_size := 0.3 in
  flat_map (fun '(bx, by_) =>
    [(bx, by_, height_top);
     (bx + bracket_size, by_, height_top);
     (bx + bracket_size, by_ + bracket_size, height_top);
     (bx, by_ + bracket_size, height_top);
     (bx, by_, height_top + 0.3);
     (bx + bracket_size, by_, height_top + 0.3);
     (bx + bracket_size, by_ + bracket_size, height_top + 0.3);
     (bx, by_ + bracket_size, height_top + 0.3)])
    [(((- width) / 2) - 0.3, (depth / 2) - 0.5); (width / 2, (depth / 2) - 0.5);
     (((- width) / 2) - 0.3, ((- depth) / 2) + 0.2);
     (width / 2, ((- depth) / 2) + 0.2)].

(** The [n] angles from 0 to a full turn, both ends included, in equal
    steps. *)
Definition full_turn (pi : Q) (n : nat) : list Q :=
  map (fun i => Nq i * (2 * pi) / Nq (n - 1)) (seq 0 n).

(** The call [c] plots a ring of [n] points about the axis through
    [(cx, 0)], all at the height [depth]: the point number [i] lies in the
    direction of the angle number [i] of the full turn, at the distance
    [radius] as far as the library's cosine and sine are exact, that is, its
    squared distance from the axis differs from [radius * radius] by no
    more than the share [eps] of it. *)
Definition on_ring (pi : Q) (cos sin : Q -> Q) (eps : Q) (n : nat)
  (radius cx depth : Q) (c : call) : Prop :=
  let '(xs, ys, zs) := xyz_data c in
  exists angles,
    Forall2 Qeq angles (full_turn pi n) /\
    Forall2 (fun x t => x == cx + radius * cos t) xs angles /\
    Forall2 (fun y t => y == radius * sin t) ys angles /\
    List.length zs = n /\ Forall (fun z => z == depth) zs /\
    Forall2 (fun x y =>
               Qabs ((x - cx) * (x - cx) + y * y - radius * radius)
                 <= radius * radius * eps) xs ys.

(** A cosine and a sine on the rationals that are exact: the point of the
    unit circle at the angle [2 * atan t]. *)
Definition rational_cos (t : Q) : Q := (1 - t * t) / (1 + t * t).
Definition rational_sin (t : Q) : Q := (2 * t) / (1 + t * t).

(** No two of the numbers [xs] are equal. *)
Fixpoint distinct (xs : list Q) : bool :=
  match xs with
  | [] => true
  | x :: rest => negb (existsb (Qeq_bool x) rest) && distinct rest
  end.

(** The face colour a patch is made with. *)
Definition facecolor (patch : value) : option value :=
  match patch with
  | Obj _ _ k => kwarg "facecolor" k
  | _ => None
  end.

(** The two ends of the arrow an [annotate] call draws: the keyword
    [xytext], where it starts, and the keyword [xy], where it points. *)
Definition arrow_ends (c : call) : list ((Q * Q) * (Q * Q)) :=
  match kwarg "xytext" (kw c), kwarg "xy" (kw c) with
  | Some a, Some b => combine (point a) (point b)
  | _, _ => []
  end.

(** An arrow that starts where it points. *)
Definition degenerate (c : call) : bool :=
  existsb (fun '((x1, y1), (x2, y2)) => Qeq_bool x1 x2 && Qeq_bool y1 y2) (arrow_ends c).

(** The calls that come immediately after a call of the method [meth]. *)
Fixpoint followers (meth : string) (cs : list call) : list call :=
  match cs with
  | [] => []
  | c :: rest =>
      match rest with
      | d :: _ =>
          if String.eqb (method c) meth then d :: followers meth rest
          else followers meth rest
      | [] => []
      end
  end.

(** The colours of the legend entries handed to [legend(handles=...)]. *)
Definition legend_colours (c : call) : list value :=
  match kwarg "handles" (kw c) with
  | Some (Lst handles) =>
      flat_map (fun h =>
        match h with
        | Obj _ _ k => match kwarg "color" k with Some v => [v] | None => [] end
        | _ => []
        end) handles
  | _ => []
  end.

(** The face colours of the patches of the class [class]. *)
Definition face_colours (class : string) (patches : list value) : list value :=
  flat_map (fun p =>
    match p with
    | Obj c _ k =>
        if String.eqb c class
        then match kwarg "facecolor" k with Some v => [v] | None => [] end
        else []
    | _ => []
    end) patches.

(** *** Data handed to the plotting calls *)

(** The length of an argument that is a sequence: an array or a list.  A
    number is broadcast and a string is a format or a label; neither has a
    length to agree with. *)
Definition sequence_length (v : value) : list nat :=
  match v with
  | Arr qs => [List.length qs]
  | Lst vs => [List.length vs]
  | _ => []
  end.

Definition all_equal (ns : list nat) : bool :=
  match ns with
  | [] => true
  | n :: rest => forallb (Nat.eqb n) rest
  end.

(** The methods that plot data given as sequences side by side. *)
Definition plotting : list string :=
  ["plot"; "scatter"; "bar"; "barh"; "fill"; "fill_between"].

(** The sequences a plotting call is handed have one length: its positional
    arguments and, for a bar chart, the list of colours. *)
Definition data_agrees (c : call) : bool :=
  all_equal
    (flat_map sequence_length
       (args c ++ match kwarg "color" (kw c) with Some v => [v] | None => [] end)).

(** The plotting calls of a run that are handed at least two sequences. *)
Definition plotted (tr : list action) : list call :=
  filter (fun c =>
            mem (method c) plotting &&
            (1 <? List.length (flat_map sequence_length (args c)))%nat)
         (calls tr).

(** *** Patches and the limits of their axes *)

(** The limits set on the axes numbered [a] by [set_xlim] or [set_ylim]. *)
Definition limits (meth : string) (a : nat) (tr : list action) : list (Q * Q) :=
  flat_map (fun c => match args c with [Num lo; Num hi] => [(lo, hi)] | _ => [] end)
           (calls_on a meth tr).

(** The interval [q] lies within every one of the limits [l]. *)
Definition within (l : list (Q * Q)) (q : Q * Q) : bool :=
  forallb (fun '(lo, hi) => Qle_bool lo (fst q) && Qle_bool (snd q) hi) l.

(** The interval a list of numbers spans. *)
Definition span (qs : list Q) : list (Q * Q) :=
  match qs with
  | [] => []
  | q :: rest => [(fold_right Qmin q rest, fold_right Qmax q rest)]
  end.

(** The bounding box of a patch, from the arguments of its constructor: the
    interval it covers in x and the one it covers in y.  A [Circle] is given
    by centre and radius, an [Ellipse] or an [Arc] by centre, width and
    height, a [Rectangle] or a [FancyBboxPatch] by its lower left corner,
    width and height, a [Polygon] by its vertices.  The box style of a
    [FancyBboxPatch] widens it by its padding on every side; [pad] is the
    padding to count. *)
Definition bounds (pad : Q) (patch : value) : list ((Q * Q) * (Q * Q)) :=
  match patch with
  | Obj class (Tup [Num a; Num b] :: rest) _ =>
      if mem class ["Circle"] then
        match rest with
        | Num rad :: _ => [((a - rad, a + rad), (b - rad, b + rad))]
        | _ => []
        end
      else if mem class ["Ellipse"; "Arc"] then
        match rest with
        | Num w :: Num h :: _ => [((a - w / 2, a + w / 2), (b - h / 2, b + h / 2))]
        | _ => []
        end
      else if mem class ["Rectangle"; "mpatches.Rectangle"] then
        match rest with
        | Num w :: Num h :: _ => [((a, a + w), (b, b + h))]
        | _ => []
        end
      else if String.eqb class "FancyBboxPatch" then
        match rest with
        | Num w :: Num h :: _ => [((a - pad, a + w + pad), (b - pad, b + h + pad))]
        | _ => []
        end
      else []
  | Obj class [Lst pts] _ =>
      if String.eqb class "Polygon" then
        let ps := flat_map point pts in
        combine (span (map fst ps)) (span (map snd ps))
      else []
  | _ => []
  end.

(** The patches added to an axes whose bounding box is not within the
    limits set on that axes (or is not known). *)
Definition sticks_out (pad : Q) (tr : list action) : list value :=
  flat_map (fun c =>
    match target c with
    | On (Axes _ a) =>
        if String.eqb (method c) "add_patch" then
          filter (fun p =>
                    match bounds pad p with
                    | [(bx, by_)] =>
                        negb (within (limits "set_xlim" a tr) bx &&
                              within (limits "set_ylim" a tr) by_)
                    | _ => true
                    end) (firstn 1 (args c))
        else []
    | _ => []
    end) (calls tr).

(** The lines a sequence of actions prints. *)
Definition lines_printed (tr : list action) : nat :=
  List.length (filter (fun a => match a with Output _ => true | Invoke _ _ => false end) tr).

(** Pyplot numbers the figures from 0 in the order they are opened.  A
    sequence of actions goes in turn when none of them acts on a figure
    whose number is greater than the number of lines printed before it,
    [printed] at the start. *)
Fixpoint in_turn (printed : nat) (tr : list action) : bool :=
  match tr with
  | [] => true
  | Invoke cur c :: rest => (acted_figure cur c <=? printed)%nat && in_turn printed rest
  | Output _ :: rest => in_turn (S printed) rest
  end.

(** ** The drawing phase *)

(** The stand-in library with getters that answer [q]. *)
Definition answering (q : Q) : library :=
  Library (np_pi stand_in) (np_cos stand_in) (np_sin stand_in) (fun _ _ => q).

(** Where the texts of a sequence of actions are placed: the first two
    arguments of every [text] call. *)
Definition text_positions (tr : list action) : list (list value) :=
  map (fun c => firstn 2 (args c)) (named "text" (calls tr)).

(** The drawing phase of each procedure, counted from its text with the
    loops unrolled: the calls between the opening of the figure and its
    first export, and among them the shapes added ([add_patch]), the texts
    placed ([text]) and the arrows and notes placed ([annotate]). *)
Record phase : Type := Phase {
  drawing_calls : nat;
  shapes : nat;
  texts : nat;
  arrows : nat
}.

Definition drawing_phase (p : procedure) : phase :=
  match p with
  | CreateBlockDiagram => Phase 46 9 20 11
  | CreateAccuracyChart => Phase 42 0 0 0
  | CreateEnvironmentalTests => Phase 56 0 5 0
  | CreateComparisonChart => Phase 41 0 5 1
  | CreateEnclosure2d => Phase 65 32 12 4
  | CreateEnclosure3d => Phase 21 0 3 0
  | CreateMountingDiagram => Phase 33 12 11 3
  | CreateMainFlowchart => Phase 76 20 25 21
  | CreateAdaptiveFlowchart => Phase 62 14 28 12
  | CreateOutlierFlowchart => Phase 45 11 16 10
  | CreatePcbLayout => Phase 180 96 57 2
  | CreateSchematic => Phase 192 22 69 2
  end.

(** The phase of a sequence of actions that is one pass. *)
Definition phase_of (tr : list action) : phase :=
  Phase (List.length tr - 4)
        (List.length (named "add_patch" (calls tr)))
        (List.length (named "text" (calls tr)))
        (List.length (named "annotate" (calls tr))).

(** The procedures in which no argument of a call comes from the library
    or from the random generator. *)
Definition fixed_by_the_text : list procedure :=
  [CreateBlockDiagram; CreateAccuracyChart; CreateEnclosure2d; CreateMountingDiagram;
   CreateMainFlowchart; CreateAdaptiveFlowchart; CreateOutlierFlowchart;
   CreatePcbLayout; CreateSchematic].

(** * Proofs *)

(** ** The first failing call *)

Lemma first_failure_app (f : failures) (l1 l2 : list action) (n : nat) :
  first_failure f n (l1 ++ l2) =
  match first_failure f n l1 with
  | Some x => Some x
  | None => first_failure f (n + List.length l1) l2
  end.
Proof.
  revert n; induction l1 as [|a l1 IH]; intros n; simpl.
  - now rewrite Nat.add_0_r.
  - destruct a as [cur c|line].
    + destruct (f n c); [reflexivity|].
      rewrite IH. now replace (S n + List.length l1)%nat with (n + S (List.length l1))%nat by lia.
    + rewrite IH. now replace (S n + List.length l1)%nat with (n + S (List.length l1))%nat by lia.
Qed.

Lemma first_failure_bound (f : failures) (l : list action) (n m : nat) (e : exn) :
  first_failure f n l = Some (m, e) -> (n <= m < n + List.length l)%nat.
Proof.
  revert n; induction l as [|a l IH]; intros n; simpl; [discriminate|].
  destruct a as [cur c|line].
  - destruct (f n c).
    + intros H; inversion H; subst; lia.
    + intros H; apply IH in H; lia.
  - intros H; apply IH in H; lia.
Qed.

(** What [first_failure] finds is a call that raises, and no call before it
    raises. *)
Lemma first_failure_spec (f : failures) (l : list action) (m : nat) (e : exn) :
  first_failure f 0 l = Some (m, e) ->
  (exists cur c, nth_error l m = Some (Invoke cur c) /\ f m c = Some e) /\
  (forall i cur c, (i < m)%nat -> nth_error l i = Some (Invoke cur c) -> f i c = None).
Proof.
  assert (G : forall n,
    first_failure f n l = Some (m, e) ->
    (exists cur c, nth_error l (m - n) = Some (Invoke cur c) /\ f m c = Some e) /\
    (forall i cur c, (n + i < m)%nat -> nth_error l i = Some (Invoke cur c) ->
                     f (n + i)%nat c = None)).
  { induction l as [|a l IH]; intros n; simpl; [discriminate|].
    destruct a as [cur c|line].
    - destruct (f n c) eqn:E.
      + intros H; inversion H; subst. rewrite Nat.sub_diag. split.
        * exists cur, c. now split.
        * intros; lia.
      + intros H. pose proof H as B; apply first_failure_bound in B.
        destruct (IH (S n) H) as [[cur' [c' [H1 H2]]] H3]. split.
        * exists cur', c'. split; [|exact H2].
          replace (m - n)%nat with (S (m - S n)) by lia. exact H1.
        * intros [|i] cur0 c0 Hi Hn; simpl in Hn.
          -- inversion Hn; subst. now rewrite Nat.add_0_r.
          -- replace (n + S i)%nat with (S n + i)%nat by lia. eapply H3; [lia|exact Hn].
    - intros H. pose proof H as B; apply first_failure_bound in B.
      destruct (IH (S n) H) as [[cur' [c' [H1 H2]]] H3]. split.
      + exists cur', c'. split; [|exact H2].
        replace (m - n)%nat with (S (m - S n)) by lia. exact H1.
      + intros [|i] cur0 c0 Hi Hn; simpl in Hn.
        * discriminate.
        * replace (n + S i)%nat with (S n + i)%nat by lia. eapply H3; [lia|exact Hn]. }
  intros H. destruct (G 0%nat H) as [G1 G2]. rewrite Nat.sub_0_r in G1. split; [exact G1|].
  intros i cur c Hi Hn. exact (G2 i cur c Hi Hn).
Qed.

(** ** Scripts do not look at failures *)

Lemma set_fails_same (s : state) : set_fails (fails s) s = s.
Proof. now destruct s. Qed.

Lemma oblivious_ret {A : Type} (a : A) : oblivious (ret a).
Proof.
  intros s Hs. exists a, s, []. repeat split; auto.
Qed.

Lemma oblivious_quiet {A : Type} (m : M A) (g : state -> A) (u : state -> state) :
  (forall s, m s = (Ok (g s), u s)) ->
  (forall s, fails (u s) = fails s) ->
  (forall s, past (u s) = past s) ->
  (forall f s, g (set_fails f s) = g s) ->
  (forall f s, u (set_fails f s) = set_fails f (u s)) ->
  oblivious m.
Proof.
  intros Hm Hf Hi Hg Hu s Hs. exists (g s), (u s), []. repeat split.
  - apply Hm.
  - now rewrite Hf.
  - now rewrite Hi.
  - intros f. simpl. now rewrite Hm, Hg, Hu.
Qed.

Lemma oblivious_gcf : oblivious gcf.
Proof.
  intros s Hs. unfold gcf. destruct s as [inv fl [|n] am r iss]; simpl in *.
  - exists 0%nat, (State inv fl 1 am r iss), []. repeat split; auto.
  - exists n, (State inv fl (S n) am r iss), []. repeat split; auto.
Qed.

Lemma oblivious_new_figure : oblivious new_figure.
Proof.
  apply (oblivious_quiet new_figure (fun s => figures s)
           (fun s => set_figures (S (figures s)) s)); intros; reflexivity.
Qed.

Lemma oblivious_new_axes (n : nat) : oblivious (new_axes n).
Proof.
  apply (oblivious_quiet (new_axes n) (fun s => axes_made s)
           (fun s => set_axes_made (n + axes_made s) s)); intros; reflexivity.
Qed.

Lemma oblivious_standard_normal (size : nat) : oblivious (standard_normal size).
Proof.
  apply (oblivious_quiet (standard_normal size)
           (fun s => map (rng s) (seq 0 size))
           (fun s => set_rng (fun i => rng s (size + i)%nat) s)); intros; reflexivity.
Qed.

Lemma oblivious_print (line : string) : oblivious (print line).
Proof.
  intros s Hs. exists tt, (record (Output line) s), [Output line]. repeat split; auto.
Qed.

Lemma oblivious_emit (c : call) : oblivious (emit c).
Proof.
  intros s Hs.
  exists (List.length (issued s)), (record (Invoke (current s) c) s), [Invoke (current s) c].
  repeat split; auto.
  - unfold emit. now rewrite Hs.
  - intros f. simpl. unfold emit. simpl.
    destruct (f (List.length (past s)) c) as [e|].
    + eexists. split; [reflexivity|]. now rewrite Nat.sub_diag.
    + reflexivity.
Qed.

Lemma oblivious_bind {A B : Type} (m : M A) (k : A -> M B) :
  oblivious m -> (forall a, oblivious (k a)) -> oblivious (bind m k).
Proof.
  intros Hm Hk s Hs.
  destruct (Hm s Hs) as [a [t [new1 [E1 [F1 [I1 G1]]]]]].
  destruct (Hk a t F1) as [b [u [new2 [E2 [F2 [I2 G2]]]]]].
  exists b, u, (new1 ++ new2)%list. repeat split.
  - unfold bind. now rewrite E1.
  - exact F2.
  - rewrite I2, I1, rev_app_distr. now rewrite app_assoc.
  - intros f. rewrite first_failure_app. specialize (G1 f). specialize (G2 f).
    assert (L : List.length (past t) = (List.length (past s) + List.length new1)%nat).
    { rewrite I1, length_app, length_rev. lia. }
    rewrite L in G2.
    destruct (first_failure f (List.length (past s)) new1) as [[n e]|] eqn:Q1.
    + destruct G1 as [t' [E' I']]. exists t'. split.
      * unfold bind. now rewrite E'.
      * rewrite I'. apply first_failure_bound in Q1.
        rewrite firstn_app.
        replace (S (n - List.length (past s)) - List.length new1)%nat with 0%nat by lia.
        simpl. now rewrite app_nil_r.
    + destruct (first_failure f (List.length (past s) + List.length new1) new2)
        as [[n e]|] eqn:Q2.
      * destruct G2 as [t' [E' I']]. exists t'. split.
        -- unfold bind. now rewrite G1.
        -- rewrite I', I1. apply first_failure_bound in Q2.
           rewrite firstn_app.
           rewrite (firstn_all2 new1) by lia.
           replace (S (n - List.length (past s)) - List.length new1)%nat
             with (S (n - (List.length (past s) + List.length new1)))%nat by lia.
           rewrite rev_app_distr. now rewrite app_assoc.
      * unfold bind. now rewrite G1.
Qed.

Lemma oblivious_for {A : Type} (xs : list A) (body : A -> M unit) :
  (forall x, oblivious (body x)) -> oblivious (for_ xs body).
Proof.
  intros H. induction xs as [|x xs IH]; simpl.
  - apply oblivious_ret.
  - apply oblivious_bind; [apply H|intros _; exact IH].
Qed.

Lemma oblivious_when (cond : bool) (body : M unit) :
  oblivious body -> oblivious (when cond body).
Proof.
  intros H. destruct cond; simpl; [exact H|apply oblivious_ret].
Qed.

Create HintDb oblivious.
#[local] Hint Resolve oblivious_ret oblivious_gcf oblivious_new_figure oblivious_new_axes
  oblivious_standard_normal oblivious_print oblivious_emit : oblivious.

(** One step of the proof that a program is oblivious: follow the shape of
    the program. *)
Ltac oblivious_step :=
  lazymatch goal with
  | |- oblivious (bind _ _) => apply oblivious_bind; [|intro]
  | |- oblivious (for_ _ _) => apply oblivious_for; intro
  | |- oblivious (when _ _) => apply oblivious_when
  | |- oblivious (match ?x with (_, _) => _ end) => destruct x
  | |- oblivious (if ?b then _ else _) => destruct b
  | |- oblivious (let _ := _ in _) => cbv zeta
  | |- oblivious ((fun _ => _) _) => cbv beta
  | |- oblivious _ => solve [auto with oblivious]
  end.

Ltac oblivious_script := repeat oblivious_step.

Lemma oblivious_invoke h meth a k : oblivious (invoke h meth a k).
Proof. unfold invoke. oblivious_script. Qed.

Lemma oblivious_by_name {A : Type} name a k (result : A) :
  oblivious (by_name name a k result).
Proof. unfold by_name. oblivious_script. Qed.

Lemma oblivious_construct class a k : oblivious (construct class a k).
Proof. apply oblivious_by_name. Qed.

Lemma oblivious_np_array xs : oblivious (np_array xs).
Proof. apply oblivious_by_name. Qed.

Lemma oblivious_np_random_normal (loc scale : Q) (size : nat) :
  oblivious (np_random_normal loc scale size).
Proof. unfold np_random_normal. oblivious_script. Qed.

Lemma oblivious_plt meth a k : oblivious (plt meth a k).
Proof. unfold plt. oblivious_script. Qed.

Lemma oblivious_plt_subplots nrows ncols k : oblivious (plt_subplots nrows ncols k).
Proof. unfold plt_subplots. oblivious_script. Qed.

Lemma oblivious_plt_figure k : oblivious (plt_figure k).
Proof. unfold plt_figure. oblivious_script. Qed.

Lemma oblivious_plt_subplot a k : oblivious (plt_subplot a k).
Proof. unfold plt_subplot. oblivious_script. Qed.

Lemma oblivious_make_axes h meth a k : oblivious (make_axes h meth a k).
Proof. unfold make_axes. oblivious_script. Qed.

Lemma oblivious_invoke_artists h meth a k count :
  oblivious (invoke_artists h meth a k count).
Proof. unfold invoke_artists. oblivious_script. Qed.

Lemma oblivious_invoke_artist h meth a k : oblivious (invoke_artist h meth a k).
Proof. unfold invoke_artist. oblivious_script. Qed.

Lemma oblivious_getter reading h meth : oblivious (generate_charts.getter reading h meth).
Proof. unfold generate_charts.getter. oblivious_script. Qed.

#[local] Hint Resolve oblivious_invoke oblivious_plt oblivious_plt_subplots oblivious_plt_figure
  oblivious_plt_subplot oblivious_make_axes oblivious_invoke_artists oblivious_invoke_artist
  oblivious_getter oblivious_by_name oblivious_construct oblivious_np_array
  oblivious_np_random_normal : oblivious.

Lemma oblivious_block_diagram : oblivious generate_block_diagram.create_block_diagram.
Proof. unfold generate_block_diagram.create_block_diagram. oblivious_script. Qed.

Lemma oblivious_draw_start_end ax x y text width height :
  oblivious (generate_flowcharts.draw_start_end ax x y text width height).
Proof. unfold generate_flowcharts.draw_start_end. oblivious_script. Qed.

Lemma oblivious_draw_process ax x y text width height :
  oblivious (generate_flowcharts.draw_process ax x y text width height).
Proof. unfold generate_flowcharts.draw_process. oblivious_script. Qed.

Lemma oblivious_draw_decision ax x y text size :
  oblivious (generate_flowcharts.draw_decision ax x y text size).
Proof. unfold generate_flowcharts.draw_decision. oblivious_script. Qed.

Lemma oblivious_draw_io ax x y text width height :
  oblivious (generate_flowcharts.draw_io ax x y text width height).
Proof. unfold generate_flowcharts.draw_io. oblivious_script. Qed.

Lemma oblivious_draw_arrow ax x1 y1 x2 y2 label :
  oblivious (generate_flowcharts.draw_arrow ax x1 y1 x2 y2 label).
Proof. unfold generate_flowcharts.draw_arrow. oblivious_script. Qed.

Lemma oblivious_draw_resistor ax x y width height label value vertical :
  oblivious (generate_schematic.draw_resistor ax x y width height label value vertical).
Proof. unfold generate_schematic.draw_resistor. oblivious_script. Qed.

Lemma oblivious_draw_capacitor ax x y label value vertical :
  oblivious (generate_schematic.draw_capacitor ax x y label value vertical).
Proof. unfold generate_schematic.draw_capacitor. oblivious_script. Qed.

Lemma oblivious_draw_transistor_nmos ax x y label :
  oblivious (generate_schematic.draw_transistor_nmos ax x y label).
Proof. unfold generate_schematic.draw_transistor_nmos. oblivious_script. Qed.

Lemma oblivious_draw_opamp ax x y label :
  oblivious (generate_schematic.draw_opamp ax x y label).
Proof. unfold generate_schematic.draw_opamp. oblivious_script. Qed.

Lemma oblivious_draw_transducer ax x y label :
  oblivious (generate_schematic.draw_transducer ax x y label).
Proof. unfold generate_schematic.draw_transducer. oblivious_script. Qed.

Lemma oblivious_draw_ic_package ax x y width height label pins_left pins_right :
  oblivious (generate_schematic.draw_ic_package ax x y width height label pins_left pins_right).
Proof. unfold generate_schematic.draw_ic_package. oblivious_script. Qed.

#[local] Hint Resolve oblivious_draw_start_end oblivious_draw_process oblivious_draw_decision
  oblivious_draw_io oblivious_draw_arrow oblivious_draw_resistor oblivious_draw_capacitor
  oblivious_draw_transistor_nmos oblivious_draw_opamp oblivious_draw_transducer
  oblivious_draw_ic_package : oblivious.

Lemma oblivious_body (L : library) (p : procedure) : oblivious (body L p).
Proof.
  destruct p; simpl.
  - unfold generate_block_diagram.create_block_diagram. oblivious_script.
  - unfold generate_charts.create_accuracy_chart. oblivious_script.
  - unfold generate_charts.create_environmental_tests. oblivious_script.
  - unfold generate_charts.create_comparison_chart. oblivious_script.
  - unfold generate_enclosure.create_enclosure_2d. oblivious_script.
  - unfold generate_enclosure.create_enclosure_3d. oblivious_script.
  - unfold generate_enclosure.create_mounting_diagram. oblivious_script.
  - unfold generate_flowcharts.create_main_flowchart. oblivious_script.
  - unfold generate_flowcharts.create_adaptive_flowchart. oblivious_script.
  - unfold generate_flowcharts.create_outlier_flowchart. oblivious_script.
  - unfold generate_pcb.create_pcb_layout. oblivious_script.
  - unfold generate_schematic.create_schematic. oblivious_script.
Qed.

Lemma oblivious_main (L : library) (s : script) : oblivious (main L s).
Proof.
  destruct s; simpl.
  - apply (oblivious_body L CreateBlockDiagram).
  - unfold generate_charts.main.
    apply oblivious_bind; [|intros _; apply oblivious_bind; [|intros _]].
    + apply (oblivious_body L CreateAccuracyChart).
    + apply (oblivious_body L CreateEnvironmentalTests).
    + apply (oblivious_body L CreateComparisonChart).
  - unfold generate_enclosure.main.
    apply oblivious_bind; [|intros _; apply oblivious_bind; [|intros _]].
    + apply (oblivious_body L CreateEnclosure2d).
    + apply (oblivious_body L CreateEnclosure3d).
    + apply (oblivious_body L CreateMountingDiagram).
  - unfold generate_flowcharts.main.
    apply oblivious_bind; [|intros _; apply oblivious_bind; [|intros _]].
    + apply (oblivious_body L CreateMainFlowchart).
    + apply (oblivious_body L CreateAdaptiveFlowchart).
    + apply (oblivious_body L CreateOutlierFlowchart).
  - apply (oblivious_body L CreatePcbLayout).
  - apply (oblivious_body L CreateSchematic).
Qed.

(** A run against a failing library is the run against the unfailing one, cut
    at the first call that raises. *)
Lemma full_run_with_oblivious (m : M unit) (f : failures) (inv : invocation)
  (r : nat -> Q) :
  oblivious m -> full_run_with f m inv r = cut f (full_run m inv r).
Proof.
  intros H.
  destruct (H (fresh no_failures inv r) eq_refl) as [a [t [new [E [F [I G]]]]]].
  simpl in I. rewrite app_nil_r in I.
  assert (R : full_run m inv r = new).
  { unfold full_run, full_run_with. rewrite E. simpl. now rewrite I, rev_involutive. }
  rewrite R. unfold cut. specialize (G f). simpl in G.
  change (set_fails f (fresh no_failures inv r)) with (fresh f inv r) in G.
  unfold full_run_with.
  destruct (first_failure f 0 new) as [[n e]|].
  - destruct G as [t' [E' I']]. rewrite E'. rewrite I', app_nil_r, rev_involutive.
    now rewrite Nat.sub_0_r.
  - rewrite G. simpl. now rewrite I, rev_involutive.
Qed.

(** The actions on figures and terminal are what is left of everything
    performed when the objects made and the arrays computed are dropped. *)
Lemma run_with_visible (f : failures) (m : M unit) (inv : invocation) (r : nat -> Q) :
  run_with f m inv r =
  (filter visible (fst (full_run_with f m inv r)), snd (full_run_with f m inv r)).
Proof.
  unfold run_with, full_run_with, issued.
  destruct (m (fresh f inv r)) as [[a|e] s]; simpl; now rewrite filter_rev.
Qed.

Lemma run_visible (m : M unit) (inv : invocation) (r : nat -> Q) :
  run m inv r = filter visible (full_run m inv r).
Proof. unfold run, full_run. now rewrite run_with_visible. Qed.

Lemma run_with_oblivious (m : M unit) (f : failures) (inv : invocation) (r : nat -> Q) :
  oblivious m ->
  run_with f m inv r =
  (filter visible (fst (cut f (full_run m inv r))), snd (cut f (full_run m inv r))).
Proof. intros H. now rewrite run_with_visible, (full_run_with_oblivious f inv r H). Qed.

(** ** Clipping *)

Lemma np_clip_bounds (a : list Q) (a_min a_max : Q) :
  a_min <= a_max ->
  Forall (fun y => a_min <= y /\ y <= a_max) (np_clip a a_min a_max).
Proof.
  intros H. unfold np_clip. apply Forall_forall. intros y Hy.
  apply in_map_iff in Hy. destruct Hy as [x [E _]]. subst y. split.
  - apply Q.min_glb; [exact H|apply Q.le_max_r].
  - apply Q.le_min_l.
Qed.

Lemma np_clip_length (a : list Q) (a_min a_max : Q) :
  List.length (np_clip a a_min a_max) = List.length a.
Proof. unfold np_clip. apply length_map. Qed.

(** ** The monitor is sound *)

Lemma has_in (f : nat) (fs : list nat) : has f fs = true <-> In f fs.
Proof.
  unfold has. rewrite existsb_exists. split.
  - intros [x [H E]]. apply Nat.eqb_eq in E. now subst.
  - intros H. exists f. split; [exact H|apply Nat.eqb_refl].
Qed.

Lemma observe_keeps_exported (m m' : figures_seen) (a : action) (f : nat) :
  observe m a = Some m' -> In f (exported m) -> In f (exported m').
Proof.
  destruct a as [cur c|line]; simpl.
  - destruct (is_save c).
    + destruct (has _ (opened m)); [|discriminate]. intros H; inversion H; simpl; auto.
    + destruct (is_open c).
      * destruct (has _ (opened m) || has _ (exported m)); [discriminate|].
        intros H; inversion H; simpl; auto.
      * destruct (has _ (opened m) && negb (has _ (exported m))); [|discriminate].
        intros H; inversion H; subst; auto.
  - intros H; inversion H; subst; auto.
Qed.

Lemma exported_takes_exports (tr : list action) (m : figures_seen) (f : nat) (b : action) :
  accepts m tr = true -> In f (exported m) -> In b tr -> acts_on b = Some f ->
  is_export b = true.
Proof.
  revert m. induction tr as [|a tr IH]; intros m Hacc Hf Hb Hon; [contradiction|].
  simpl in Hacc. destruct (observe m a) as [m'|] eqn:O; [|discriminate].
  destruct Hb as [E|Hb].
  - subst b. destruct a as [cur c|line]; simpl in *; [|discriminate].
    inversion Hon as [Hfig]. rewrite Hfig in O.
    destruct (is_save c); [reflexivity|].
    apply has_in in Hf. rewrite Hf in O. rewrite orb_true_r, andb_false_r in O.
    destruct (is_open c); discriminate.
  - eapply IH; eauto. eapply observe_keeps_exported; eauto.
Qed.

Lemma accepts_sound (tr : list action) (m : figures_seen) :
  accepts m tr = true -> never_draws_after_export tr.
Proof.
  intros Hacc l1. revert m tr Hacc.
  induction l1 as [|x l1 IH]; intros m tr Hacc a l2 b l3 f E Ha Hon Hb; subst tr.
  - simpl in Hacc. destruct (observe m a) as [m'|] eqn:O; [|discriminate].
    apply (@exported_takes_exports (l2 ++ b :: l3) m' f b Hacc); auto.
    + destruct a as [cur c|line]; simpl in *; [|discriminate].
      rewrite Ha in O. inversion Hon as [Hfig]. rewrite Hfig in O.
      destruct (has f (opened m)); [|discriminate]. inversion O; simpl; auto.
    + apply in_or_app. right. now left.
  - simpl in Hacc. destruct (observe m x) as [m'|]; [|discriminate].
    eapply IH; eauto.
Qed.

Lemma drawing_b_sound (f : nat) (a : action) : drawing_b f a = true -> drawing f a.
Proof.
  destruct a as [cur c|line]; simpl; [|discriminate].
  intros H. apply andb_prop in H. destruct H as [H H3].
  apply andb_prop in H. destruct H as [H1 H2].
  exists cur, c. repeat split.
  - now apply Nat.eqb_eq.
  - now apply negb_true_iff.
  - now apply negb_true_iff.
Qed.

Lemma single_pass_sound (tr : list action) : single_pass_b tr = true -> single_pass tr.
Proof.
  destruct tr as [|[f o|line0] rest]; simpl; try discriminate.
  destruct (rev rest) as [|[cur0 c0|line] [|[f2 second|line2] [|[f1 first|line1] rdraws]]] eqn:E;
    try discriminate.
  intros H.
  apply andb_prop in H; destruct H as [H Hdraws].
  apply andb_prop in H; destruct H as [H Hfig2].
  apply andb_prop in H; destruct H as [H Hfig1].
  apply andb_prop in H; destruct H as [H Hsave2].
  apply andb_prop in H; destruct H as [H Hsave1].
  apply andb_prop in H; destruct H as [H Hcur2].
  apply andb_prop in H; destruct H as [Hopen Hcur1].
  apply Nat.eqb_eq in Hfig1, Hfig2, Hcur1, Hcur2. subst f1 f2.
  exists f, o, (rev rdraws), first, second, line.
  assert (R : rest = (rev rdraws ++ [Invoke f first; Invoke f second; Output line])%list).
  { rewrite <- (rev_involutive rest), E. simpl. repeat rewrite <- app_assoc. reflexivity. }
  rewrite R. repeat split; auto.
  apply Forall_rev. apply Forall_forall. intros a Ha.
  apply drawing_b_sound. eapply forallb_forall in Hdraws; eauto.
Qed.


(** * The claims *)

(** Evaluate a run, leaving the arithmetic on rationals as it stands. *)
Ltac evaluate :=
  cbv -[Qplus Qminus Qmult Qdiv Qopp Qinv Qmin Qmax Qabs Qcompare Qeq_bool Qle_bool].

(** ** Concrete runs *)

Example block_diagram_run_length :
  List.length (run (execute stand_in GenerateBlockDiagram) plain steady) = 50%nat.
Proof. vm_compute. reflexivity. Qed.

Example block_diagram_run_begins :
  firstn 2 (run (execute stand_in GenerateBlockDiagram) plain steady) =
  [Invoke 0 (Call Pyplot "subplots" [Num 1; Num 1] [("figsize", Tup [Num 14; Num 10])]);
   Invoke 0 (Call (On (Axes 0 0)) "set_xlim" [Num 0; Num 14] [])].
Proof. vm_compute. reflexivity. Qed.

Example charts_run_ends :
  map effect_of (skipn 148 (run (execute stand_in GenerateCharts) plain steady)) =
  [WritesFile "/workspaces/ultraman/research_paper/images/comparison_chart.png";
   WritesFile "/workspaces/ultraman/research_paper/images/comparison_chart.pdf";
   WritesStdout "Comparison chart saved!"].
Proof. vm_compute. reflexivity. Qed.

(** The levels of the stability panel with all draws 0 and with all draws 1:
    1.5 and 1.508. *)
Example stability_levels_steady_and_shifted :
  Forall (fun y => y == 1.5)
    (snd (xy_data (hd (Call Pyplot "" [] [])
       (calls_on 2 "plot" (run (body stand_in CreateEnvironmentalTests) plain steady))))) /\
  Forall (fun y => y == 1.508)
    (snd (xy_data (hd (Call Pyplot "" [] [])
       (calls_on 2 "plot" (run (body stand_in CreateEnvironmentalTests) plain shifted))))).
Proof. split; vm_compute; repeat constructor. Qed.

(** ** Two runs of a procedure *)

(** [create_environmental_tests] looks at the first 25 draws of the random
    stream and at nothing else of it. *)
Lemma environmental_tests_uses_25_draws (L : library) (inv1 inv2 : invocation)
  (r : nat -> Q) :
  run (body L CreateEnvironmentalTests) inv1 r =
  run (body L CreateEnvironmentalTests) inv2 (stream_of (draws r 25)).
Proof. evaluate. reflexivity. Qed.

(** The other procedures perform the same actions whatever the stream:
    [create_accuracy_chart] draws ten numbers and overwrites the array made
    of them. *)
Lemma other_procedures_use_no_draw (L : library) (p : procedure)
  (inv1 inv2 : invocation) (r1 r2 : nat -> Q) :
  p <> CreateEnvironmentalTests ->
  run (body L p) inv1 r1 = run (body L p) inv2 r2.
Proof.
  destruct p; intros H; try (evaluate; reflexivity). now contradiction H.
Qed.

(** Run as a script, [generate_charts.py] hands draws 0 to 9 to
    [create_accuracy_chart], which drops them, and draws 10 to 34 to
    [create_environmental_tests]. *)
Lemma charts_use_draws_10_to_34 (L : library) (inv1 inv2 : invocation) (r : nat -> Q) :
  run (execute L GenerateCharts) inv1 r =
  run (execute L GenerateCharts) inv2
      (stream_of (draws steady 10 ++ map r (seq 10 25))).
Proof. evaluate. reflexivity. Qed.

(** The same holds of everything the procedures perform, the arrays computed
    included: the arguments of [np.clip] are the only ones that depend on
    the draws. *)
Lemma everything_uses_25_draws (L : library) (inv1 inv2 : invocation) (r : nat -> Q) :
  full_run (body L CreateEnvironmentalTests) inv1 r =
  full_run (body L CreateEnvironmentalTests) inv2 (stream_of (draws r 25)).
Proof. evaluate. reflexivity. Qed.

Lemma everything_else_uses_no_draw (L : library) (p : procedure)
  (inv1 inv2 : invocation) (r1 r2 : nat -> Q) :
  p <> CreateEnvironmentalTests ->
  full_run (body L p) inv1 r1 = full_run (body L p) inv2 r2.
Proof.
  destruct p; intros H; try (evaluate; reflexivity). now contradiction H.
Qed.

(** C1, as stated, fails: two runs of [create_environmental_tests] whose
    random streams differ (all draws 0 against all draws 1) plot different
    water levels in the 24-hour stability panel. *)
Lemma environmental_tests_runs_differ :
  run (body stand_in CreateEnvironmentalTests) plain steady <>
  run (body stand_in CreateEnvironmentalTests) plain shifted.
Proof.
  intros H.
  apply (f_equal (fun tr => map xy_data (calls_on 2 "plot" tr))) in H.
  vm_compute in H. discriminate H.
Qed.

(** C1, amended: two executions of a procedure perform the same sequence of
    actions and end the same way, whatever the command line, the environment
    and the random stream, for every procedure but
    [create_environmental_tests]; two executions of
    [create_environmental_tests] do so when the 25 draws taken for the
    stability panel are the same.  The library is the same in both
    executions, failures included. *)
Theorem two_runs_agree (L : library) (f : failures) (p : procedure)
  (inv1 inv2 : invocation) (r1 r2 : nat -> Q) :
  (p = CreateEnvironmentalTests -> draws r1 25 = draws r2 25) ->
  run_with f (body L p) inv1 r1 = run_with f (body L p) inv2 r2.
Proof.
  intros H.
  rewrite !(run_with_oblivious f _ _ (oblivious_body L p)).
  assert (E : full_run (body L p) inv1 r1 = full_run (body L p) inv2 r2).
  { destruct p; try (apply everything_else_uses_no_draw; discriminate).
    rewrite (everything_uses_25_draws L inv1 inv2 r1).
    rewrite (everything_uses_25_draws L inv2 inv2 r2).
    now rewrite (H eq_refl). }
  now rewrite E.
Qed.

(** Two streams that agree on 25 draws and differ afterwards. *)
Lemma two_runs_agree_witness :
  draws steady 25 = draws late 25 /\
  run_with no_failures (body stand_in CreateEnvironmentalTests) plain steady =
  run_with no_failures (body stand_in CreateEnvironmentalTests) verbose late.
Proof.
  split; [reflexivity|].
  apply (@two_runs_agree stand_in no_failures CreateEnvironmentalTests
           plain verbose steady late).
  intros _. reflexivity.
Defined.

(** ** What a script does outside the process *)





(** ** The two save operations *)

(** C3: every figure-producing procedure saves twice, first
    [images_dir/<base>.png] with [dpi=300], then [images_dir/<base>.pdf]
    without a [dpi]: the same directory and base name, the extension apart. *)
Theorem save_operations (L : library) (p : procedure) (inv : invocation) (r : nat -> Q) :
  saves (run (body L p) inv r) =
  [(images_dir ++ basename p ++ ".png", Some (Num 300));
   (images_dir ++ basename p ++ ".pdf", None)].
Proof. destruct p; vm_compute; reflexivity. Qed.

(** ** Library failures *)

Lemma oblivious_execute (L : library) (s : script) : oblivious (execute L s).
Proof. unfold execute, module_body. simpl. apply oblivious_main. Qed.

(** C4: whatever calls of the libraries fail, be it a method of pyplot, of a
    figure, of an axes or of an artist, a class that is instantiated or a
    function of numpy, a script performs what it performs with unfailing
    libraries up to the first call that raises, that call included and
    performed once, performs nothing after it and ends with the exception
    the library raised; when no call raises it runs to its end.  What the
    figures and the terminal get to see is the part of this that is
    addressed to them. *)
Theorem library_failure_aborts (L : library) (s : script) (f : failures)
  (inv : invocation) (r : nat -> Q) :
  let everything := full_run (execute L s) inv r in
  full_run_with f (execute L s) inv r =
    match first_failure f 0 everything with
    | Some (n, e) => (firstn (S n) everything, Aborted e)
    | None => (everything, Finished)
    end /\
  run_with f (execute L s) inv r =
    (filter visible (fst (full_run_with f (execute L s) inv r)),
     snd (full_run_with f (execute L s) inv r)).
Proof.
  split; [exact (full_run_with_oblivious f inv r (oblivious_execute L s))|].
  apply run_with_visible.
Qed.

(** When making a [FancyBboxPatch] raises, [generate_block_diagram.py] ends
    in that exception at its first box: it has set up the axes and placed
    the title, six calls, and tried to make the box. *)
Example failing_constructor_aborts_block_diagram :
  let e := Raised "TypeError" "unexpected keyword argument" in
  let tried :=
    full_run_with (raising "FancyBboxPatch" e) (execute stand_in GenerateBlockDiagram)
      plain steady in
  snd tried = Aborted e /\
  map (fun a => match a with Invoke _ c => method c | Output line => line end) (fst tried) =
    ["subplots"; "set_xlim"; "set_ylim"; "set_aspect"; "axis"; "text"; "FancyBboxPatch"] /\
  List.length
    (fst (run_with (raising "FancyBboxPatch" e) (execute stand_in GenerateBlockDiagram)
            plain steady)) = 6%nat.
Proof. vm_compute. repeat split. Qed.

(** When [np.clip] raises, [generate_charts.py] ends in that exception in its
    second procedure: the first figure is saved and reported, the second is
    not. *)
Example failing_clip_aborts_charts :
  let e := Raised "ValueError" "operands could not be broadcast together" in
  let tried :=
    run_with (raising "np.clip" e) (execute stand_in GenerateCharts) plain steady in
  snd tried = Aborted e /\
  externals (fst tried) =
    [WritesFile (png CreateAccuracyChart); WritesFile (pdf CreateAccuracyChart);
     WritesStdout (message CreateAccuracyChart)].
Proof. vm_compute. repeat split. Qed.

(** With an output directory that cannot be written, [generate_block_diagram.py]
    ends in the exception of the first [savefig]: 48 actions, the last one the
    attempt to write the [.png]; the [.pdf] is not attempted and nothing is
    printed. *)
Example unwritable_output_aborts_block_diagram :
  let performed :=
    fst (run_with unwritable (execute stand_in GenerateBlockDiagram) plain steady) in
  snd (run_with unwritable (execute stand_in GenerateBlockDiagram) plain steady) =
    Aborted (Raised "FileNotFoundError" "No such file or directory") /\
  List.length performed = 48%nat /\
  map effect_of (skipn 47 performed) =
    [WritesFile "/workspaces/ultraman/research_paper/images/block_diagram.png"].
Proof. vm_compute. repeat split. Qed.

(** ** Open, draw, export *)

Lemma procedures_pass_the_check (L : library) (p : procedure) (inv : invocation)
  (r : nat -> Q) :
  single_pass_b (run (body L p) inv r) = true.
Proof. destruct p; vm_compute; reflexivity. Qed.

Lemma scripts_pass_the_monitor (L : library) (s : script) (inv : invocation)
  (r : nat -> Q) :
  accepts (Seen [] []) (run (execute L s) inv r) = true.
Proof. destruct s; vm_compute; reflexivity. Qed.

Lemma procedures_have_their_phase (L : library) (p : procedure) (inv : invocation)
  (r : nat -> Q) :
  phase_of (run (body L p) inv r) = drawing_phase p.
Proof. destruct p; vm_compute; reflexivity. Qed.

(** C5, as stated, fails: the coordinates of the placement calls are not
    all literals of the script.  [create_environmental_tests] places the
    labels of its bars where the library says the bars are
    ([bar.get_x() + bar.get_width()/2], [bar.get_height() + 1], lines 130 to
    132): when the library answers 1 instead of 0, the labels move. *)
Lemma labels_placed_from_readings :
  text_positions (run (body (answering 0) CreateEnvironmentalTests) plain steady) <>
  text_positions (run (body (answering 1) CreateEnvironmentalTests) plain steady).
Proof. vm_compute. discriminate. Qed.

(** C5, amended: every figure-producing procedure is one pass in a fixed
    order: it opens one figure, then issues its drawing calls, every one of
    them on that figure and none of them opening or exporting, then exports
    the figure twice and reports; the drawing phase is not empty, it holds
    the calls counted in [drawing_phase], all the shapes, texts and arrows
    among them; and in the run of every script no call other than an export
    acts on a figure after that figure has been exported.  The arguments of
    the calls are fixed by the text of the script, the same for every
    library, command line, environment and random stream, in nine of the
    twelve procedures; they are computed from literals there, by arithmetic
    and loops, not all literals themselves. *)
Theorem open_draw_export (L : library) (inv : invocation) (r : nat -> Q) :
  (forall p, single_pass (run (body L p) inv r)) /\
  (forall p, phase_of (run (body L p) inv r) = drawing_phase p /\
             (0 < drawing_calls (drawing_phase p))%nat) /\
  (forall s, never_draws_after_export (run (execute L s) inv r)) /\
  Forall (fun p => forall L' inv' r', run (body L p) inv r = run (body L' p) inv' r')
         fixed_by_the_text.
Proof.
  split; [intros p; apply single_pass_sound, procedures_pass_the_check|].
  split; [intros p; split; [apply procedures_have_their_phase|destruct p; simpl; lia]|].
  split; [intros s; eapply accepts_sound, scripts_pass_the_monitor|].
  unfold fixed_by_the_text.
  repeat (constructor;
    [intros L' inv' r'; rewrite !run_visible;
     now rewrite (@everything_else_uses_no_draw L _ inv inv' r r') by discriminate|]).
  constructor.
Qed.

(** ** Independence of the scripts *)




(** ** The entry point *)

Lemma run_ignores_invocation (L : library) (s : script) (inv1 inv2 : invocation)
  (r : nat -> Q) :
  run (execute L s) inv1 r = run (execute L s) inv2 r.
Proof. destruct s; evaluate; reflexivity. Qed.

Lemma everything_ignores_invocation (L : library) (s : script) (inv1 inv2 : invocation)
  (r : nat -> Q) :
  full_run (execute L s) inv1 r = full_run (execute L s) inv2 r.
Proof. destruct s; evaluate; reflexivity. Qed.

Lemma execute_calls_procedures (L : library) (s : script) (st : state) :
  execute L s st = for_ (procedures s) (body L) st.
Proof.
  unfold execute, module_body. simpl.
  destruct s; simpl;
    unfold generate_charts.main, generate_enclosure.main, generate_flowcharts.main,
           generate_block_diagram.main, generate_pcb.main, generate_schematic.main,
           bind, ret;
    repeat match goal with
           | |- context [match ?m ?s with _ => _ end] =>
               lazymatch m with
               | body _ _ => fail
               | _ => destruct (m s) as [[[]|?] ?]
               end
           end; reflexivity.
Qed.

(** C7: what a script performs, and how it ends, does not depend on the
    command line or on the environment it is started with; and started as a
    script it calls its procedures, which take no argument, one after the
    other, under no condition. *)
Theorem entry_point_takes_no_input (L : library) (s : script) (f : failures)
  (inv1 inv2 : invocation) (r : nat -> Q) :
  run_with f (execute L s) inv1 r = run_with f (execute L s) inv2 r /\
  forall st, execute L s st = for_ (procedures s) (body L) st.
Proof.
  split; [|apply execute_calls_procedures].
  rewrite !(run_with_oblivious f _ _ (oblivious_execute L s)).
  now rewrite (everything_ignores_invocation L s inv1 inv2 r).
Qed.

(** ** The data of the charts *)

(** C8: in [create_accuracy_chart] the measured distances that are plotted
    are the ten literal ones, each less than 0.01 m from the actual
    distance, and every bar of the error panel, in centimetres, lies
    strictly between the threshold lines drawn at -1 and 1. *)
Theorem accuracy_errors_within_threshold (inv : invocation) (r : nat -> Q) :
  let tr := run generate_charts.create_accuracy_chart inv r in
  exists actual measured errors,
    map xy_data (calls_on 0 "scatter" tr) = [(actual, measured)] /\
    map xy_data (calls_on 1 "bar" tr) = [(map Nq (seq 0 10), errors)] /\
    map (fun c => kwarg "y" (kw c)) (calls_on 1 "axhline" tr) =
      [Some (Num 0); Some (Num 1); Some (Num (-1))] /\
    List.length actual = 10%nat /\
    Forall2 (fun a m => Qabs (m - a) < 0.01) actual measured /\
    errors = map (fun d => d * 100) (np_sub measured actual) /\
    Forall (fun e => -1 < e /\ e < 1) errors.
Proof.
  exists [0.5; 1.0; 1.5; 2.0; 2.5; 3.0; 3.5; 4.0; 4.5; 5.0],
         [0.502; 0.998; 1.506; 2.003; 2.495; 3.008; 3.502; 3.997; 4.509; 5.004].
  eexists. split; [vm_compute; reflexivity|].
  split; [evaluate; reflexivity|].
  split; [vm_compute; reflexivity|].
  split; [reflexivity|].
  split; [repeat constructor|].
  split; [reflexivity|].
  repeat constructor.
Qed.

(** C9: in [create_environmental_tests], whatever the 25 draws, the levels
    plotted in the stability panel are the clipped ones; each lies in
    [1.48, 1.52] and so within the y limits [1.45, 1.55] of the panel. *)
Theorem stability_levels_clipped (reading : handle -> string -> Q) (inv : invocation)
  (r : nat -> Q) :
  let tr := run (generate_charts.create_environmental_tests reading) inv r in
  exists levels,
    map xy_data (calls_on 2 "plot" tr) = [(map Nq (seq 0 25), levels)] /\
    map args (calls_on 2 "set_ylim" tr) = [[Num 1.45; Num 1.55]] /\
    levels = np_clip (map (fun n => 1.5 + n) (map (fun z => 0 + 0.008 * z) (draws r 25)))
                     (1.5 - 0.02) (1.5 + 0.02) /\
    List.length levels = 25%nat /\
    Forall (fun y => 1.48 <= y /\ y <= 1.52) levels /\
    Forall (fun y => 1.45 <= y /\ y <= 1.55) levels.
Proof.
  eexists. split; [evaluate; reflexivity|].
  split; [vm_compute; reflexivity|].
  split; [reflexivity|].
  split; [reflexivity|].
  assert (B : Forall (fun y => 1.5 - 0.02 <= y /\ y <= 1.5 + 0.02)
                (np_clip (map (fun n => 1.5 + n) (map (fun z => 0 + 0.008 * z) (draws r 25)))
                         (1.5 - 0.02) (1.5 + 0.02))).
  { apply np_clip_bounds. discriminate. }
  split; (eapply Forall_impl; [|exact B]); intros y [H1 H2]; split.
  - eapply Qle_trans; [|exact H1]. discriminate.
  - eapply Qle_trans; [exact H2|]. discriminate.
  - eapply Qle_trans; [|exact H1]. discriminate.
  - eapply Qle_trans; [exact H2|]. discriminate.
Qed.

(** C10: in [create_comparison_chart], whatever [np.pi] is, the angles and
    each of the three series handed to the radar chart have seven elements,
    the last equal to the first. *)
Theorem radar_polygons_closed (pi : Q) (reading : handle -> string -> Q)
  (inv : invocation) (r : nat -> Q) :
  let tr := run (generate_charts.create_comparison_chart pi reading) inv r in
  exists angles custom_sensor maxbotix generic,
    map xy_data (calls_on 2 "plot" tr) =
      [(angles, custom_sensor); (angles, maxbotix); (angles, generic)] /\
    map xy_data (calls_on 2 "fill" tr) =
      [(angles, custom_sensor); (angles, maxbotix); (angles, generic)] /\
    Forall (fun xs => List.length xs = 7%nat /\ last xs 0 = hd 0 xs)
           [angles; custom_sensor; maxbotix; generic].
Proof.
  do 4 eexists. split; [evaluate; reflexivity|].
  split; [evaluate; reflexivity|].
  repeat constructor.
Qed.

(** * Further properties of the code *)

(** ** Statements that only issue calls *)

Lemma performs_ret : performs (ret tt) [].
Proof. intros s _. exists []. destruct s; split; reflexivity. Qed.

Lemma performs_invoke (h : handle) (meth : string) (a : list value) (k : kwargs) :
  performs (invoke h meth a k) [Call (On h) meth a k].
Proof.
  intros s Hs. exists [Invoke (current s) (Call (On h) meth a k)].
  destruct s. simpl in Hs. subst. split; reflexivity.
Qed.

(** Making an object or computing an array issues no call on a figure. *)
Lemma performs_by_name {A : Type} (name : string) (a : list value) (k : kwargs)
  (result : A) (rest : A -> M unit) (cs : list call) :
  performs (rest result) cs -> performs (bind (by_name name a k result) rest) cs.
Proof.
  intros H s Hs.
  destruct (H (record (Invoke (current s) (Call Imported name a k)) s) Hs) as [new [E V]].
  exists (Invoke (current s) (Call Imported name a k) :: new). split.
  - destruct s as [st fl fg am rg ps]. simpl in Hs. subst fl.
    unfold bind, by_name, emit, ret, record, current in *. simpl in *.
    rewrite E. now rewrite <- app_assoc.
  - simpl. exact V.
Qed.

Lemma performs_construct (class : string) (a : list value) (k : kwargs)
  (rest : value -> M unit) (cs : list call) :
  performs (rest (Obj class a k)) cs -> performs (bind (construct class a k) rest) cs.
Proof. apply performs_by_name. Qed.

Lemma performs_bind (m k : M unit) (cs1 cs2 : list call) :
  performs m cs1 -> performs k cs2 -> performs (m ;; k) (cs1 ++ cs2).
Proof.
  intros H1 H2 s Hs. unfold bind.
  destruct (H1 s Hs) as [new1 [E1 V1]]. rewrite E1.
  destruct (H2 (State (started s) (fails s) (figures s) (axes_made s) (rng s)
                      (rev new1 ++ past s)%list) Hs) as [new2 [E2 V2]].
  exists (new1 ++ new2)%list. split.
  - rewrite E2. simpl. now rewrite rev_app_distr, app_assoc.
  - rewrite filter_app, V1, V2, map_app. reflexivity.
Qed.

Lemma performs_for {A : Type} (xs : list A) (body : A -> M unit) (f : A -> list call) :
  (forall x, performs (body x) (f x)) -> performs (for_ xs body) (flat_map f xs).
Proof.
  intros H. induction xs as [|x xs IH]; simpl.
  - apply performs_ret.
  - now apply performs_bind.
Qed.

Lemma performs_when (cond : bool) (body : M unit) (cs : list call) :
  performs body cs -> performs (when cond body) (if cond then cs else []).
Proof. destruct cond; simpl; [trivial|intros _; apply performs_ret]. Qed.

Lemma performs_run (m : M unit) (cs : list call) (inv : invocation) (r : nat -> Q) :
  performs m cs -> run m inv r = map (Invoke 0) cs.
Proof.
  intros H. unfold run, run_with.
  destruct (H (fresh no_failures inv r) eq_refl) as [new [E V]]. rewrite E.
  unfold issued. simpl. now rewrite app_nil_r, filter_rev, rev_involutive.
Qed.

Lemma calls_invokes (cur : nat) (cs : list call) : calls (map (Invoke cur) cs) = cs.
Proof. induction cs as [|c cs IH]; simpl; [reflexivity|now rewrite IH]. Qed.

Lemma performs_calls (m : M unit) (cs : list call) (inv : invocation) (r : nat -> Q) :
  performs m cs -> calls (run m inv r) = cs.
Proof. intros H. rewrite (performs_run inv r H). apply calls_invokes. Qed.

Lemma performs_cons (h : handle) (meth : string) (a : list value) (k : kwargs)
  (rest : M unit) (cs : list call) :
  performs rest cs ->
  performs (invoke h meth a k ;; rest) (Call (On h) meth a k :: cs).
Proof. intros H. exact (performs_bind (performs_invoke h meth a k) H). Qed.

Lemma draws_on_ret (ax : handle) : draws_on ax (ret tt).
Proof. exists []. split; [apply performs_ret|constructor]. Qed.

Lemma draws_on_invoke (ax : handle) (meth : string) (a : list value) (k : kwargs) :
  draws_on ax (invoke ax meth a k).
Proof. eexists. split; [apply performs_invoke|]. repeat constructor. Qed.

Lemma draws_on_by_name {A : Type} (ax : handle) (name : string) (a : list value)
  (k : kwargs) (result : A) (rest : A -> M unit) :
  draws_on ax (rest result) -> draws_on ax (bind (by_name name a k result) rest).
Proof.
  intros [cs [P F]]. exists cs. split; [now apply performs_by_name|exact F].
Qed.

Lemma draws_on_construct (ax : handle) (class : string) (a : list value)
  (k : kwargs) (rest : value -> M unit) :
  draws_on ax (rest (Obj class a k)) -> draws_on ax (bind (construct class a k) rest).
Proof. apply draws_on_by_name. Qed.

Lemma draws_on_bind (ax : handle) (m k : M unit) :
  draws_on ax m -> draws_on ax k -> draws_on ax (m ;; k).
Proof.
  intros [cs1 [P1 F1]] [cs2 [P2 F2]]. exists (cs1 ++ cs2)%list.
  split; [now apply performs_bind|]. apply Forall_app. now split.
Qed.

Lemma draws_on_for {A : Type} (ax : handle) (xs : list A) (body : A -> M unit) :
  (forall x, draws_on ax (body x)) -> draws_on ax (for_ xs body).
Proof.
  intros H. induction xs as [|x xs IH]; simpl.
  - apply draws_on_ret.
  - now apply draws_on_bind.
Qed.

Lemma draws_on_when (ax : handle) (cond : bool) (body : M unit) :
  draws_on ax body -> draws_on ax (when cond body).
Proof. destruct cond; simpl; [trivial|intros _; apply draws_on_ret]. Qed.

Ltac draws_on_script :=
  cbv zeta;
  repeat first
    [ apply draws_on_ret
    | apply draws_on_invoke
    | apply draws_on_construct; cbv beta
    | apply draws_on_by_name; cbv beta
    | apply draws_on_bind
    | apply draws_on_when
    | apply draws_on_for; intros [? ?]; cbv zeta
    | apply draws_on_for; intros ?; cbv zeta ].

(** ** The drawing helpers *)

(** Every drawing helper of [generate_schematic.py] and of
    [generate_flowcharts.py], whatever its arguments, completes and issues
    method calls on the axes it is given and on nothing else: it opens no
    figure, creates no axes, takes no random draw, saves and prints
    nothing. *)
Theorem helpers_draw_on_their_axes (ax : handle) (x y x2 y2 width height size : Q)
  (label value text : string) (vertical : bool) (pins_left pins_right : list string) :
  draws_on ax (generate_schematic.draw_resistor ax x y width height label value vertical) /\
  draws_on ax (generate_schematic.draw_capacitor ax x y label value vertical) /\
  draws_on ax (generate_schematic.draw_transistor_nmos ax x y label) /\
  draws_on ax (generate_schematic.draw_opamp ax x y label) /\
  draws_on ax (generate_schematic.draw_transducer ax x y label) /\
  draws_on ax (generate_schematic.draw_ic_package ax x y width height label
                 pins_left pins_right) /\
  draws_on ax (generate_flowcharts.draw_start_end ax x y text width height) /\
  draws_on ax (generate_flowcharts.draw_process ax x y text width height) /\
  draws_on ax (generate_flowcharts.draw_decision ax x y text size) /\
  draws_on ax (generate_flowcharts.draw_io ax x y text width height) /\
  draws_on ax (generate_flowcharts.draw_arrow ax x y x2 y2 label).
Proof.
  repeat split.
  - unfold generate_schematic.draw_resistor. destruct vertical; draws_on_script.
  - unfold generate_schematic.draw_capacitor. destruct vertical; draws_on_script.
  - unfold generate_schematic.draw_transistor_nmos. draws_on_script.
  - unfold generate_schematic.draw_opamp. draws_on_script.
  - unfold generate_schematic.draw_transducer. draws_on_script.
  - unfold generate_schematic.draw_ic_package. draws_on_script.
  - unfold generate_flowcharts.draw_start_end. draws_on_script.
  - unfold generate_flowcharts.draw_process. draws_on_script.
  - unfold generate_flowcharts.draw_decision. draws_on_script.
  - unfold generate_flowcharts.draw_io. draws_on_script.
  - unfold generate_flowcharts.draw_arrow. draws_on_script.
Qed.

(** *** [draw_ic_package] *)

(** The calls of [draw_ic_package]: the body, its label, and per pin a stub
    and the pin's name, the left pins first. *)
Lemma draw_ic_package_performs (ax : handle) (x y width height : Q) (label : string)
  (pins_left pins_right : list string) :
  performs
    (generate_schematic.draw_ic_package ax x y width height label pins_left pins_right)
    (Call (On ax) "add_patch"
       [Obj "FancyBboxPatch" [Tup [Num x; Num y]; Num width; Num height]
          [("boxstyle", Str "round,pad=0.02"); ("facecolor", Str "lightgray");
           ("edgecolor", Str "black"); ("linewidth", Num 1.5)]] [] ::
     Call (On ax) "text" [Num (x + (width / 2)); Num (y + (height / 2)); Str label]
       [("fontsize", Num 8); ("ha", Str "center"); ("va", Str "center");
        ("fontweight", Str "bold")] ::
     flat_map (fun '(i, pin) =>
       let py := (y + height) - ((Nq i + 1) * (height / (Nq (len pins_left) + 1))) in
       [Call (On ax) "plot" [Lst [Num (x - 0.2); Num x]; Lst [Num py; Num py]; Str "k-"]
          [("linewidth", Num 1.5)];
        Call (On ax) "text" [Num (x - 0.25); Num py; Str pin]
          [("fontsize", Num 5); ("ha", Str "right"); ("va", Str "center")]])
       (enumerate pins_left) ++
     flat_map (fun '(i, pin) =>
       let py := (y + height) - ((Nq i + 1) * (height / (Nq (len pins_right) + 1))) in
       [Call (On ax) "plot"
          [Lst [Num (x + width); Num ((x + width) + 0.2)]; Lst [Num py; Num py]; Str "k-"]
          [("linewidth", Num 1.5)];
        Call (On ax) "text" [Num ((x + width) + 0.25); Num py; Str pin]
          [("fontsize", Num 5); ("ha", Str "left"); ("va", Str "center")]])
       (enumerate pins_right))%list.
Proof.
  unfold generate_schematic.draw_ic_package. cbv zeta.
  apply performs_construct.
  do 2 apply performs_cons.
  apply performs_bind; apply performs_for; intros [i pin];
    apply performs_cons, performs_invoke.
Qed.

Lemma enumerate_length {A : Type} (xs : list A) :
  List.length (enumerate xs) = List.length xs.
Proof.
  unfold enumerate. rewrite length_combine, length_seq. apply Nat.min_id.
Qed.

Lemma enumerate_snd {A : Type} (xs : list A) : map snd (enumerate xs) = xs.
Proof.
  unfold enumerate. generalize 0%nat.
  induction xs as [|x xs IH]; intros n; simpl; [reflexivity|now rewrite IH].
Qed.

Lemma enumerate_bound {A : Type} (xs : list A) (i : nat) (x : A) :
  In (i, x) (enumerate xs) -> (i < List.length xs)%nat.
Proof.
  unfold enumerate. intros H. apply in_combine_l in H. apply in_seq in H. lia.
Qed.

(** [draw_ic_package] issues two calls for the body and two per pin, so an
    empty pin list is fine; the strings it shows are the label, the names of
    the left pins and the names of the right pins, in this order, and it
    plots one stub per pin. *)
Theorem ic_package_calls (ax : handle) (x y width height : Q) (label : string)
  (pins_left pins_right : list string) (inv : invocation) (r : nat -> Q) :
  let tr := run (generate_schematic.draw_ic_package ax x y width height label
                   pins_left pins_right) inv r in
  List.length tr = (2 + 2 * (List.length pins_left + List.length pins_right))%nat /\
  flat_map shown (named "text" (calls tr)) = (label :: pins_left ++ pins_right)%list /\
  List.length (named "plot" (calls tr))
    = (List.length pins_left + List.length pins_right)%nat.
Proof.
  cbv zeta.
  rewrite (performs_calls inv r (draw_ic_package_performs ax x y width height label
             pins_left pins_right)).
  rewrite (performs_run inv r (draw_ic_package_performs ax x y width height label
             pins_left pins_right)).
  rewrite length_map. simpl. unfold named.
  rewrite !filter_app, !flat_map_app, !length_app.
  set (nl := len pins_left). set (nr := len pins_right).
  assert (L : forall (f g : nat -> string -> call) (xs : list (nat * string)),
            (forall i p, method (f i p) = "plot") ->
            (forall i p, method (g i p) = "text") ->
            (forall i p, shown (g i p) = [p]) ->
            List.length (flat_map (fun '(i, p) => [f i p; g i p]) xs)
              = (2 * List.length xs)%nat /\
            flat_map shown
              (filter (fun c => String.eqb (method c) "text")
                 (flat_map (fun '(i, p) => [f i p; g i p]) xs)) = map snd xs /\
            List.length
              (filter (fun c => String.eqb (method c) "plot")
                 (flat_map (fun '(i, p) => [f i p; g i p]) xs)) = List.length xs).
  { intros f g xs Hf Hg Hs. induction xs as [|[i p] xs [IH1 [IH2 IH3]]]; simpl.
    - repeat split.
    - rewrite Hf, Hg. simpl. rewrite Hs, IH1, IH2, IH3. simpl. repeat split. lia. }
  destruct (L (fun i pin =>
              Call (On ax) "plot"
                [Lst [Num (x - 0.2); Num x];
                 Lst [Num ((y + height) - ((Nq i + 1) * (height / (Nq nl + 1))));
                      Num ((y + height) - ((Nq i + 1) * (height / (Nq nl + 1))))];
                 Str "k-"] [("linewidth", Num 1.5)])
             (fun i pin =>
              Call (On ax) "text"
                [Num (x - 0.25);
                 Num ((y + height) - ((Nq i + 1) * (height / (Nq nl + 1)))); Str pin]
                [("fontsize", Num 5); ("ha", Str "right"); ("va", Str "center")])
             (enumerate pins_left)) as [A1 [A2 A3]]; try reflexivity.
  destruct (L (fun i pin =>
              Call (On ax) "plot"
                [Lst [Num (x + width); Num ((x + width) + 0.2)];
                 Lst [Num ((y + height) - ((Nq i + 1) * (height / (Nq nr + 1))));
                      Num ((y + height) - ((Nq i + 1) * (height / (Nq nr + 1))))];
                 Str "k-"] [("linewidth", Num 1.5)])
             (fun i pin =>
              Call (On ax) "text"
                [Num ((x + width) + 0.25);
                 Num ((y + height) - ((Nq i + 1) * (height / (Nq nr + 1)))); Str pin]
                [("fontsize", Num 5); ("ha", Str "left"); ("va", Str "center")])
             (enumerate pins_right)) as [B1 [B2 B3]]; try reflexivity.
  cbv zeta.
  rewrite A1, A2, A3, B1, B2, B3, !enumerate_length, !enumerate_snd.
  repeat split. lia.
Qed.

Lemma Nq_nonneg (n : nat) : 0 <= Nq n.
Proof. unfold Nq. change 0 with (inject_Z 0). rewrite <- Zle_Qle. lia. Qed.

Lemma Nq_lt (i n : nat) : (i < n)%nat -> Nq i < Nq n.
Proof. intros H. unfold Nq. rewrite <- Zlt_Qlt. lia. Qed.

(** Pin [i] of [n], counted from the top, sits strictly inside the height
    of the body. *)
Lemma pin_height_inside (y height : Q) (i n : nat) :
  0 < height -> (i < n)%nat ->
  y < (y + height) - ((Nq i + 1) * (height / (Nq n + 1))) /\
  (y + height) - ((Nq i + 1) * (height / (Nq n + 1))) < y + height.
Proof.
  intros Hh Hi.
  pose proof (Nq_nonneg i) as H0. pose proof (Nq_lt Hi) as H1.
  assert (Hd : 0 < Nq n + 1) by lra.
  assert (Ht : 0 < height / (Nq n + 1)).
  { apply Qlt_shift_div_l; [exact Hd|]. lra. }
  assert (He : height / (Nq n + 1) * (Nq n + 1) == height).
  { field. lra. }
  set (t := height / (Nq n + 1)) in *.
  split; nra.
Qed.

(** For a body of positive height, every pin stub [draw_ic_package] plots is
    a horizontal segment strictly between the bottom and the top of the
    body, and it ends on the body: a left stub runs from [x - 0.2] to the
    left edge [x], a right stub from the right edge [x + width] to
    [x + width + 0.2]. *)
Theorem ic_package_pins_inside (ax : handle) (x y width height : Q) (label : string)
  (pins_left pins_right : list string) (inv : invocation) (r : nat -> Q) :
  0 < height ->
  Forall (fun c => exists py,
            snd (xy_data c) = [py; py] /\ y < py /\ py < y + height /\
            (fst (xy_data c) = [x - 0.2; x] \/
             fst (xy_data c) = [x + width; (x + width) + 0.2]))
    (named "plot"
       (calls (run (generate_schematic.draw_ic_package ax x y width height label
                      pins_left pins_right) inv r))).
Proof.
  intros Hh.
  rewrite (performs_calls inv r (draw_ic_package_performs ax x y width height label
             pins_left pins_right)).
  unfold named. simpl. rewrite filter_app. apply Forall_app.
  split; apply Forall_forall; intros c Hc; apply filter_In in Hc; destruct Hc as [Hc Hm];
    apply in_flat_map in Hc; destruct Hc as [[i pin] [Hi Hc]];
    apply enumerate_bound in Hi;
    (destruct Hc as [Hc|[Hc|[]]]; subst c; [|discriminate Hm]);
    eexists; (split; [reflexivity|]);
    (destruct (pin_height_inside y Hh Hi) as [P1 P2]); auto.
Qed.

Lemma ic_package_pins_inside_witness :
  0 < 1.4 /\
  Forall (fun c => exists py,
            snd (xy_data c) = [py; py] /\ 7.8 < py /\ py < 7.8 + 1.4 /\
            (fst (xy_data c) = [3.5 - 0.2; 3.5] \/
             fst (xy_data c) = [3.5 + 1.5; (3.5 + 1.5) + 0.2]))
    (named "plot"
       (calls (run (generate_schematic.draw_ic_package (Axes 0 0) 3.5 7.8 1.5 1.4 "TC4427"
                      ["IN_A"; "GND"; "IN_B"; "VDD"] ["OUT_A"; "NC"; "OUT_B"; "NC"])
                   plain steady))).
Proof.
  split; [reflexivity|].
  apply (@ic_package_pins_inside (Axes 0 0) 3.5 7.8 1.5 1.4 "TC4427"
           ["IN_A"; "GND"; "IN_B"; "VDD"] ["OUT_A"; "NC"; "OUT_B"; "NC"] plain steady).
  reflexivity.
Defined.

(** *** [draw_resistor] and the other labelled symbols *)

(** [draw_resistor] plots one zigzag of seven points.  A horizontal one
    starts at [(x, y)], runs to [x + width] and stays within 0.1 of the axis
    [y], whatever [height] is; a vertical one starts at [(x, y)], runs to
    [y + height] and stays within 0.15 of the axis [x], whatever [width] is.
    The last point is not back on the axis: it lies 0.1 below it, or 0.15 to
    the left of it. *)
Theorem resistor_zigzag (ax : handle) (x y width height : Q) (label value : string)
  (vertical : bool) (inv : invocation) (r : nat -> Q) :
  exists xs ys,
    map xy_data
      (named "plot"
         (calls (run (generate_schematic.draw_resistor ax x y width height label value
                        vertical) inv r))) = [(xs, ys)] /\
    List.length xs = 7%nat /\ List.length ys = 7%nat /\
    hd 0 xs == x /\ hd 0 ys == y /\
    if vertical then
      last ys 0 == y + height /\ last xs 0 == x - 0.15 /\
      Forall (fun px => Qabs (px - x) <= 0.15) xs
    else
      last xs 0 == x + width /\ last ys 0 == y - 0.1 /\
      Forall (fun py => Qabs (py - y) <= 0.1) ys.
Proof.
  destruct vertical, label as [|a label]; do 2 eexists;
    (split; [evaluate; reflexivity|]);
    (split; [reflexivity|]); (split; [reflexivity|]);
    (split; [simpl; field|]); (split; [simpl; field|]);
    (split; [simpl; field|]); (split; [simpl; field|]);
    repeat constructor; apply Qabs_Qle_condition; split; lra.
Qed.

(** The symbols with an optional label ([draw_resistor], [draw_capacitor],
    [draw_transistor_nmos], [draw_opamp]) and [draw_arrow] do what they do
    without a label and then, when the label is not empty, issue one more
    [text] call on the axes.  Without a label a resistor or a capacitor does
    not show its value either.  [draw_transducer] has no such guard: its
    sixth and last call shows the label even when it is empty. *)
Theorem optional_labels (ax : handle) (x y x2 y2 width height : Q) (label value : string)
  (vertical : bool) (inv : invocation) (r : nat -> Q) :
  let adds_label (m bare : M unit) :=
    exists c,
      run m inv r =
        (run bare inv r ++ (if nonempty label then [Invoke 0 c] else []))%list /\
      target c = On ax /\ method c = "text" in
  adds_label (generate_schematic.draw_resistor ax x y width height label value vertical)
             (generate_schematic.draw_resistor ax x y width height "" "" vertical) /\
  adds_label (generate_schematic.draw_capacitor ax x y label value vertical)
             (generate_schematic.draw_capacitor ax x y "" "" vertical) /\
  adds_label (generate_schematic.draw_transistor_nmos ax x y label)
             (generate_schematic.draw_transistor_nmos ax x y "") /\
  adds_label (generate_schematic.draw_opamp ax x y label)
             (generate_schematic.draw_opamp ax x y "") /\
  adds_label (generate_flowcharts.draw_arrow ax x y x2 y2 label)
             (generate_flowcharts.draw_arrow ax x y x2 y2 "") /\
  exists cs c,
    calls (run (generate_schematic.draw_transducer ax x y label) inv r) = (cs ++ [c])%list /\
    List.length cs = 5%nat /\ method c = "text" /\ shown c = [label].
Proof.
  cbv zeta.
  split; [|split; [|split; [|split; [|split]]]].
  1, 2: destruct vertical, label as [|a label];
    [exists (Call (On ax) "text" [] [])|eexists
    |exists (Call (On ax) "text" [] [])|eexists];
    (split; [evaluate; reflexivity|split; reflexivity]).
  1, 2, 3: destruct label as [|a label];
    [exists (Call (On ax) "text" [] [])|eexists];
    (split; [evaluate; reflexivity|split; reflexivity]).
  eexists [_; _; _; _; _], _. split; [evaluate; reflexivity|]. repeat split.
Qed.

(** *** The shapes of the flowcharts *)

(** Each flowchart shape ([draw_start_end], [draw_process], [draw_decision],
    [draw_io]) adds one patch and one text to the axes; the text is anchored
    at [(x, y)] by its centre in both directions, and the patch is centred
    on [(x, y)] too, whatever its size. *)
Theorem flowchart_shapes_centred (ax : handle) (x y width height size : Q) (text : string)
  (inv : invocation) (r : nat -> Q) :
  let centred (m : M unit) :=
    exists patch k cx cy,
      calls (run m inv r) =
        [Call (On ax) "add_patch" [patch] [];
         Call (On ax) "text" [Num x; Num y; Str text] k] /\
      kwarg "ha" k = Some (Str "center") /\ kwarg "va" k = Some (Str "center") /\
      centre patch = Some (cx, cy) /\ cx == x /\ cy == y in
  centred (generate_flowcharts.draw_start_end ax x y text width height) /\
  centred (generate_flowcharts.draw_process ax x y text width height) /\
  centred (generate_flowcharts.draw_decision ax x y text size) /\
  centred (generate_flowcharts.draw_io ax x y text width height).
Proof.
  cbv zeta.
  split; [|split; [|split]]; do 4 eexists;
    (split; [evaluate; reflexivity|]);
    (split; [reflexivity|]); (split; [reflexivity|]);
    (split; [evaluate; reflexivity|]); split; field.
Qed.

(** ** Failures inside the helpers *)

(** No drawing helper and no procedure handles an exception, whichever of
    its library calls raises it: a method of an axes or of pyplot, a class
    of matplotlib that is instantiated, a function of numpy.  Called on its
    own, with libraries that fail as [f] says, each one performs what it
    performs with unfailing libraries up to the first call that raises,
    that call included, and ends with that call's exception; what the
    figures and the terminal see of it is the part of exactly these actions
    that acts on them. *)
Theorem helpers_propagate_failures (L : library) (f : failures) (ax : handle)
  (x y x2 y2 width height size : Q) (label value text : string) (vertical : bool)
  (pins_left pins_right : list string) (inv : invocation) (r : nat -> Q) :
  let propagates (m : M unit) :=
    full_run_with f m inv r = cut f (full_run m inv r) /\
    run_with f m inv r =
      (filter visible (fst (cut f (full_run m inv r))),
       snd (cut f (full_run m inv r))) in
  propagates (generate_schematic.draw_resistor ax x y width height label value vertical) /\
  propagates (generate_schematic.draw_capacitor ax x y label value vertical) /\
  propagates (generate_schematic.draw_transistor_nmos ax x y label) /\
  propagates (generate_schematic.draw_opamp ax x y label) /\
  propagates (generate_schematic.draw_transducer ax x y label) /\
  propagates (generate_schematic.draw_ic_package ax x y width height label
                pins_left pins_right) /\
  propagates (generate_flowcharts.draw_start_end ax x y text width height) /\
  propagates (generate_flowcharts.draw_process ax x y text width height) /\
  propagates (generate_flowcharts.draw_decision ax x y text size) /\
  propagates (generate_flowcharts.draw_io ax x y text width height) /\
  propagates (generate_flowcharts.draw_arrow ax x y x2 y2 label) /\
  forall p, propagates (body L p).
Proof.
  cbv zeta.
  repeat match goal with |- _ /\ _ => split end; try intros p; try split;
    (apply full_run_with_oblivious || apply run_with_oblivious);
    auto using oblivious_draw_resistor, oblivious_draw_capacitor,
      oblivious_draw_transistor_nmos, oblivious_draw_opamp, oblivious_draw_transducer,
      oblivious_draw_ic_package, oblivious_draw_start_end, oblivious_draw_process,
      oblivious_draw_decision, oblivious_draw_io, oblivious_draw_arrow, oblivious_body.
Qed.

(** Evaluate one term of the goal, leaving the rest as it stands. *)
Ltac evaluate_in t :=
  let v := eval cbv -[Qplus Qminus Qmult Qdiv Qopp Qinv Qmin Qmax Qabs Qcompare Qeq_bool
                      Qle_bool] in t in
  change t with v.

(** ** The block diagram *)

(** Every box of the block diagram is labelled at its centre: each of the
    nine [add_patch] calls is followed by a [text] call whose position is the
    centre of the box just added. *)
Theorem block_diagram_labels_centred (inv : invocation) (r : nat -> Q) :
  let tr := run generate_block_diagram.create_block_diagram inv r in
  List.length (patches_on 0 tr) = 9%nat /\
  Forall2 (fun patch c =>
             method c = "text" /\
             exists cx cy x y s,
               centre patch = Some (cx, cy) /\ args c = [Num x; Num y; Str s] /\
               x == cx /\ y == cy)
          (patches_on 0 tr) (followers "add_patch" (calls tr)).
Proof.
  cbv zeta.
  evaluate_in (patches_on 0 (run generate_block_diagram.create_block_diagram inv r)).
  evaluate_in
    (followers "add_patch" (calls (run generate_block_diagram.create_block_diagram inv r))).
  split; [reflexivity|].
  repeat (constructor;
          [split; [reflexivity|];
           do 5 eexists; split; [evaluate; reflexivity|];
           split; [reflexivity|]; split; vm_compute; reflexivity|]).
  constructor.
Qed.

(** The colour of every box of the block diagram is looked up in [colors]
    under a key the dictionary has, and the legend is complete: the colours
    of its six entries are distinct and are exactly the face colours of the
    eight rounded boxes. *)
Theorem block_diagram_legend_complete (inv : invocation) (r : nat -> Q) :
  let tr := run generate_block_diagram.create_block_diagram inv r in
  let used := face_colours "FancyBboxPatch" (patches_on 0 tr) in
  exists legend,
    map legend_colours (calls_on 0 "legend" tr) = [legend] /\
    List.length used = 8%nat /\ List.length legend = 6%nat /\ NoDup legend /\
    Forall (fun c => In c legend) used /\ Forall (fun c => In c used) legend /\
    Forall (fun c => c <> Str "") used.
Proof.
  cbv zeta. eexists. split; [vm_compute; reflexivity|].
  assert (E : exists used,
    face_colours "FancyBboxPatch"
      (patches_on 0 (run generate_block_diagram.create_block_diagram inv r)) = used)
    by (eexists; reflexivity).
  destruct E as [used E]. rewrite E. revert E. vm_compute. intros E. subst used.
  split; [reflexivity|]. split; [reflexivity|].
  split; [repeat (constructor; [simpl; intuition discriminate|]); constructor|].
  split; [|split];
    repeat (constructor; [first [discriminate
                                |simpl; repeat (first [left; reflexivity|right])]|]);
    constructor.
Qed.

(** ** The charts *)

(** The value labels of the two bar charts follow their bars: for whatever
    position and size the library reports for a bar, the label of bar [k] is
    placed at the middle of the bar's width ([get_x() + get_width() / 2]), 1
    above its top in the rain panel and 200 above it in the cost panel, and
    it shows the [k]-th of the heights that were handed to [bar]. *)
Theorem bar_labels_follow_bars (pi : Q) (reading : handle -> string -> Q)
  (inv : invocation) (r : nat -> Q) :
  let labelled (tr : list action) (a : nat) (lift : Q) (template : string) :=
    exists n bars,
      nth_error tr n = Some (Invoke 0 bars) /\
      target bars = On (Axes 0 a) /\ method bars = "bar" /\
      map args (calls_on a "text" tr) =
        map (fun '(k, v) =>
               [Num (reading (Artist 0 n k) "get_x" + reading (Artist 0 n k) "get_width" / 2);
                Num (reading (Artist 0 n k) "get_height" + lift);
                Fmt template [Num v]])
            (enumerate (snd (xy_data bars))) in
  labelled (run (generate_charts.create_environmental_tests reading) inv r) 0%nat 1 "{acc}%" /\
  labelled (run (generate_charts.create_comparison_chart pi reading) inv r) 3%nat 200
           "₱{cost:,}".
Proof.
  cbv zeta. split.
  - exists 1%nat. eexists. split; [evaluate; reflexivity|].
    split; [reflexivity|]. split; [reflexivity|]. evaluate. reflexivity.
  - exists 16%nat. eexists. split; [evaluate; reflexivity|].
    split; [reflexivity|]. split; [reflexivity|]. evaluate. reflexivity.
Qed.

(** ** The legend of the power panel *)

(** In the power panel of [create_environmental_tests] the legend is built
    from the two lines the [plot] calls returned, the one on the panel's axes
    and the one on its twin, in this order, and it names each line as the
    [label] keyword of its [plot] call does. *)
Theorem legend_names_its_lines (reading : handle -> string -> Q) (inv : invocation)
  (r : nat -> Q) :
  let tr := run (generate_charts.create_environmental_tests reading) inv r in
  exists n1 n2 plot1 plot2 name1 name2,
    nth_error tr n1 = Some (Invoke 0 plot1) /\
    nth_error tr n2 = Some (Invoke 0 plot2) /\
    target plot1 = On (Axes 0 3) /\ method plot1 = "plot" /\
    target plot2 = On (Axes 0 4) /\ method plot2 = "plot" /\
    kwarg "label" (kw plot1) = Some (Str name1) /\
    kwarg "label" (kw plot2) = Some (Str name2) /\
    map args (calls_on 3 "legend" tr) =
      [[Lst [Ref (Artist 0 n1 0); Ref (Artist 0 n2 0)]; Lst [Str name1; Str name2]]] /\
    List.length (calls_on 3 "twinx" tr) = 1%nat.
Proof.
  cbv zeta.
  assert (E : exists tr,
    run (generate_charts.create_environmental_tests reading) inv r = tr)
    by (eexists; reflexivity).
  destruct E as [tr E]. rewrite E. revert E. evaluate. intros E. subst tr.
  exists 46%nat, 47%nat. do 4 eexists. repeat split.
Qed.

(** ** The data of the plotting calls *)

(** Whatever the random draws and whatever the library computes, every
    [plot], [scatter], [bar], [barh], [fill] and [fill_between] call of every
    procedure is handed sequences of one length: x and y (and z) data, and for
    the bar charts the list of colours, agree.  There are 145 such calls with
    at least two sequences. *)
Theorem plot_data_agrees (L : library) (inv : invocation) (r : nat -> Q) :
  (forall p, forallb data_agrees (plotted (run (body L p) inv r)) = true) /\
  List.length
    (flat_map (fun p => plotted (run (body L p) inv r))
       [CreateBlockDiagram; CreateAccuracyChart; CreateEnvironmentalTests;
        CreateComparisonChart; CreateEnclosure2d; CreateEnclosure3d; CreateMountingDiagram;
        CreateMainFlowchart; CreateAdaptiveFlowchart; CreateOutlierFlowchart;
        CreatePcbLayout; CreateSchematic]) = 145%nat.
Proof.
  split; [intros p; destruct p|]; evaluate; reflexivity.
Qed.

(** Tick labels match ticks: every [set_xticklabels] call comes right after
    a [set_xticks] call on the same axes with as many positions as there are
    labels: ten and six in [create_accuracy_chart], six in
    [create_comparison_chart], where the closing angle is dropped first. *)
Theorem tick_labels_match_ticks (pi : Q) (reading : handle -> string -> Q)
  (inv : invocation) (r : nat -> Q) :
  let matched (m : M unit) (counts : list nat) :=
    let cs := calls (run m inv r) in
    followers "set_xticks" cs = named "set_xticklabels" cs /\
    map (fun c => flat_map sequence_length (args c)) (named "set_xticks" cs)
      = map (fun n => [n]) counts /\
    map (fun c => flat_map sequence_length (args c)) (named "set_xticklabels" cs)
      = map (fun n => [n]) counts /\
    map target (named "set_xticks" cs) = map target (named "set_xticklabels" cs) in
  matched generate_charts.create_accuracy_chart [10; 6]%nat /\
  matched (generate_charts.create_comparison_chart pi reading) [6]%nat.
Proof. cbv zeta. split; evaluate; repeat split. Qed.

(** ** The enclosure in 3D *)

(** The 3D view gets exactly three polygon collections: the box (five
    faces), the cone (five faces) and the sensor opening (one face), every
    face with four vertices inside the bounding box of the enclosure body
    ([-2, 2] x [-2, 2] x [-2.5, 1.5]).  The corners of the four mounting
    brackets, which the loop of lines 238 to 249 computes next to the box
    and up to height 1.8, are handed to no library call: the loop performs
    no call at all (in everything the procedure performs, the second
    [add_collection3d] is followed at once by the making of the third
    collection), and none of its 32 corners is among the 88 points in space
    that the arguments of all calls hold. *)
Theorem enclosure_3d_collections (pi : Q) (cos sin : Q -> Q) (inv : invocation)
  (r : nat -> Q) :
  let everything :=
    calls (full_run (generate_enclosure.create_enclosure_3d pi cos sin) inv r) in
  let cols := collections (run (generate_enclosure.create_enclosure_3d pi cos sin) inv r) in
  map (fun c => (List.length (faces c), facecolor c)) cols =
    [(5%nat, Some (Str "#4a4a4a")); (5%nat, Some (Str "#5a5a5a"));
     (1%nat, Some (Str "black"))] /\
  Forall (fun c =>
    Forall (fun face =>
      List.length face = 4%nat /\
      Forall (fun v => exists x y z,
                v = [x; y; z] /\ -2 <= x /\ x <= 2 /\ -2 <= y /\ y <= 2 /\
                -2.5 <= z /\ z <= 1.5) face) (faces c)) cols /\
  map method everything =
    ["figure"; "add_subplot";
     "Poly3DCollection"; "add_collection3d"; "Poly3DCollection"; "add_collection3d";
     "Poly3DCollection"; "add_collection3d";
     "np.linspace";
     "np.cos"; "np.sin"; "np.full_like"; "plot"; "np.cos"; "np.sin"; "np.full_like"; "plot";
     "np.cos"; "np.sin"; "np.full_like"; "plot"; "np.cos"; "np.sin"; "np.full_like"; "plot";
     "np.linspace"; "np.cos"; "np.sin"; "np.full_like"; "plot";
     "text"; "text"; "text"; "set_xlabel"; "set_ylabel"; "set_zlabel"; "set_title";
     "view_init"; "set_xlim"; "set_ylim"; "set_zlim"; "tight_layout"; "savefig"; "savefig"] /\
  List.length bracket_corners = 32%nat /\
  List.length (flat_map vertices_handed everything) = 88%nat /\
  forallb (fun corner =>
             negb (existsb (same_vertex corner) (flat_map vertices_handed everything)))
          bracket_corners = true.
Proof.
  cbv zeta.
  assert (E : exists cs,
    collections (run (generate_enclosure.create_enclosure_3d pi cos sin) inv r) = cs)
    by (eexists; reflexivity).
  destruct E as [cs E]. rewrite E. revert E. evaluate. intros E. subst cs.
  split; [reflexivity|].
  split.
  { repeat (constructor; try reflexivity);
      do 3 eexists; (split; [reflexivity|]); repeat split; discriminate. }
  split; [reflexivity|].
  split; [reflexivity|]. split; [reflexivity|].
  vm_compute. reflexivity.
Qed.

Lemma images_of_angles (f : Q -> Q) (g h : Q -> Q) (angles : list Q) :
  (forall t, g (f t) == h t) ->
  Forall2 (fun x t => x == h t) (map g (map f angles)) angles.
Proof.
  intros H. induction angles as [|t angles IH]; simpl; constructor; [apply H|exact IH].
Qed.

Lemma points_near_circle (cos sin gx gy : Q -> Q) (radius cx eps : Q) (theta : list Q) :
  Forall (fun t => Qabs ((gx (cos t) - cx) * (gx (cos t) - cx) + gy (sin t) * gy (sin t)
                         - radius * radius) <= radius * radius * eps) theta ->
  Forall2 (fun x y => Qabs ((x - cx) * (x - cx) + y * y - radius * radius)
                        <= radius * radius * eps)
          (map gx (map cos theta)) (map gy (map sin theta)).
Proof.
  intros H. induction H as [|t theta Ht H IH]; simpl; constructor; [exact Ht|exact IH].
Qed.

Lemma full_like_constant (a : list Q) (fill_value depth : Q) :
  fill_value == depth -> Forall (fun z => z == depth) (np_full_like a fill_value).
Proof.
  intros H. unfold np_full_like. rewrite Forall_map. apply Forall_forall. now intros.
Qed.

(** A scaled point of the library's circle is as far from the circle of
    radius [radius] as the library's cosine and sine are inexact. *)
Lemma scaled_point_near_circle (c s radius eps : Q) :
  Qabs (c * c + s * s - 1) <= eps ->
  Qabs (radius * radius * (c * c + s * s - 1)) <= radius * radius * eps.
Proof.
  intros H. rewrite Qabs_Qmult.
  assert (P : 0 <= radius * radius) by nra.
  rewrite (Qabs_pos _ P).
  rewrite (Qmult_comm (radius * radius) (Qabs _)), (Qmult_comm (radius * radius) eps).
  now apply Qmult_le_compat_r.
Qed.

(** [np.linspace(0, 2 * pi, n)] for the two lengths the procedure uses. *)
Lemma linspace_50 (pi : Q) : Forall2 Qeq (np_linspace 0 (2 * pi) 50 true) (full_turn pi 50).
Proof.
  evaluate_in (np_linspace 0 (2 * pi) 50 true). evaluate_in (full_turn pi 50).
  repeat (apply Forall2_cons; [field; discriminate|]). apply Forall2_nil.
Qed.

Lemma step_within (pi i n : Q) :
  0 <= pi -> 0 <= i -> i <= n -> 0 < n ->
  0 <= i * ((2 * pi - 0) / n) + 0 /\ i * ((2 * pi - 0) / n) + 0 <= 2 * pi.
Proof.
  intros P I N Z.
  assert (D : n * ((2 * pi - 0) / n) == 2 * pi) by (field; lra).
  assert (G : 0 <= (2 * pi - 0) / n).
  { apply Qle_shift_div_l; [exact Z|lra]. }
  split; nra.
Qed.

(** Its angles are within the full turn. *)
Lemma linspace_50_within (pi : Q) :
  0 <= pi -> Forall (fun t => 0 <= t /\ t <= 2 * pi) (np_linspace 0 (2 * pi) 50 true).
Proof.
  intros H. evaluate_in (np_linspace 0 (2 * pi) 50 true).
  repeat (apply Forall_cons; [first [apply step_within; lra|split; lra]|]).
  apply Forall_nil.
Qed.

Lemma linspace_20_within (pi : Q) :
  0 <= pi -> Forall (fun t => 0 <= t /\ t <= 2 * pi) (np_linspace 0 (2 * pi) 20 true).
Proof.
  intros H. evaluate_in (np_linspace 0 (2 * pi) 20 true).
  repeat (apply Forall_cons; [first [apply step_within; lra|split; lra]|]).
  apply Forall_nil.
Qed.

Lemma linspace_20 (pi : Q) : Forall2 Qeq (np_linspace 0 (2 * pi) 20 true) (full_turn pi 20).
Proof.
  evaluate_in (np_linspace 0 (2 * pi) 20 true). evaluate_in (full_turn pi 20).
  repeat (apply Forall2_cons; [field; discriminate|]). apply Forall2_nil.
Qed.

(** The four sound waves of the 3D view are rings of 50 points about the
    axis of the sensor, with the radius 0.8, 1.2, 1.6 and 2.0, each at the
    constant depth [-2.5 - 0.5 - 0.3 * radius] below the opening, and the
    cable gland is a ring of 20 points of radius 0.2 about [(2.15, 0)] at
    half the height of the box.  The points of a ring go once around: the
    point number [i] lies in the direction of the angle [i * 2 * pi / (n - 1)].
    They are on the circle as exactly as the library's cosine and sine are:
    when [cos² + sin²] is within [eps] of 1 on the angles of the full turn
    (for numpy [eps] is of the size of the rounding error), the squared
    distance of every point from the axis is within the share [eps] of the
    squared radius. *)
Theorem enclosure_3d_rings (pi : Q) (cos sin : Q -> Q) (eps : Q) (inv : invocation)
  (r : nat -> Q) :
  0 <= pi ->
  (forall t, 0 <= t -> t <= 2 * pi ->
             Qabs (cos t * cos t + sin t * sin t - 1) <= eps) ->
  exists w1 w2 w3 w4 cable,
    named "plot" (calls (run (generate_enclosure.create_enclosure_3d pi cos sin) inv r))
      = [w1; w2; w3; w4; cable] /\
    on_ring pi cos sin eps 50 0.8 0 (-2.5 - 0.5 - 0.3 * 0.8) w1 /\
    on_ring pi cos sin eps 50 1.2 0 (-2.5 - 0.5 - 0.3 * 1.2) w2 /\
    on_ring pi cos sin eps 50 1.6 0 (-2.5 - 0.5 - 0.3 * 1.6) w3 /\
    on_ring pi cos sin eps 50 2.0 0 (-2.5 - 0.5 - 0.3 * 2.0) w4 /\
    on_ring pi cos sin eps 20 0.2 2.15 0.75 cable.
Proof.
  intros Hpi H.
  pose (wave := fun radius : Q =>
    Call (On (Axes 0 0)) "plot"
      [Arr (map (fun c => radius * c) (map cos (np_linspace 0 (2 * pi) 50 true)));
       Arr (map (fun s => radius * s) (map sin (np_linspace 0 (2 * pi) 50 true)));
       Arr (np_full_like
              (map (fun c => radius * c) (map cos (np_linspace 0 (2 * pi) 50 true)))
              (((- 2.5) - 0.5) - (radius * 0.3)));
       Str "b--"] [("alpha", Num 0.4); ("linewidth", Num 1)]).
  exists (wave 0.8), (wave 1.2), (wave 1.6), (wave 2.0).
  exists (Call (On (Axes 0 0)) "plot"
      [Arr (map (fun c => ((0.2 * c) + (4 / 2)) + 0.15)
              (map cos (np_linspace 0 (2 * pi) 20 true)));
       Arr (map (fun s => 0.2 * s) (map sin (np_linspace 0 (2 * pi) 20 true)));
       Arr (np_full_like
              (map (fun c => ((0.2 * c) + (4 / 2)) + 0.15)
                 (map cos (np_linspace 0 (2 * pi) 20 true))) (1.5 / 2));
       Str "gray"] [("linewidth", Num 3)]).
  split; [subst wave; evaluate; reflexivity|].
  assert (W : forall radius depth,
    ((- 2.5) - 0.5) - (radius * 0.3) == depth ->
    on_ring pi cos sin eps 50 radius 0 depth (wave radius)).
  { intros radius depth Hd. unfold on_ring, wave, xyz_data, numbers, nth, args.
    exists (np_linspace 0 (2 * pi) 50 true).
    split; [apply linspace_50|].
    split; [apply images_of_angles; intros t; ring|].
    split; [apply images_of_angles; intros t; ring|].
    split; [unfold np_full_like; rewrite !length_map; reflexivity|].
    split; [now apply full_like_constant|].
    apply (points_near_circle cos sin (fun c => radius * c) (fun s => radius * s)).
    eapply Forall_impl; [|exact (linspace_50_within Hpi)]. intros t [T0 T1].
    assert (E : (radius * cos t - 0) * (radius * cos t - 0)
                + radius * sin t * (radius * sin t) - radius * radius
                == radius * radius * (cos t * cos t + sin t * sin t - 1)) by ring.
    rewrite E. apply scaled_point_near_circle, H; assumption. }
  split; [apply W; reflexivity|]. split; [apply W; reflexivity|].
  split; [apply W; reflexivity|]. split; [apply W; reflexivity|].
  unfold on_ring, xyz_data, numbers, nth, args.
  exists (np_linspace 0 (2 * pi) 20 true).
  split; [apply linspace_20|].
  split; [apply images_of_angles; intros t; field|].
  split; [apply images_of_angles; intros t; ring|].
  split; [unfold np_full_like; rewrite !length_map; reflexivity|].
  split; [apply full_like_constant; reflexivity|].
  apply (points_near_circle cos sin (fun c => ((0.2 * c) + (4 / 2)) + 0.15)
           (fun s => 0.2 * s)).
  eapply Forall_impl; [|exact (linspace_20_within Hpi)]. intros t [T0 T1].
  assert (E : (0.2 * cos t + 4 / 2 + 0.15 - 2.15) * (0.2 * cos t + 4 / 2 + 0.15 - 2.15)
              + 0.2 * sin t * (0.2 * sin t) - 0.2 * 0.2
              == 0.2 * 0.2 * (cos t * cos t + sin t * sin t - 1)) by field.
  rewrite E. apply scaled_point_near_circle, H; assumption.
Qed.

Lemma rational_circle (t : Q) :
  Qabs (rational_cos t * rational_cos t + rational_sin t * rational_sin t - 1) <= 0.
Proof.
  assert (P : ~ 1 + t * t == 0) by nra.
  assert (E : rational_cos t * rational_cos t + rational_sin t * rational_sin t - 1 == 0)
    by (unfold rational_cos, rational_sin; field; exact P).
  rewrite E. discriminate.
Qed.

(** With a cosine and a sine that are exact, the rings are on their
    circles. *)
Lemma enclosure_3d_rings_witness :
  0 <= 3.14 /\
  (forall t, 0 <= t -> t <= 2 * 3.14 ->
             Qabs (rational_cos t * rational_cos t + rational_sin t * rational_sin t - 1)
             <= 0) /\
  exists w1 w2 w3 w4 cable,
    named "plot"
      (calls (run (generate_enclosure.create_enclosure_3d 3.14 rational_cos rational_sin)
                plain steady))
      = [w1; w2; w3; w4; cable] /\
    on_ring 3.14 rational_cos rational_sin 0 50 0.8 0 (-2.5 - 0.5 - 0.3 * 0.8) w1 /\
    on_ring 3.14 rational_cos rational_sin 0 50 1.2 0 (-2.5 - 0.5 - 0.3 * 1.2) w2 /\
    on_ring 3.14 rational_cos rational_sin 0 50 1.6 0 (-2.5 - 0.5 - 0.3 * 1.6) w3 /\
    on_ring 3.14 rational_cos rational_sin 0 50 2.0 0 (-2.5 - 0.5 - 0.3 * 2.0) w4 /\
    on_ring 3.14 rational_cos rational_sin 0 20 0.2 2.15 0.75 cable.
Proof.
  split; [discriminate|].
  split; [intros t _ _; exact (rational_circle t)|].
  apply (@enclosure_3d_rings 3.14 rational_cos rational_sin 0 plain steady).
  - discriminate.
  - intros t _ _. exact (rational_circle t).
Defined.

(** With this cosine no two points of a ring have the same abscissa: a ring
    is not one point plotted many times. *)
Example rings_of_distinct_points :
  map (fun c => distinct (fst (fst (xyz_data c))))
    (named "plot"
       (calls (run (generate_enclosure.create_enclosure_3d 3.14 rational_cos rational_sin)
                 plain steady)))
  = [true; true; true; true; true].
Proof. vm_compute. reflexivity. Qed.

(** ** The two layers of the PCB *)

(** The bottom layer repeats the top layer where it refers to it: its board
    outline and its four mounting holes are the patches of the top layer,
    and each of its six dashed reference outlines (the two transducers, the
    four ICs drawn by the loop over [ic_outline]) has the position and the
    size of a component body of the top layer. *)
Theorem pcb_layers_agree (inv : invocation) (r : nat -> Q) :
  let tr := run generate_pcb.create_pcb_layout inv r in
  let top := patches_on 0 tr in
  let bottom := patches_on 1 tr in
  Forall (fun patch => In patch top) (firstn 5 bottom) /\
  List.length (filter dashed bottom) = 6%nat /\
  Forall (fun patch => In (extent patch) (map extent top)) (filter dashed bottom).
Proof.
  cbv zeta.
  assert (E : exists top bottom,
    patches_on 0 (run generate_pcb.create_pcb_layout inv r) = top /\
    patches_on 1 (run generate_pcb.create_pcb_layout inv r) = bottom)
    by (do 2 eexists; split; reflexivity).
  destruct E as [top [bottom [T B]]]. rewrite T, B. revert T B.
  vm_compute. intros T B. subst top bottom.
  split; [|split; [reflexivity|]];
    repeat (constructor; [simpl; repeat (first [left; reflexivity|right])|]);
    constructor.
Qed.

(** ** Arrows of the flowcharts *)

(** [draw_arrow] draws one arrow from [(x1, y1)] to [(x2, y2)], also when
    the two points are the same.  Three arrows of the main flowchart and one
    of the outlier flowchart are such arrows without length: the ones into
    the first decision (lines 84 and 281) and the two labelled YES and NO
    that leave the last decision (lines 138 and 141).  The adaptive
    flowchart has none. *)
Theorem arrows_without_length (L : library) (ax : handle) (x y : Q) (label : string)
  (inv : invocation) (r : nat -> Q) :
  map degenerate
    (named "annotate" (calls (run (generate_flowcharts.draw_arrow ax x y x y label) inv r)))
    = [true] /\
  map (fun p =>
         flat_map arrow_ends
           (filter degenerate (named "annotate" (calls (run (body L p) inv r)))))
      [CreateMainFlowchart; CreateAdaptiveFlowchart; CreateOutlierFlowchart] =
    [[((3, 8.6), (3, 8.6)); ((0.7, 1.8), (0.7, 1.8)); ((-1.7, 1.8), (-1.7, 1.8))];
     [];
     [((3, 4.7), (3, 4.7))]].
Proof.
  split.
  - destruct label; evaluate; rewrite !Qeq_bool_refl; reflexivity.
  - vm_compute. reflexivity.
Qed.

(** ** The save options *)

(** Every procedure tightens the layout once, immediately before its first
    export, and exports the [.png] and the [.pdf] with the same options, the
    resolution of the [.png] apart: a tight bounding box and a face colour,
    white for every figure but the PCB layout. *)
Theorem save_options_agree (L : library) (p : procedure) (inv : invocation)
  (r : nat -> Q) :
  exists draws options,
    calls (run (body L p) inv r) =
      (draws ++
       [Call Pyplot "tight_layout" [] [];
        Call Pyplot "savefig" [Str (png p)] (("dpi", Num 300) :: options);
        Call Pyplot "savefig" [Str (pdf p)] options])%list /\
    named "tight_layout" draws = [] /\
    kwarg "bbox_inches" options = Some (Str "tight") /\
    kwarg "facecolor" options =
      Some (Str (match p with CreatePcbLayout => "#2d2d2d" | _ => "white" end)) /\
    kwarg "dpi" options = None.
Proof.
  exists (removelast (removelast (removelast (calls (run (body L p) inv r))))).
  destruct p; eexists; evaluate; repeat split.
Qed.

(** ** Patches and axis limits *)

(** Of the 216 patches the eight diagram procedures add, one sticks out of
    the limits set on its axes: the process box [draw_process(ax, -2.5, 1.8,
    ...)] of the main flowchart (line 140) covers x from -3.75 to -1.25,
    while the x limits are set to [-2, 8].  Every other patch lies within
    the limits of its axes, the rounded boxes even with a padding of 0.05,
    the largest one a box style of the scripts asks for. *)
Theorem patches_within_limits (L : library) (inv : invocation) (r : nat -> Q) :
  let diagrams :=
    [CreateBlockDiagram; CreateAdaptiveFlowchart; CreateOutlierFlowchart; CreatePcbLayout;
     CreateSchematic; CreateEnclosure2d; CreateMountingDiagram] in
  let main := run (body L CreateMainFlowchart) inv r in
  Forall (fun p => sticks_out 0.05 (run (body L p) inv r) = []) diagrams /\
  List.length
    (flat_map (fun p => named "add_patch" (calls (run (body L p) inv r)))
       (CreateMainFlowchart :: diagrams)) = 216%nat /\
  limits "set_xlim" 0 main = [(-2, 8)] /\
  exists box x0 x1 ys,
    sticks_out 0 main = [box] /\ sticks_out 0.05 main = [box] /\
    bounds 0 box = [((x0, x1), ys)] /\ x0 == -3.75 /\ x1 == -1.25.
Proof.
  cbv zeta. split; [repeat constructor; vm_compute; reflexivity|].
  split; [vm_compute; reflexivity|]. split; [vm_compute; reflexivity|].
  do 4 eexists. split; [vm_compute; reflexivity|].
  split; [vm_compute; reflexivity|].
  split; [vm_compute; reflexivity|]. split; vm_compute; reflexivity.
Qed.

(** ** The process after a script *)

(** No script closes a figure: when a script has run, pyplot holds one open
    figure per procedure.  Every export saves the figure that the procedure
    issuing it has opened, namely the figure that is current at that time. *)
Theorem figures_stay_open (L : library) (s : script) (inv : invocation) (r : nat -> Q) :
  let tr := run (execute L s) inv r in
  figures (final_state (execute L s) inv r) = List.length (procedures s) /\
  exported_figures tr = flat_map (fun i => [i; i]) (seq 0 (List.length (procedures s))) /\
  named "close" (calls tr) = [].
Proof. destruct s; evaluate; repeat split. Qed.

(** The draws a procedure takes from numpy's global generator:
    [create_accuracy_chart] takes ten (and plots none of them),
    [create_environmental_tests] takes 25, the other procedures take none.
    So after [generate_charts.py] the generator is 35 draws further, and
    after any other script it is where it was. *)
Theorem draws_taken (L : library) (inv : invocation) (r : nat -> Q) (i : nat) :
  (forall p,
     rng (final_state (body L p) inv r) i =
     r (match p with
        | CreateAccuracyChart => 10 + i
        | CreateEnvironmentalTests => 25 + i
        | _ => i
        end)%nat) /\
  (forall s,
     rng (final_state (execute L s) inv r) i =
     r (match s with GenerateCharts => 35 + i | _ => i end)%nat).
Proof. split; [intros p; destruct p|intros s; destruct s]; reflexivity. Qed.

(** ** Failures and the files written *)

Lemma externals_app (l1 l2 : list action) :
  externals (l1 ++ l2) = (externals l1 ++ externals l2)%list.
Proof. unfold externals. now rewrite map_app, filter_app. Qed.

(** The effects of the beginning of a run are a beginning of its effects. *)
Lemma externals_firstn (k : nat) (tr : list action) :
  exists n, externals (firstn k tr) = firstn n (externals tr) /\
            (n <= List.length (externals tr))%nat.
Proof.
  revert k. induction tr as [|a tr IH]; intros k.
  - exists 0%nat. now rewrite firstn_nil.
  - destruct k as [|k]; [exists 0%nat; split; [reflexivity|lia]|].
    destruct (IH k) as [n [E B]]. unfold externals in *. simpl.
    destruct (is_external (effect_of a)); simpl.
    + exists (S n). simpl. split; [now rewrite E|lia].
    + exists n. split; [exact E|exact B].
Qed.

(** The last thing a script performs is the status line of its last
    procedure. *)
Lemma script_ends_with_status (L : library) (s : script) (inv : invocation)
  (r : nat -> Q) :
  exists tr line, full_run (execute L s) inv r = (tr ++ [Output line])%list.
Proof.
  exists (removelast (full_run (execute L s) inv r)).
  exists (message (last (procedures s) CreateBlockDiagram)).
  assert (E : last (full_run (execute L s) inv r) (Output "") =
              Output (message (last (procedures s) CreateBlockDiagram)))
    by (destruct s; evaluate; reflexivity).
  rewrite <- E. apply app_removelast_last.
  intros N. rewrite N in E. destruct s; discriminate E.
Qed.

(** Making objects and computing arrays has no effect outside the
    process. *)
Lemma externals_of_everything (L : library) (s : script) (inv : invocation)
  (r : nat -> Q) :
  externals (full_run (execute L s) inv r) =
  flat_map (fun p => [WritesFile (png p); WritesFile (pdf p); WritesStdout (message p)])
           (procedures s).
Proof. destruct s; vm_compute; reflexivity. Qed.

(** The procedures of a script take turns: whatever one of them performs
    acts on the figure it opened, and the next one opens its figure after
    the status line of this one. *)
Lemma script_goes_in_turn (L : library) (s : script) (inv : invocation) (r : nat -> Q) :
  in_turn 0 (full_run (execute L s) inv r) = true.
Proof. destruct s; vm_compute; reflexivity. Qed.

Lemma in_turn_beginning (tr : list action) (printed k : nat) :
  in_turn printed tr = true ->
  Forall (fun a => forall g, acts_on a = Some g ->
                             (g <= printed + lines_printed (firstn k tr))%nat)
         (firstn k tr).
Proof.
  revert printed k. induction tr as [|a tr IH]; intros printed k H.
  - rewrite firstn_nil. constructor.
  - destruct k as [|k]; [constructor|]. simpl in H.
    destruct a as [cur c|line].
    + apply andb_prop in H. destruct H as [H1 H2]. apply Nat.leb_le in H1.
      change (firstn (S k) (Invoke cur c :: tr)) with (Invoke cur c :: firstn k tr).
      change (lines_printed (Invoke cur c :: firstn k tr))
        with (lines_printed (firstn k tr)).
      constructor.
      * intros g G. simpl in G. inversion G; subst. lia.
      * exact (IH printed k H2).
    + change (firstn (S k) (Output line :: tr)) with (Output line :: firstn k tr).
      change (lines_printed (Output line :: firstn k tr))
        with (S (lines_printed (firstn k tr))).
      constructor.
      * intros g G. discriminate G.
      * specialize (IH (S printed) k H).
        eapply Forall_impl; [|exact IH]. intros a Ha g G. specialize (Ha g G). lia.
Qed.

Lemma firstn_snoc {A : Type} (l : list A) (m : nat) (x : A) :
  nth_error l m = Some x -> firstn (S m) l = (firstn m l ++ [x])%list.
Proof.
  revert m. induction l as [|a l IH]; intros [|m] H; simpl in *; try discriminate.
  - now inversion H.
  - now rewrite (IH m H).
Qed.

(** Whichever library calls fail (methods of pyplot and of the axes, classes
    that are instantiated, functions of numpy), a script performs a
    beginning of what it performs when nothing fails, and nothing else: it
    stops at the first call that raises.  So no call of the same procedure
    and no later procedure comes after it: every action performed acts on a
    figure of a procedure that printed its status line, or on the figure of
    the one procedure that did not.  Of the effects outside the process,
    those took place whose call returned: a beginning of the effects of the
    unfailing run, per procedure, in order, the [.png], the [.pdf], the
    status line.  So a status line is printed only after both files of its
    figure were saved, and a run that was aborted has not printed its last
    status line. *)
Theorem failures_keep_the_order (L : library) (s : script) (f : failures)
  (inv : invocation) (r : nat -> Q) :
  let normal := full_run (execute L s) inv r in
  let performed := fst (full_run_with f (execute L s) inv r) in
  let full :=
    flat_map (fun p => [WritesFile (png p); WritesFile (pdf p); WritesStdout (message p)])
             (procedures s) in
  (exists k, performed = firstn k normal) /\
  Forall (fun a => forall g, acts_on a = Some g -> (g <= lines_printed performed)%nat)
         performed /\
  run_with f (execute L s) inv r =
    (filter visible performed, snd (full_run_with f (execute L s) inv r)) /\
  match snd (full_run_with f (execute L s) inv r) with
  | Finished => performed = normal /\ externals performed = full
  | Aborted e =>
      exists returned cur c n,
        performed = (returned ++ [Invoke cur c])%list /\
        f (List.length returned) c = Some e /\
        (forall i cur' c', nth_error returned i = Some (Invoke cur' c') -> f i c' = None) /\
        externals returned = firstn n full /\
        (n < List.length full)%nat
  end.
Proof.
  cbv zeta. rewrite run_with_visible.
  rewrite (full_run_with_oblivious f inv r (oblivious_execute L s)).
  rewrite <- (externals_of_everything L s inv r).
  pose proof (script_goes_in_turn L s inv r) as T.
  destruct (script_ends_with_status L s inv r) as [tr [line E]].
  revert T. rewrite E. intros T. unfold cut.
  destruct (first_failure f 0 (tr ++ [Output line])) as [[m e]|] eqn:F; cbn [fst snd].
  - split; [now exists (S m)|].
    split; [exact (in_turn_beginning _ _ (S m) T)|].
    split; [reflexivity|].
    destruct (first_failure_spec _ _ F) as [[cur [c [N R]]] B].
    assert (K : (m < List.length tr)%nat).
    { destruct (Nat.lt_ge_cases m (List.length tr)) as [H|H]; [exact H|].
      assert (X : (m < List.length (tr ++ [Output line]))%nat)
        by (apply nth_error_Some; congruence).
      rewrite length_app in X. simpl in X.
      replace m with (List.length tr) in N by lia.
      rewrite nth_error_app2, Nat.sub_diag in N by lia. discriminate N. }
    assert (D : firstn m (tr ++ [Output line]) = firstn m tr).
    { rewrite firstn_app. replace (m - List.length tr)%nat with 0%nat by lia.
      now rewrite firstn_O, app_nil_r. }
    destruct (externals_firstn m tr) as [n [X Y]].
    exists (firstn m tr), cur, c, n.
    assert (Len : List.length (firstn m tr) = m) by (rewrite length_firstn; lia).
    split; [rewrite (firstn_snoc _ _ N); now rewrite D|].
    split; [now rewrite Len|].
    split.
    { intros i cur' c' Hi.
      assert (I : (i < m)%nat).
      { rewrite <- Len. apply nth_error_Some. congruence. }
      apply (B i cur' c' I).
      rewrite nth_error_app1 by lia.
      now rewrite nth_error_firstn in Hi; destruct (i <? m)%nat eqn:Q;
        [|apply Nat.ltb_ge in Q; lia]. }
    split.
    { rewrite X, externals_app, firstn_app.
      replace (n - List.length (externals tr))%nat with 0%nat by lia.
      now rewrite firstn_O, app_nil_r. }
    rewrite externals_app, length_app. simpl. lia.
  - split; [exists (List.length (tr ++ [Output line])); now rewrite firstn_all|].
    split.
    { pose proof (in_turn_beginning _ _ (List.length (tr ++ [Output line])) T) as G.
      now rewrite firstn_all in G. }
    split; [reflexivity|]. split; reflexivity.
Qed.

(** When the class [Circle] cannot be instantiated, [generate_enclosure.py]
    stops in its first procedure, before the first circle is drawn: it has
    written no file and printed nothing, and it has touched no figure but
    the first. *)
Example failing_circle_stops_enclosure :
  let run := full_run_with (raising "Circle" (Raised "TypeError" "bad radius"))
               (execute stand_in GenerateEnclosure) plain steady in
  snd run = Aborted (Raised "TypeError" "bad radius") /\
  option_map (fun a => match a with Invoke _ c => method c | Output _ => "" end)
    (nth_error (fst run) (List.length (fst run) - 1)) = Some "Circle" /\
  (0 < List.length (removelast (fst run)))%nat /\
  externals (removelast (fst run)) = [] /\
  flat_map (fun a => match acts_on a with Some g => [g] | None => [] end) (fst run)
    = repeat 0%nat (List.length (fst run)).
Proof. vm_compute. repeat split. lia. Qed.

(** ** An output directory that cannot be written *)

Lemma first_failure_ext (f g : failures) (n : nat) (tr : list action) :
  (forall n c, f n c = g n c) -> first_failure f n tr = first_failure g n tr.
Proof.
  intros H. revert n. induction tr as [|a tr IH]; intros n; simpl; [reflexivity|].
  destruct a as [cur c|line]; [|apply IH]. rewrite H. destruct (g n c); [reflexivity|apply IH].
Qed.

(** The scripts do not create their output directory.  When every [savefig]
    raises, as it does when the directory is missing, a script stops at the
    first one with that exception: it has drawn its first figure, it has not
    written the [.pdf] of it, it has not run its other procedures, and it
    has printed nothing. *)
Theorem unwritable_directory (L : library) (s : script) (f : failures) (e : exn)
  (inv : invocation) (r : nat -> Q) :
  saving_fails e f ->
  exists p rest draws c,
    procedures s = p :: rest /\
    run_with f (execute L s) inv r = ((draws ++ [Invoke 0 c])%list, Aborted e) /\
    firstn (S (List.length draws)) (run (body L p) inv r) = (draws ++ [Invoke 0 c])%list /\
    target c = Pyplot /\ method c = "savefig" /\ args c = [Str (png p)] /\
    externals draws = [].
Proof.
  intros H.
  rewrite (run_with_oblivious f inv r (oblivious_execute L s)). unfold cut.
  rewrite (first_failure_ext f (fun _ c => if is_save c then Some e else None) 0 _ H).
  destruct s; eexists _, _;
    match goal with
    | |- exists draws c, ?ps = ?p :: _ /\ _ =>
        exists (removelast (firstn (List.length (run (body L p) inv r) - 2)
                              (run (body L p) inv r)))
    end;
    eexists; (split; [reflexivity|]); evaluate; repeat split.
Qed.

Lemma unwritable_directory_witness :
  saving_fails (Raised "FileNotFoundError" "No such file or directory") unwritable /\
  exists p rest draws c,
    procedures GenerateCharts = p :: rest /\
    run_with unwritable (execute stand_in GenerateCharts) plain steady =
      ((draws ++ [Invoke 0 c])%list,
       Aborted (Raised "FileNotFoundError" "No such file or directory")) /\
    firstn (S (List.length draws)) (run (body stand_in p) plain steady)
      = (draws ++ [Invoke 0 c])%list /\
    target c = Pyplot /\ method c = "savefig" /\ args c = [Str (png p)] /\
    externals draws = [].
Proof.
  assert (H : saving_fails (Raised "FileNotFoundError" "No such file or directory")
                unwritable) by (intros n c; reflexivity).
  split; [exact H|].
  exact (@unwritable_directory stand_in GenerateCharts unwritable _ plain steady H).
Defined.
